(** * Signal analysis engine: a shallow embedding of the Python sources

    The development follows the repository file by file:
    [common_lib] (padding, mean, variance, standard deviation),
    [statistical] (moving average), [vector] (spike, stall and oscillation
    detectors, median filter, spike restoration), [signal_process]
    (frequency bins, cumulative integration) and the four commands of
    [app_gui] that replace the working sequence of a signal.

    Python values are modelled as follows.
    - [int] is [Z]; [//] on a positive divisor is [Z.div].
    - [float] is an abstract type [F] with the operations the code uses
      ([Number]).  Two instances are given: [binary64], the IEEE 754 double
      precision numbers CPython computes with (Rocq's primitive floats), and
      [exact], the real numbers, i.e. the arithmetic the specification
      reasons in.  Every definition is generic; it runs on [binary64].
      A number is a Python [float] or a [numpy.float64] ([py.scalar]): the
      two differ in [**] and in [/] by zero.
    - a [list] object lives in a store ([heap]) and is named by a location,
      so that two names for one list are one location.
    - an exception is a value of [exn]; fallible code returns a [result]. *)

From Stdlib Require Import ZArith Reals Lra Lia Floats.
From stdpp Require Import base option list gmap strings sorting.

Set Warnings "-inexact-float".

(** ** Exceptions and results *)

Inductive exn : Set :=
| ZeroDivisionError
| IndexError
| NameError
| ValueError
| OverflowError.

Inductive result (A : Type) : Type :=
| Ok (a : A)
| Raise (e : exn).

Arguments Ok {A} a.
Arguments Raise {A} e.

#[global] Instance result_ret : MRet result := fun _ a => Ok a.

#[global] Instance result_bind : MBind result := fun _ _ f m =>
  match m with
  | Ok a => f a
  | Raise e => Raise e
  end.

(** ** Numbers *)

(** The arithmetic a Python [float] offers to this program.  [ltb] and [eqb]
    are [<] and [==]; [to_int] is [int(x)], which truncates toward zero and
    raises on a NaN or an infinity; [of_int] is the implicit conversion of an
    [int] operand in mixed arithmetic; [is_finite] tells the numbers from
    the infinities and the NaNs. *)
Class Number (F : Type) : Type := {
  of_int : Z -> F;
  add : F -> F -> F;
  sub : F -> F -> F;
  mul : F -> F -> F;
  div : F -> F -> F;
  sqrt : F -> F;
  fabs : F -> F;
  ltb : F -> F -> bool;
  eqb : F -> F -> bool;
  is_finite : F -> bool;
  to_int : F -> result Z
}.

Declare Scope num_scope.
Delimit Scope num_scope with num.
Notation "x + y" := (add x y) : num_scope.
Notation "x - y" := (sub x y) : num_scope.
Notation "x * y" := (mul x y) : num_scope.
Notation "x / y" := (div x y) : num_scope.
Notation "x <? y" := (ltb x y) : num_scope.
Notation "x >? y" := (ltb y x) : num_scope.
Notation "x =? y" := (eqb x y) : num_scope.

(** A decimal literal [p/q] of the source ([0.05] is [dec 5 100]).  On
    [binary64] the correctly rounded quotient of two small integers is the
    double the literal denotes. *)
Definition dec `{Number F} (p q : Z) : F := (of_int p / of_int q)%num.

(** *** IEEE 754 double precision *)

Definition float_of_int (z : Z) : float :=
  SF2Prim (binary_normalize prec emax z 0 false).

Definition float_to_int (x : float) : result Z :=
  match Prim2SF x with
  | S754_zero _ => Ok 0%Z
  | S754_finite s m e =>
      let v := (if 0 <=? e then Z.pos m * 2 ^ e else Z.pos m / 2 ^ (- e))%Z in
      Ok (if s then (- v)%Z else v)
  | S754_infinity _ => Raise OverflowError
  | S754_nan => Raise ValueError
  end.

#[global] Instance binary64 : Number float := {|
  of_int := float_of_int;
  add := PrimFloat.add;
  sub := PrimFloat.sub;
  mul := PrimFloat.mul;
  div := PrimFloat.div;
  sqrt := PrimFloat.sqrt;
  fabs := PrimFloat.abs;
  ltb := PrimFloat.ltb;
  eqb := PrimFloat.eqb;
  is_finite := PrimFloat.is_finite;
  to_int := float_to_int
|}.

(** *** Exact arithmetic *)

Definition real_to_int (x : R) : Z :=
  if Rle_dec 0 x then Int_part x else (- Int_part (- x))%Z.

#[global] Instance exact : Number R := {|
  of_int := IZR;
  add := Rplus;
  sub := Rminus;
  mul := Rmult;
  div := Rdiv;
  sqrt := R_sqrt.sqrt;
  fabs := Rabs;
  ltb := fun x y => if Rlt_dec x y then true else false;
  eqb := fun x y => if Req_dec_T x y then true else false;
  is_finite := fun _ => true;
  to_int := fun x => Ok (real_to_int x)
|}.

(** ** Python built-ins on lists *)

Module py.

Definition len {A} (l : list A) : Z := Z.of_nat (length l).

(** [range(k)]: empty when [k <= 0]. *)
Definition range (k : Z) : list Z := Z.of_nat <$> seq 0 (Z.to_nat k).

(** The position an index denotes: a negative index counts from the end. *)
Definition position {A} (l : list A) (i : Z) : option nat :=
  if (0 <=? i)%Z then
    if (i <? len l)%Z then Some (Z.to_nat i) else None
  else
    if (- len l <=? i)%Z then Some (Z.to_nat (i + len l)) else None.

(** [l[i]] *)
Definition getitem {A} (l : list A) (i : Z) : result A :=
  match position l i ≫= (l !!.) with
  | Some x => Ok x
  | None => Raise IndexError
  end.

(** [l[i] = v], as the contents of the list after the assignment. *)
Definition setitem {A} (l : list A) (i : Z) (v : A) : result (list A) :=
  match position l i with
  | Some k => Ok (<[k := v]> l)
  | None => Raise IndexError
  end.

(** A slice bound: negative bounds count from the end, and every bound is
    clipped to the list. *)
Definition bound {A} (l : list A) (i : Z) : nat :=
  Z.to_nat (if (i <? 0)%Z then Z.max 0 (i + len l) else Z.min i (len l)).

(** [l[a:b]] *)
Definition slice {A} (l : list A) (a b : Z) : list A :=
  take (bound l b - bound l a) (drop (bound l a) l).

(** [l[a:]] *)
Definition slice_from {A} (l : list A) (a : Z) : list A := drop (bound l a) l.

(** [l[:b]] *)
Definition slice_to {A} (l : list A) (b : Z) : list A := take (bound l b) l.

(** A [for] loop over [xs] whose body updates the loop state [s] or raises. *)
Fixpoint for_each {A S} (xs : list A) (body : S -> A -> result S) (s : S)
  : result S :=
  match xs with
  | [] => Ok s
  | x :: rest => s' ← body s x; for_each rest body s'
  end.

(** The numbers of the program are Python [float]s (the samples of a
    signal and what is computed from them) or [numpy.float64]s (the entries
    of the array [detrend] returns and what is computed from them). *)
Inductive scalar : Set :=
| python_float
| numpy_float64.

(** The kind of a sum that starts from the integer [0], as [sum(data)]
    does: over no entry it is that integer, which divides as a Python
    number does. *)
Definition sum_kind {A} (k : scalar) (data : list A) : scalar :=
  match data with
  | [] => python_float
  | _ :: _ => k
  end.

Section numeric.
Context {F : Type} `{Number F}.

(** [sum(data)]: the additions start from the integer [0] and go left to
    right. *)
Definition sum (data : list F) : F := fold_left add data (of_int 0).

(** [x ** 2].  On a Python [float] the power raises [OverflowError] when
    the square of a finite number is not finite; on a [numpy.float64] it
    gives the infinity (and warns).  The value is the correctly rounded
    square. *)
Definition sq (k : scalar) (x : F) : result F :=
  match k with
  | python_float =>
      if is_finite x && negb (is_finite (x * x)%num)
      then Raise OverflowError else Ok (x * x)%num
  | numpy_float64 => Ok (x * x)%num
  end.

(** [x / d] for an [int] divisor: Python raises on a zero divisor, numpy
    gives an infinity or a NaN (and warns). *)
Definition true_div (k : scalar) (x : F) (d : Z) : result F :=
  match k with
  | python_float =>
      if (d =? 0)%Z then Raise ZeroDivisionError else Ok (x / of_int d)%num
  | numpy_float64 => Ok (x / of_int d)%num
  end.

(** [sorted(l)]: a stable sort that compares with [<] only. *)
Fixpoint insert_sorted (x : F) (l : list F) : list F :=
  match l with
  | [] => [x]
  | y :: rest => if (y <? x)%num then y :: insert_sorted x rest else x :: l
  end.

Definition sorted (l : list F) : list F := foldr insert_sorted [] l.

(** [max(l, key=abs)]: the first element of greatest key; raises on an empty
    sequence. *)
Definition max_key_abs (l : list F) : result F :=
  match l with
  | [] => Raise ValueError
  | x :: rest =>
      Ok (fold_left (fun best item =>
                       if (fabs item >? fabs best)%num then item else best)
                    rest x)
  end.

(** [min(l)] and [max(l)]: the first least and the first greatest element;
    they raise on an empty sequence. *)
Definition min_ (l : list F) : result F :=
  match l with
  | [] => Raise ValueError
  | x :: rest =>
      Ok (fold_left (fun best item => if (item <? best)%num then item else best)
                    rest x)
  end.

Definition max_ (l : list F) : result F :=
  match l with
  | [] => Raise ValueError
  | x :: rest =>
      Ok (fold_left (fun best item => if (item >? best)%num then item else best)
                    rest x)
  end.

End numeric.

End py.

(** ** The store of list objects *)

(** A Python list is a mutable object; a variable or attribute holds a
    reference to it.  The store maps a location to the contents of the list
    that lives there.  A computation may read and update the store and may
    raise; the store survives a raise, as the heap of the interpreter does. *)
Module store.

Abbreviation loc := positive.
Abbreviation heap F := (gmap positive (list F)).

Definition M (F A : Type) : Type := heap F -> result A * heap F.

Section ops.
Context {F : Type}.

Definition ret {A} (a : A) : M F A := fun σ => (Ok a, σ).

Definition bind {A B} (c : M F A) (k : A -> M F B) : M F B := fun σ =>
  match c σ with
  | (Ok a, σ') => k a σ'
  | (Raise e, σ') => (Raise e, σ')
  end.

(** A pure, possibly raising, computation. *)
Definition lift {A} (c : result A) : M F A := fun σ => (c, σ).

(** A new list object with the given contents. *)
Definition alloc (l : list F) : M F loc := fun σ =>
  let r := fresh (dom σ) in (Ok r, <[r := l]> σ).

(** The contents of the list at [r]. *)
Definition read (r : loc) : M F (list F) := fun σ => (Ok (σ !!! r), σ).

(** [r[i] = v] on the list object at [r]. *)
Definition store_item (r : loc) (i : Z) (v : F) : M F unit := fun σ =>
  match py.setitem (σ !!! r) i v with
  | Ok l' => (Ok tt, <[r := l']> σ)
  | Raise e => (Raise e, σ)
  end.

(** A [for] loop whose body acts on the store. *)
Fixpoint for_each {A} (xs : list A) (body : A -> M F unit) : M F unit :=
  match xs with
  | [] => ret tt
  | x :: rest => bind (body x) (fun _ => for_each rest body)
  end.

End ops.

End store.

(** ** common_lib.py *)

Module common_lib.
Section common_lib.
Context {F : Type} `{Number F}.

(** [[data[0]] * (window_size // 2) + data + [data[-1]] * (window_size // 2)] *)
Definition padded_data (data : list F) (window_size : Z) : result (list F) :=
  first ← py.getitem data 0;
  last ← py.getitem data (-1);
  mret (replicate (Z.to_nat (window_size / 2)) first ++ data
        ++ replicate (Z.to_nat (window_size / 2)) last).

(** [mean_value] and [variance] are called on lists of Python [float]s and
    on arrays of [numpy.float64]: [k] is the kind of the entries of [data]. *)
Definition mean_value (k : py.scalar) (data : list F) (number_of_data : Z)
  : result F :=
  py.true_div (py.sum_kind k data) (py.sum data) number_of_data.

Definition variance (k : py.scalar) (data : list F) (number_of_data : Z)
  : result F :=
  mean ← mean_value k data number_of_data;
  s ← py.for_each data
        (fun s value => q ← py.sq k (value - mean)%num; mret (s + q)%num)
        (of_int 0);
  py.true_div (py.sum_kind k data) s number_of_data.

Definition std_dev (variance : F) : F := sqrt variance.

End common_lib.
End common_lib.

(** ** statistical.py *)

Module statistical.

(** A value of the dictionary [analysis] returns: a number, or the sequence
    of the moving averages. *)
Inductive value (F : Type) : Type :=
| Scalar (x : F)
| Sequence (l : list F).

Arguments Scalar {F} x.
Arguments Sequence {F} l.

Section statistical.
Context {F : Type} `{Number F}.
(** [self.vector_data] (the list [self.vector.current] names) and
    [self.vector.n]. *)
Context (vector_data : list F) (n : Z).

Definition moving_average : result (list F) :=
  window_size ← to_int (of_int n / of_int 10)%num;
  py.for_each (py.range (n - window_size + 1))
    (fun averages i =>
       let window := py.slice vector_data i (i + window_size) in
       avg ← py.true_div py.python_float (py.sum window) window_size;
       mret (averages ++ [avg]))
    [].

Definition mean_value : result F :=
  common_lib.mean_value py.python_float vector_data n.

Definition median : result F :=
  let sorted_vector := py.sorted vector_data in
  let mid_point := (n / 2)%Z in
  if (n mod 2 =? 1)%Z then py.getitem sorted_vector mid_point
  else
    a ← py.getitem sorted_vector (mid_point - 1);
    b ← py.getitem sorted_vector mid_point;
    mret ((a + b) / of_int 2)%num.

Definition variance : result F :=
  common_lib.variance py.python_float vector_data n.

Definition std_dev : result F :=
  variance ← variance; mret (common_lib.std_dev variance).

Definition min : result F := py.min_ vector_data.

Definition max : result F := py.max_ vector_data.

(** [self.max() - self.min()] *)
Definition range : result F :=
  hi ← max; lo ← min; mret (hi - lo)%num.

Definition rms : result F :=
  s ← py.for_each vector_data
        (fun s value => q ← py.sq py.python_float value; mret (s + q)%num)
        (of_int 0);
  q ← py.true_div py.python_float s n;
  mret (sqrt q).

Definition energy : result F :=
  py.for_each vector_data
    (fun energy value =>
       q ← py.sq py.python_float value; mret (energy + q)%num)
    (of_int 0).

(** The dictionary literal evaluates its entries in the order written. *)
Definition analysis : result (gmap string (value F)) :=
  mean_value ← mean_value;
  median ← median;
  variance ← variance;
  std_dev ← std_dev;
  min ← min;
  max ← max;
  range ← range;
  rms ← rms;
  moving_average ← moving_average;
  energy ← energy;
  mret (list_to_map
          [("mean_value"%string, Scalar mean_value);
           ("median"%string, Scalar median);
           ("variance"%string, Scalar variance);
           ("std_dev"%string, Scalar std_dev);
           ("min"%string, Scalar min);
           ("max"%string, Scalar max);
           ("range"%string, Scalar range);
           ("rms"%string, Scalar rms);
           ("moving_average"%string, Sequence moving_average);
           ("energy"%string, Scalar energy)]).

End statistical.
End statistical.

(** ** vector.py *)

Module vector.

(** *** The detectors and the median filter

    These methods only read [self.current] and [self.n]; they are functions
    of the contents of the list [self.current] names and of [self.n]. *)
Section methods.
Context {F : Type} `{Number F}.
(** [scipy.signal.detrend], which subtracts the least-squares line: an
    external library function, left abstract.  It returns an array of
    [numpy.float64], or raises (on an array that holds an infinity or a
    NaN). *)
Context (detrend : list F -> result (list F)).
Context (current : list F) (n : Z).

Definition detect_spikes : result (list (Z * F)) :=
  let window_ratio : F := dec 5 100 in
  let min_stall_length := 10%Z in
  w ← to_int (of_int n * window_ratio)%num;
  let window_size := Z.max w min_stall_length in
  padded_data ← common_lib.padded_data current window_size;
  variance ← common_lib.variance py.python_float current n;
  let global_std := common_lib.std_dev variance in
  py.for_each (py.range n)
    (fun spikes i =>
       let window := py.slice padded_data i (i + window_size) in
       let center_idx := (window_size / 2)%Z in
       let window_wo_center :=
         py.slice_to window center_idx ++ py.slice_from window (center_idx + 1) in
       let n_window_center := py.len window_wo_center in
       local_mean ← common_lib.mean_value py.python_float
                      window_wo_center n_window_center;
       local_var ← common_lib.variance py.python_float
                     window_wo_center n_window_center;
       let local_std := common_lib.std_dev local_var in
       if (local_std >? of_int 0)%num then
         x ← py.getitem current i;
         let diff := fabs (x - local_mean)%num in
         if (diff >? of_int 4 * local_std)%num then
           y ← py.getitem current i;
           mret (spikes ++ [(i, y)])
         else mret spikes
       else mret spikes)
    [].

(** [np.sign] *)
Definition sign (x : F) : F :=
  if (x <? of_int 0)%num then of_int (-1)
  else if (x >? of_int 0)%num then of_int 1
  else if (x =? of_int 0)%num then of_int 0
  else x.

(** [np.diff(a)]: [a[j+1] - a[j]] for every [j]. *)
Definition diff (a : list F) : list F :=
  zip_with (fun x y => (y - x)%num) a (drop 1 a).

(** [np.where(d != 0)[0]]: the indices of the entries that differ from zero,
    in increasing order. *)
Definition where_nonzero (d : list F) : list Z :=
  fst <$> List.filter (fun p => negb (snd p =? of_int 0)%num)
                      (zip (py.range (py.len d)) d).

(** The sub-intervals between consecutive zero crossings of a detrended
    window: their lengths and their peak amplitudes. *)
Definition crossing_intervals (centered : list F) (zero_crossings : list Z)
  : result (list Z * list F) :=
  py.for_each (py.range (py.len zero_crossings - 1))
    (fun '(length, amp) j =>
       idx1 ← py.getitem zero_crossings j;
       idx2 ← py.getitem zero_crossings (j + 1);
       local_amp ← py.max_key_abs (py.slice centered idx1 idx2);
       mret (length ++ [(idx2 - idx1)%Z], amp ++ [fabs local_amp]))
    ([], []).

Definition detect_oscillations (window_ratio : F) : result (list (Z * Z)) :=
  let min_cycles := 5%Z in
  let min_osci_length := 10%Z in
  w ← to_int (of_int n * window_ratio)%num;
  let window_size := Z.max w min_osci_length in
  padded_data ← common_lib.padded_data current window_size;
  variance ← common_lib.variance py.python_float current n;
  let global_std := common_lib.std_dev variance in
  py.for_each (py.range (n - window_size + 1))
    (fun osci_regions i =>
       let start := i in
       let end_ := (i + window_size)%Z in
       let window := py.slice padded_data start end_ in
       let n_window := py.len window in
       centered ← detrend window;
       local_var ← common_lib.variance py.numpy_float64 centered n_window;
       let local_std := common_lib.std_dev local_var in
       if (local_std <? dec 1 100 * global_std)%num then mret osci_regions
       else
         let signs := sign <$> centered in
         let zero_crossings := where_nonzero (diff signs) in
         if (min_cycles <? py.len zero_crossings)%Z then
           '(length, amp) ← crossing_intervals centered zero_crossings;
           amp_var ← common_lib.variance py.numpy_float64 amp (py.len amp);
           let amp_std := common_lib.std_dev amp_var in
           amp_mean ← common_lib.mean_value py.numpy_float64 amp (py.len amp);
           count ← py.for_each (py.range (py.len length))
             (fun count k =>
                length_k ← py.getitem length k;
                if (5 <=? length_k)%Z && (amp_std <? dec 3 10 * amp_mean)%num
                then mret (count + 1)%Z
                else mret count)
             0%Z;
           if (3 <? count)%Z then mret (osci_regions ++ [(start, end_)])
           else mret osci_regions
         else mret osci_regions)
    [].

Definition filtered_data (count : Z) : result (list F) :=
  let window_size := (1 + 2 * count)%Z in
  padded_data ← common_lib.padded_data current window_size;
  py.for_each (py.range n)
    (fun filtered i =>
       let window := py.slice padded_data i (i + window_size) in
       median ← py.getitem (py.sorted window) (window_size / 2);
       mret (filtered ++ [median]))
    [].

(** The loop state of the scan over the stall flags: the intervals found so
    far, whether a run is open, and where it started. *)
Definition scan_state : Type := list (Z * Z) * bool * Z.

Definition scan_step (window_size : Z) (s : scan_state) (p : Z * bool)
  : scan_state :=
  let '(stalls, in_stall, start) := s in
  let '(i, flag) := p in
  let min_stall_length := 10%Z in
  if flag && negb in_stall then (stalls, true, i)
  else if negb flag && in_stall then
    let end_ := (i + window_size - 1)%Z in
    (if (min_stall_length <=? end_ - start)%Z
     then stalls ++ [(start, Z.min end_ (n - 1))]
     else stalls,
     false, start)
  else s.

(** [enumerate(l)] *)
Definition enumerate {A} (l : list A) : list (Z * A) :=
  zip (py.range (py.len l)) l.

(** The standard deviation of every window [current[i : i + window_size]]. *)
Definition moving_std (window_size : Z) : result (list F) :=
  py.for_each (py.range (n - window_size + 1))
    (fun moving_std i =>
       let window := py.slice current i (i + window_size) in
       var ← common_lib.variance py.python_float window (py.len window);
       let std := common_lib.std_dev var in
       mret (moving_std ++ [std]))
    [].

Definition detect_stalls : result (list (Z * Z)) :=
  let window_ratio : F := dec 3 100 in
  let threshold_ratio : F := dec 2 1000 in
  let min_stall_length := 10%Z in
  w ← to_int (of_int n * window_ratio)%num;
  let window_size := Z.max w min_stall_length in
  variance ← common_lib.variance py.python_float current n;
  let global_std := common_lib.std_dev variance in
  '(stalls, in_stall, start) ←
    (if (global_std =? of_int 0)%num then
       (* [stalls = [(0, n-1)]]: no variable [n] is bound in this scope *)
       Raise NameError
     else
       let threshold := (global_std * threshold_ratio)%num in
       moving_std ← moving_std window_size;
       let stall_flags := (fun std => (std <? threshold)%num) <$> moving_std in
       mret (fold_left (scan_step window_size) (enumerate stall_flags)
                       ([], false, 0%Z)));
  if in_stall : bool then
    let end_ := (n - 1)%Z in
    if (min_stall_length <=? end_ - start)%Z
    then mret (stalls ++ [(start, end_)])
    else mret stalls
  else mret stalls.

End methods.

(** *** The object *)
Section object.
Context {F : Type} `{Number F}.

(** The attributes of a [vector]: [original_data] and [current] are
    references to list objects. *)
Record t : Type := {
  original_data : store.loc;
  current : store.loc;
  header : option string;
  n : Z
}.

(** The argument of the constructor: a list that starts with a string
    (the header) and goes on with the samples, or the list object at [r],
    which holds samples only. *)
Inductive argument : Type :=
| WithHeader (h : string) (samples : list F)
| Samples (r : store.loc).

(** [vec[1:]] is a new list object; without a header the argument itself is
    returned.  [vec[0]] raises on an empty list. *)
Definition check_header (vec : argument)
  : store.M F (store.loc * option string) :=
  match vec with
  | WithHeader h samples =>
      store.bind (store.alloc samples) (fun r => store.ret (r, Some h))
  | Samples r =>
      store.bind (store.read r) (fun l =>
      store.bind (store.lift (py.getitem l 0)) (fun _ =>
      store.ret (r, None)))
  end.

(** [len(self.current)] *)
Definition number_values (current : store.loc) : store.M F Z :=
  store.bind (store.read current) (fun l => store.ret (py.len l)).

(** [__init__] *)
Definition init (vec : argument) : store.M F t :=
  store.bind (check_header vec) (fun r1 =>
  store.bind (check_header vec) (fun r2 =>
  store.bind (check_header vec) (fun r3 =>
  store.bind (number_values (fst r2)) (fun n =>
  store.ret {| original_data := fst r1; current := fst r2;
               header := snd r3; n := n |})))).

(** A call of one of the methods above on the object [self]. *)
Definition call {A} (method : list F -> Z -> result A) (self : t)
  : store.M F A :=
  store.bind (store.read (current self)) (fun cur =>
  store.lift (method cur (n self))).

(** [restore_spikes] assigns into the list object [vec] and returns it. *)
Definition restore_spikes (spikes : list (Z * F)) (vec : store.loc)
  : store.M F store.loc :=
  store.bind
    (store.for_each spikes (fun spike =>
       store.store_item vec (fst spike) (snd spike)))
    (fun _ => store.ret vec).

End object.

End vector.

(** ** signal_process.py *)

Module signal_process.
Section signal_process.
Context {F : Type} `{Number F}.

(** [x / y] for a [float] divisor. *)
Definition float_div (x y : F) : result F :=
  if (y =? of_int 0)%num then Raise ZeroDivisionError else Ok (x / y)%num.

(** Modelled from the spec: [rfftfreq] is a function of the FFT library,
    which is not part of the sources.  [rfftfreq n d] is the sequence of the
    non-negative frequency bins of a real-input FFT of length [n] with sample
    spacing [d]: the integers [0 .. n // 2], each multiplied by
    [1.0 / (n * d)]. *)
Definition rfftfreq (n : Z) (d : F) : result (list F) :=
  val ← float_div (of_int 1) (of_int n * d)%num;
  mret ((fun k => (of_int k * val)%num) <$> py.range (n / 2 + 1)).

(** [np.cumsum]: the running sums, the first being the first entry. *)
Fixpoint cumsum_from (s : F) (a : list F) : list F :=
  match a with
  | [] => []
  | x :: rest => (s + x)%num :: cumsum_from (s + x)%num rest
  end.

Definition cumsum (a : list F) : list F :=
  match a with
  | [] => []
  | x :: rest => x :: cumsum_from x rest
  end.

(** Modelled from the spec: [cumulative_trapezoid] is a function of the
    integration library, which is not part of the sources.  With
    [initial=0] the result has the length of the input: the value [0]
    followed by the running sums of the trapezoid areas
    [dx * (y[j+1] + y[j]) / 2.0]. *)
Definition cumulative_trapezoid (y : list F) (dx : F) : result (list F) :=
  match y with
  | [] => Raise ValueError
  | _ :: rest =>
      let areas := zip_with (fun a b => (dx * (b + a) / of_int 2)%num) y rest in
      mret (of_int 0 :: cumsum areas)
  end.

(** The attributes of a [signal_process]. *)
Record t : Type := {
  vector : vector.t;
  time_step : F;
  vector_data : store.loc
}.

(** [__init__] *)
Definition init (vector : vector.t) (time_step : F) : t :=
  {| vector := vector; time_step := time_step;
     vector_data := vector.current vector |}.

Definition frequencies (self : t) : result (list F) :=
  d ← float_div (of_int 1) (time_step self);
  rfftfreq (vector.n (vector self)) d.

(** [integ.tolist()] is a new list object. *)
Definition integral (self : t) : store.M F store.loc :=
  store.bind (store.read (vector_data self)) (fun data =>
  store.bind (store.lift (cumulative_trapezoid data (time_step self)))
             store.alloc).

End signal_process.
End signal_process.

(** ** app_gui.py: the commands that replace the working sequence *)

Module app_gui.
Section app_gui.
Context {F : Type} `{Number F}.

(** The part of a [SignalAnalyzer] these commands use: the selected signal
    [self.results.vectors[i]], [self.results.time_step] and
    [self.filtered_count]. *)
Record t : Type := {
  selected : vector.t;
  time_step : F;
  filtered_count : Z
}.

Definition set_current (v : vector.t) (r : store.loc) : vector.t :=
  {| vector.original_data := vector.original_data v;
     vector.current := r;
     vector.header := vector.header v;
     vector.n := vector.n v |}.

Definition restore_data (self : t) : store.M F t :=
  store.ret {| selected := set_current (selected self)
                             (vector.original_data (selected self));
               time_step := time_step self;
               filtered_count := filtered_count self |}.

Definition integration (self : t) : store.M F t :=
  let sig_proc := signal_process.init (selected self) (time_step self) in
  store.bind (signal_process.integral sig_proc) (fun integ =>
  store.ret {| selected := set_current (selected self) integ;
               time_step := time_step self;
               filtered_count := filtered_count self |}).

(** [vector.filtered_data] builds the list [filtered] anew. *)
Definition median_filter (self : t) : store.M F store.loc :=
  store.bind
    (vector.call (fun cur n => vector.filtered_data cur n (filtered_count self))
                 (selected self))
    store.alloc.

Definition filtered_data (self : t) : store.M F t :=
  store.bind (median_filter self) (fun filtered =>
  store.ret {| selected := set_current (selected self) filtered;
               time_step := time_step self;
               filtered_count := filtered_count self + 1 |}).

Definition filtered_data_keep_spikes (self : t) : store.M F t :=
  store.bind (vector.call vector.detect_spikes (selected self)) (fun spikes =>
  store.bind (median_filter self) (fun filtered =>
  store.bind (vector.restore_spikes spikes filtered) (fun filtered =>
  store.ret {| selected := set_current (selected self) filtered;
               time_step := time_step self;
               filtered_count := filtered_count self + 1 |}))).

(** A command of the Tools menu that replaces [current]. *)
Inductive command : Set :=
| FilterSignal
| FilterSignalKeepSpikes
| IntegrateSignal
| RestoreSignal.

Definition execute (c : command) (self : t) : store.M F t :=
  match c with
  | FilterSignal => filtered_data self
  | FilterSignalKeepSpikes => filtered_data_keep_spikes self
  | IntegrateSignal => integration self
  | RestoreSignal => restore_data self
  end.

(** The commands run one after the other; a command that raises is
    abandoned, as the event loop does, and the next one runs on the state it
    left. *)
Fixpoint session (cs : list command) (self : t) (σ : store.heap F)
  : t * store.heap F :=
  match cs with
  | [] => (self, σ)
  | c :: rest =>
      match execute c self σ with
      | (Ok self', σ') => session rest self' σ'
      | (Raise _, σ') => session rest self σ'
      end
  end.

(** The end points [detect_stalls] plots, one pair of abscissas and one pair
    of ordinates per stall, read from the list [current] names. *)
Definition detect_stalls (current : list F) (n : Z)
  : result (list (list Z * list F)) :=
  stalls ← vector.detect_stalls current n;
  py.for_each stalls
    (fun plotted stall =>
       let x_values := [fst stall; (snd stall - 1)%Z] in
       y0 ← py.getitem current (fst stall);
       y1 ← py.getitem current (snd stall - 1);
       mret (plotted ++ [(x_values, [y0; y1])]))
    [].

(** The loop over the window ratios: it stops at the first ratio that gives
    a region; [oscis] holds the regions of the last ratio tried. *)
Fixpoint try_ratios (detrend : list F -> result (list F)) (current : list F)
    (n : Z)
    (window_ratios : list F) (oscis : list (Z * Z)) : result (list (Z * Z)) :=
  match window_ratios with
  | [] => Ok oscis
  | ratio :: rest =>
      oscis ← vector.detect_oscillations detrend current n ratio;
      if (py.len oscis =? 0)%Z then try_ratios detrend current n rest oscis
      else Ok oscis
  end.

(** The end points [detect_oscillations] plots, or [None] when it warns that
    no oscillation was detected. *)
Definition detect_oscillations (detrend : list F -> result (list F))
    (current : list F) (n : Z) : result (option (list Z * list F)) :=
  let window_ratios : list F := [dec 5 100; dec 1 10] in
  oscis ← try_ratios detrend current n window_ratios [];
  if (py.len oscis =? 0)%Z then mret None
  else
    first ← py.getitem oscis 0;
    last ← py.getitem oscis (-1);
    let x_values := [fst first; snd last] in
    first' ← py.getitem oscis 0;
    y0 ← py.getitem current (fst first');
    last' ← py.getitem oscis (-1);
    y1 ← py.getitem current (snd last');
    mret (Some (x_values, [y0; y1])).

End app_gui.
End app_gui.

(** ** data.py *)

Module data.
Section data.
Context {F : Type} `{Number F}.
(** [float(s)] on a string: the parser of the interpreter, left abstract.
    It raises [ValueError] on a string that is not a number. *)
Context (float_of_string : string -> result F).

(** An entry of a column while it is filled: the string of the first row,
    or the number read from a later row. *)
Inductive cell : Type :=
| Str (s : string)
| Num (x : F).

Record t : Type := {
  raw_data : list (list string);
  n_vectors : Z;
  vectors : list vector.t;
  time_step : F
}.

(** [len(self.raw_data[0])] *)
Definition number_vectors (raw_data : list (list string)) : result Z :=
  row ← py.getitem raw_data 0;
  mret (py.len row).

(** The entry appended for [raw_data[i][j]]: kept as it is on the first row,
    converted by [float] on the others. *)
Definition entry (i : Z) (s : string) : result cell :=
  if (i =? 0)%Z then mret (Str s)
  else x ← float_of_string s; mret (Num x).

(** The loop over [j] for the row [i]: [vectors[j].append(...)]. *)
Definition append_row (raw_data : list (list string)) (n_vectors : Z)
    (vectors : list (list cell)) (i : Z) : result (list (list cell)) :=
  py.for_each (py.range n_vectors)
    (fun vectors j =>
       column ← py.getitem vectors j;
       row ← py.getitem raw_data i;
       s ← py.getitem row j;
       c ← entry i s;
       py.setitem vectors j (column ++ [c]))
    vectors.

(** The first two loops of [create_data_vectors]: [n_vectors] empty lists,
    then one entry per row in each of them. *)
Definition columns (raw_data : list (list string)) (n_vectors : Z)
  : result (list (list cell)) :=
  py.for_each (vector.enumerate raw_data)
    (fun vectors '(i, _) => append_row raw_data n_vectors vectors i)
    (replicate (Z.to_nat n_vectors) []).

(** The numbers of a column. *)
Definition numbers (column : list cell) : list F :=
  omap (fun c => match c with Num x => Some x | Str _ => None end) column.

(** [vector(vec)] on a column: the constructor sees a header when the first
    entry is a string; otherwise the column itself is the list object. *)
Definition vector_of (column : list cell) : store.M F vector.t :=
  match column with
  | Str h :: rest => vector.init (vector.WithHeader h (numbers rest))
  | Num _ :: _ =>
      store.bind (store.alloc (numbers column)) (fun r =>
      vector.init (vector.Samples r))
  | [] => store.lift (Raise IndexError)
  end.

(** The last loop: [vectors[i] = vector(vec)] for every column. *)
Fixpoint build (columns : list (list cell)) : store.M F (list vector.t) :=
  match columns with
  | [] => store.ret []
  | vec :: rest =>
      store.bind (vector_of vec) (fun v =>
      store.bind (build rest) (fun vs =>
      store.ret (v :: vs)))
  end.

Definition create_data_vectors (raw_data : list (list string))
    (n_vectors : Z) : store.M F (list vector.t) :=
  store.bind (store.lift (columns raw_data n_vectors)) build.

(** [__init__] *)
Definition init (data : list (list string)) : store.M F t :=
  store.bind (store.lift (number_vectors data)) (fun n_vectors =>
  store.bind (create_data_vectors data n_vectors) (fun vectors =>
  store.bind (store.lift (py.getitem vectors 0)) (fun first =>
  store.bind (store.read (vector.original_data first)) (fun original_data =>
  store.bind (store.lift (py.getitem original_data 1)) (fun x1 =>
  store.bind (store.lift (py.getitem vectors 0)) (fun first' =>
  store.bind (store.read (vector.original_data first')) (fun original_data' =>
  store.bind (store.lift (py.getitem original_data' 0)) (fun x0 =>
  store.ret {| raw_data := data; n_vectors := n_vectors;
               vectors := vectors; time_step := (x1 - x0)%num |})))))))).

End data.
End data.

(** * Vocabulary of the statements *)

Section vocabulary.
Context {F : Type} `{Number F}.
Implicit Types (σ : store.heap F) (self : app_gui.t (F := F)).

(** The assignments of [restore_spikes], one after the other. *)
Definition overwrite (spikes : list (Z * F)) (f : list F) : list F :=
  foldl (fun l (p : Z * F) => <[Z.to_nat (fst p) := snd p]> l) f spikes.

(** The samples a constructor argument carries. *)
Definition samples_of (vec : vector.argument) σ : list F :=
  match vec with
  | vector.WithHeader _ samples => samples
  | vector.Samples r => σ !!! r
  end.

(** What every command preserves: the list [original_data] names holds the
    samples [orig], and [n] is its length and the length of the list
    [current] names. *)
Definition consistent (orig : list F) self σ : Prop :=
  σ !! vector.original_data (app_gui.selected self) = Some orig /\
  py.len orig = vector.n (app_gui.selected self) /\
  exists cur, σ !! vector.current (app_gui.selected self) = Some cur /\
              py.len cur = vector.n (app_gui.selected self).

End vocabulary.

(** A signal of four doubles with a header, as the loader builds it. *)
Definition four_doubles : list float := [1%float; 3%float; 2%float; 5%float].

Definition loaded : vector.t * store.heap float :=
  match vector.init (vector.WithHeader "Signal_1" four_doubles) ∅ with
  | (Ok v, σ) => (v, σ)
  | (Raise _, σ) =>
      ({| vector.original_data := 1%positive; vector.current := 1%positive;
          vector.header := None; vector.n := 0 |}, σ)
  end.


Section stats_vocabulary.
Context {F : Type} `{Number F}.

(** A computation returns when it raises no exception. *)
Definition returns {A} (r : result A) : Prop := exists a, r = Ok a.

Definition is_ok {A} (r : result A) : bool :=
  match r with
  | Ok _ => true
  | Raise _ => false
  end.

(** The statistics of a sequence, as the specification defines them: the
    mean is the sum of the samples over their number, the variance the mean
    of the squared deviations from the mean, the standard deviation its
    square root. *)
Definition mean_of (l : list F) : F :=
  (fold_left add l (of_int 0) / of_int (py.len l))%num.

Definition variance_of (l : list F) : F :=
  (fold_left (fun s v => s + (v - mean_of l) * (v - mean_of l)) l (of_int 0)
   / of_int (py.len l))%num.

Definition std_of (l : list F) : F := sqrt (variance_of l).

(** The variance [detect_stalls] computes for the window that starts at
    offset [i]. *)
Definition window_variance (current : list F) (window_size i : Z) : result F :=
  let window := py.slice current i (i + window_size) in
  common_lib.variance py.python_float window (py.len window).

(** Offset [i] is in stall when the standard deviation of the window that
    starts there is below the threshold. *)
Definition stall_flags (current : list F) (n window_size : Z) (threshold : F)
  : list bool :=
  (fun i => (std_of (py.slice current i (i + window_size)) <? threshold)%num)
    <$> py.range (n - window_size + 1).

End stats_vocabulary.

(** A maximal run of in-stall offsets: the offsets [s .. e - 1] are in
    stall, offset [s - 1] is not (or [s] is the first offset) and offset [e]
    is not (or [e - 1] is the last offset). *)
Definition maximal_run (flags : list bool) (s e : Z) : Prop :=
  (0 <= s < e)%Z /\ (e <= py.len flags)%Z /\
  (forall i, (s <= i < e)%Z -> flags !! Z.to_nat i = Some true) /\
  ((0 < s)%Z -> flags !! Z.to_nat (s - 1) = Some false) /\
  ((e < py.len flags)%Z -> flags !! Z.to_nat e = Some false).

(** The state of the scan of [detect_stalls] after the first [k] offsets. *)
Definition scan_prefix (n window_size : Z) (flags : list bool) (k : nat)
  : vector.scan_state :=
  fold_left (vector.scan_step n window_size)
            (take k (vector.enumerate flags)) ([], false, 0%Z).

(** What the scan has established after the first [k] offsets: the runs
    closed so far are reported, and the open run, if any, is known. *)
Definition scan_invariant (n window_size : Z) (flags : list bool) (k : nat)
    (s : vector.scan_state) : Prop :=
  let '(stalls, in_stall, start) := s in
  (forall a b, (a, b) ∈ stalls <->
     exists e, (e < Z.of_nat k)%Z /\ maximal_run flags a e /\
               b = Z.min (e + window_size - 1) (n - 1)) /\
  (if in_stall : bool then
     (0 <= start < Z.of_nat k)%Z /\
     (forall i, (start <= i < Z.of_nat k)%Z -> flags !! Z.to_nat i = Some true) /\
     ((0 < start)%Z -> flags !! Z.to_nat (start - 1) = Some false)
   else (0 < k)%nat -> flags !! (k - 1)%nat = Some false).


(** The frequency bins the specification names: bin [k] is
    [k / (count * dt)] for [k = 0 .. floor(count / 2)]. *)
Definition frequency_bins `{Number F} (count : Z) (dt : F) : list F :=
  (fun k => (of_int k / (of_int count * dt))%num) <$> py.range (count / 2 + 1).

(** A signal of four samples taken every half second. *)
Definition half_second : signal_process.t (F := float) :=
  signal_process.init
    {| vector.original_data := 1%positive; vector.current := 1%positive;
       vector.header := None; vector.n := 4 |}
    0.5%float.


(** Forty samples [5.0] with the value [20.0] at indices 5 and 20. *)
Definition two_outliers : list float :=
  replicate 5 5%float ++ [20%float] ++ replicate 14 5%float ++ [20%float]
  ++ replicate 19 5%float.

(** Ten samples [1e154] then ten samples [-1e154]. *)
Definition large_samples : list float :=
  replicate 10 1e154%float ++ replicate 10 (-1e154)%float.

(** The in-stall flags of [two_outliers]: offsets 6 to 10 and 21 to 30. *)
Definition two_outliers_flags : list bool :=
  replicate 6 false ++ replicate 5 true ++ replicate 10 false
  ++ replicate 10 true.


Section oscillation_vocabulary.
Context {F : Type} `{Number F}.

(** The sign of a number: [-1], [0] or [1].  A NaN has no sign. *)
Definition signum (x : F) : option Z :=
  if (x <? of_int 0)%num then Some (-1)%Z
  else if (of_int 0 <? x)%num then Some 1%Z
  else if (x =? of_int 0)%num then Some 0%Z
  else None.

(** The signs of two samples differ.  A sample without a sign differs from
    every sample. *)
Definition signs_differ (x y : F) : bool :=
  match signum x, signum y with
  | Some a, Some b => negb (a =? b)%Z
  | _, _ => true
  end.

(** The zero crossings of a detrended window: the positions where
    consecutive signs differ, in increasing order.  [crossings_from s]
    counts the positions from [s]. *)
Fixpoint crossings_from (s : Z) (centered : list F) : list Z :=
  match centered with
  | [] => []
  | x :: rest =>
      match rest with
      | [] => []
      | y :: _ =>
          (if signs_differ x y then [s] else [])
          ++ crossings_from (s + 1) rest
      end
  end.

Definition zero_crossings (centered : list F) : list Z :=
  crossings_from 0 centered.

(** The sub-intervals between consecutive crossings. *)
Definition sub_intervals (centered : list F) : list (Z * Z) :=
  zip (zero_crossings centered) (drop 1 (zero_crossings centered)).

(** The peak absolute amplitude of a sequence: the greatest magnitude of
    its samples ([0] when it is empty). *)
Definition peak_amplitude (l : list F) : F :=
  match l with
  | [] => of_int 0
  | x :: rest =>
      fold_left (fun m v => if (m <? fabs v)%num then fabs v else m)
                rest (fabs x)
  end.

(** The peak amplitudes recorded for a window, one per sub-interval
    [a .. b - 1]. *)
Definition amplitudes (centered : list F) : list F :=
  (fun p => peak_amplitude (take (Z.to_nat (snd p - fst p))
                                 (drop (Z.to_nat (fst p)) centered)))
    <$> sub_intervals centered.

(** The sub-intervals that are long enough while the amplitudes of the
    window vary little. *)
Definition regular (centered : list F) (p : Z * Z) : bool :=
  (5 <=? snd p - fst p)%Z
  && (std_of (amplitudes centered) <? dec 3 10 * mean_of (amplitudes centered))%num.

Definition regular_intervals (centered : list F) : list (Z * Z) :=
  List.filter (regular centered) (sub_intervals centered).

(** A detrended window qualifies as an oscillation region: its standard
    deviation is not below [0.01 * global_std], it has more than 5 zero
    crossings, and more than 3 of its sub-intervals are regular. *)
Definition oscillating (global_std : F) (centered : list F) : Prop :=
  (std_of centered <? dec 1 100 * global_std)%num = false /\
  (5 < py.len (zero_crossings centered))%Z /\
  (3 < py.len (regular_intervals centered))%Z.

(** The indices of the non-zero entries of [d], counted from [s]. *)
Definition nonzero_from (s : nat) (d : list F) : list Z :=
  fst <$> List.filter (fun p : Z * F => negb (snd p =? of_int 0)%num)
                      (zip (Z.of_nat <$> seq s (length d)) d).

(** The test [oscillating], as a boolean. *)
Definition qualifies (global_std : F) (centered : list F) : bool :=
  negb (std_of centered <? dec 1 100 * global_std)%num
  && (5 <? py.len (zero_crossings centered))%Z
  && (3 <? py.len (regular_intervals centered))%Z.

End oscillation_vocabulary.


(** A square wave of eight periods of twelve samples, without trend. *)
Definition square_wave : list float :=
  mjoin (replicate 8 (replicate 6 1%float ++ replicate 6 (-1)%float)).


(** A sample of a two-valued signal: the outlier [20.0] or the level
    [5.0]. *)
Definition sample (outlier : bool) : R := if outlier then 20%R else 5%R.

(** The number of outliers of a two-valued signal. *)
Fixpoint outliers (bs : list bool) : nat :=
  match bs with
  | [] => 0
  | b :: rest => (if b then 1 else 0) + outliers rest
  end.

(** [a] samples at the level, [b] outliers, [c] samples at the level. *)
Definition blocks (a b c : nat) : list bool :=
  replicate a false ++ replicate b true ++ replicate c false.

(** A series of samples [5.0] with one sample [20.0] at index [p]. *)
Definition single_outlier (p q : nat) : list R :=
  replicate p 5%R ++ [20%R] ++ replicate q 5%R.

(** The mean and the variance of [m] samples of which [k] are outliers. *)
Definition mean_mk (m k : R) : R := (5 * m + 15 * k) / m.

Definition variance_mk (m k : R) : R :=
  ((m - k) * ((5 - mean_mk m k) * (5 - mean_mk m k))
   + k * ((20 - mean_mk m k) * (20 - mean_mk m k))) / m.


(** The padded signal of [single_outlier p q], for a padding of [h]
    samples on each side: the outlier is repeated when it is the first or
    the last sample. *)
Definition padded_outlier (p q h : nat) : list bool :=
  blocks (if p is O then 0 else h + p)
         ((if p is O then h else 0) + 1 + (if q is O then h else 0))
         (if q is O then 0 else q + h).

(** The index of [data] that position [p] of the padded sequence copies,
    for a padding of [h] samples: positions in the padding copy the first
    or the last sample. *)
Definition padded_source (h n p : Z) : nat :=
  Z.to_nat (Z.max 0 (Z.min (p - h) (n - 1))).

(** Ten samples alternating between [5.0] and [6.0], the value [100.0],
    twelve more alternating samples. *)
Definition ripple : list float :=
  mjoin (replicate 5 [5%float; 6%float]) ++ [100%float]
  ++ mjoin (replicate 6 [5%float; 6%float]).

(** An analyzer whose selected signal is [ripple], after one filtering. *)
Definition ripple_analyzer : app_gui.t (F := float) :=
  {| app_gui.selected :=
       {| vector.original_data := 1%positive; vector.current := 1%positive;
          vector.header := None; vector.n := 23 |};
     app_gui.time_step := 1%float;
     app_gui.filtered_count := 1 |}.

Definition ripple_heap : store.heap float := {[ 1%positive := ripple ]}.

(** A square wave of forty periods of twelve samples, without trend. *)
Definition long_square_wave : list float :=
  mjoin (replicate 40 (replicate 6 1%float ++ replicate 6 (-1)%float)).

(** Four samples in exact arithmetic. *)
Definition four_reals : list R := [1%R; 3%R; 2%R; 5%R].

(** Tables of strings, as [load_csv] returns them. *)
Section table_vocabulary.
Context {F : Type} `{Number F}.

(** The string in column [j] of a row. *)
Definition cell_at (row : list string) (j : nat) : string :=
  default ""%string (row !! j).

(** The header of column [j]: the string of the first row. *)
Definition header_of (raw_data : list (list string)) (j : nat) : string :=
  cell_at (default [] (raw_data !! 0%nat)) j.

(** The samples of column [j]: the numbers of the rows after the first. *)
Definition samples_at (value : string -> F) (raw_data : list (list string))
    (j : nat) : list F :=
  (fun row => value (cell_at row j)) <$> drop 1 raw_data.

(** A table with [p] columns: every row has at least [p] strings, and
    [float] reads the number [value s] from each string [s] of the first [p]
    columns of the rows after the first. *)
Definition table (float_of_string : string -> result F) (value : string -> F)
    (p : nat) (raw_data : list (list string)) : Prop :=
  forall (i : nat) row, raw_data !! i = Some row ->
    (p <= length row)%nat /\
    (i <> 0%nat -> forall (j : nat) s, (j < p)%nat -> row !! j = Some s ->
       float_of_string s = Ok (value s)).

(** The entry [create_data_vectors] appends for row [i] and column [j]. *)
Definition entry_at (value : string -> F) (i : nat) (row : list string)
    (j : nat) : data.cell :=
  if i is O then data.Str (cell_at row j)
  else data.Num (value (cell_at row j)).

(** Column [j] after the rows of [raw_data] have been read. *)
Definition column_at (value : string -> F) (raw_data : list (list string))
    (j : nat) : list data.cell :=
  imap (fun i row => entry_at value i row j) raw_data.

End table_vocabulary.

(** A table of two columns: a title row and three rows of numbers. *)
Definition readings : list (list string) :=
  [["t"; "x"]; ["a"; "b"]; ["c"; "d"]; ["e"; "f"]]%string.

(** A reader for the strings of [readings]. *)
Definition reading (s : string) : float :=
  if decide (s = "a"%string) then 0%float
  else if decide (s = "c"%string) then 0.5%float
  else if decide (s = "e"%string) then 1%float
  else 7%float.


(** * Properties *)

(** ** Built-ins *)

Section py_facts.
Context {A : Type}.
Implicit Types (l : list A) (i k : Z).

Lemma len_nonneg l : (0 <= py.len l)%Z.
Proof. unfold py.len. lia. Qed.

Lemma len_app l1 l2 : py.len (l1 ++ l2) = (py.len l1 + py.len l2)%Z.
Proof. unfold py.len. rewrite length_app. lia. Qed.

Lemma range_length k : length (py.range k) = Z.to_nat k.
Proof. unfold py.range. by rewrite length_fmap, length_seq. Qed.

Lemma range_nonpos k : (k <= 0)%Z -> py.range k = [].
Proof. intros Hk. unfold py.range. by replace (Z.to_nat k) with 0%nat by lia. Qed.

Lemma range_succ k : (0 <= k)%Z -> py.range (k + 1) = py.range k ++ [k].
Proof.
  intros Hk. unfold py.range.
  replace (Z.to_nat (k + 1)) with (S (Z.to_nat k)) by lia.
  rewrite seq_S, fmap_app. simpl. do 3 f_equal. lia.
Qed.

Lemma range_lookup k (j : nat) :
  (j < Z.to_nat k)%nat -> py.range k !! j = Some (Z.of_nat j).
Proof.
  intros Hj. unfold py.range. rewrite list_lookup_fmap.
  by rewrite lookup_seq_lt.
Qed.

Lemma elem_of_range k i : i ∈ py.range k <-> (0 <= i < k)%Z.
Proof.
  unfold py.range. rewrite list_elem_of_fmap. split.
  - intros (j & -> & Hj%elem_of_seq). lia.
  - intros Hi. exists (Z.to_nat i). split; [lia|]. apply elem_of_seq. lia.
Qed.

Lemma bound_nonneg l i :
  (0 <= i)%Z -> py.bound l i = (Z.to_nat i `min` length l)%nat.
Proof.
  intros Hi. unfold py.bound, py.len.
  destruct (Z.ltb_spec i 0); lia.
Qed.

Lemma slice_nonneg l a b :
  (0 <= a)%Z -> (0 <= b)%Z ->
  py.slice l a b = take (Z.to_nat b - Z.to_nat a) (drop (Z.to_nat a) l).
Proof.
  intros Ha Hb. unfold py.slice. rewrite !bound_nonneg by done.
  destruct (decide (length l <= Z.to_nat a)%nat) as [Hge|Hlt].
  - rewrite !drop_ge by lia. by rewrite !take_nil.
  - replace (Z.to_nat a `min` length l)%nat with (Z.to_nat a) by lia.
    destruct (decide (Z.to_nat b <= length l)%nat).
    + by replace (Z.to_nat b `min` length l)%nat with (Z.to_nat b) by lia.
    + replace (Z.to_nat b `min` length l)%nat with (length l) by lia.
      rewrite !take_ge; [done| |]; rewrite length_drop; lia.
Qed.

Lemma slice_length l a b :
  (0 <= a <= b)%Z -> (b <= py.len l)%Z -> py.len (py.slice l a b) = (b - a)%Z.
Proof.
  intros Hab Hb. rewrite slice_nonneg by lia. unfold py.len in *.
  rewrite length_take, length_drop. lia.
Qed.

Lemma slice_from_nonneg l a :
  (0 <= a)%Z -> py.slice_from l a = drop (Z.to_nat a) l.
Proof.
  intros Ha. unfold py.slice_from. rewrite bound_nonneg by done.
  destruct (decide (length l <= Z.to_nat a)%nat).
  - rewrite !drop_ge by lia. done.
  - f_equal. lia.
Qed.

Lemma slice_to_nonneg l b :
  (0 <= b)%Z -> py.slice_to l b = take (Z.to_nat b) l.
Proof.
  intros Hb. unfold py.slice_to. rewrite bound_nonneg by done.
  destruct (decide (length l <= Z.to_nat b)%nat).
  - rewrite !take_ge by lia. done.
  - f_equal. lia.
Qed.

Lemma position_nonneg l i :
  (0 <= i < py.len l)%Z -> py.position l i = Some (Z.to_nat i).
Proof.
  intros Hi. unfold py.position.
  destruct (Z.leb_spec 0 i); [|lia]. destruct (Z.ltb_spec i (py.len l)); [done|lia].
Qed.

Lemma getitem_lookup l i x :
  (0 <= i)%Z -> l !! Z.to_nat i = Some x -> py.getitem l i = Ok x.
Proof.
  intros Hi Hx. unfold py.getitem.
  rewrite position_nonneg; [simpl; by rewrite Hx|].
  apply lookup_lt_Some in Hx. unfold py.len. lia.
Qed.

Lemma getitem_first x l : py.getitem (x :: l) 0 = Ok x.
Proof. by apply getitem_lookup. Qed.

Lemma getitem_last l x : py.getitem (l ++ [x]) (-1) = Ok x.
Proof.
  unfold py.getitem, py.position, py.len. rewrite length_app. simpl.
  destruct (Z.leb_spec (- Z.of_nat (length l + 1)) (-1)); [|lia]. simpl.
  replace (Z.to_nat (-1 + Z.of_nat (length l + 1))) with (length l + 0)%nat by lia.
  by rewrite lookup_app_r, Nat.add_comm, Nat.add_sub by lia.
Qed.

Lemma getitem_nil i : py.getitem (@nil A) i = Raise IndexError.
Proof.
  unfold py.getitem. by destruct (py.position [] i) as [[|k]|].
Qed.

Lemma for_each_app {B S} (xs ys : list B) (body : S -> B -> result S) s :
  py.for_each (xs ++ ys) body s = (s' ← py.for_each xs body s; py.for_each ys body s').
Proof.
  revert s. induction xs as [|x xs IH]; intros s; simpl; [done|].
  destruct (body s x); simpl; [apply IH|done].
Qed.

(** A loop that appends one computed entry per iteration collects the
    entries in order. *)
Lemma for_each_collect {B} (xs : list B) (f : B -> result A) (g : B -> A) init :
  (forall x, x ∈ xs -> f x = Ok (g x)) ->
  py.for_each xs (fun acc x => v ← f x; mret (acc ++ [v])) init
  = Ok (init ++ (g <$> xs)).
Proof.
  revert init. induction xs as [|x xs IH]; intros init Hf; simpl.
  - by rewrite app_nil_r.
  - rewrite (Hf x) by left. simpl. rewrite IH.
    + by rewrite <- app_assoc.
    + intros y Hy. apply Hf. by right.
Qed.

(** Such a loop raises at its first iteration when the entry does. *)
Lemma for_each_raise_first {B} (x : B) xs (f : B -> result A) e init :
  f x = Raise e ->
  py.for_each (x :: xs) (fun acc x => v ← f x; mret (acc ++ [v])) init = Raise e.
Proof. intros Hf. simpl. by rewrite Hf. Qed.

End py_facts.

(** A loop whose every iteration appends one entry. *)
Lemma for_each_append {A B} (xs : list B) (body : list A -> B -> result (list A))
    (g : B -> A) init :
  (forall acc x, x ∈ xs -> body acc x = Ok (acc ++ [g x])) ->
  py.for_each xs body init = Ok (init ++ (g <$> xs)).
Proof.
  revert init. induction xs as [|x xs IH]; intros init Hbody; simpl.
  - by rewrite app_nil_r.
  - rewrite (Hbody init x) by left. simpl. rewrite IH.
    + by rewrite <- app_assoc.
    + intros acc y Hy. apply Hbody. by right.
Qed.


(** ** Exact arithmetic *)

Section exact_facts.
Local Open Scope R_scope.

Lemma real_to_int_quotient (a b : Z) :
  (0 <= a)%Z -> (0 < b)%Z -> real_to_int (IZR a / IZR b) = (a / b)%Z.
Proof.
  intros Ha Hb. unfold real_to_int.
  assert (HbR : 0 < IZR b) by (apply IZR_lt; lia).
  assert (HaR : 0 <= IZR a) by (apply IZR_le; lia).
  destruct (Rle_dec 0 (IZR a / IZR b)) as [_|Hneg].
  2:{ exfalso. apply Hneg. apply Rmult_le_pos; [lra|].
      left. by apply Rinv_0_lt_compat. }
  symmetry. apply Int_part_spec.
  pose proof (Z.div_mod a b ltac:(lia)) as Hdm.
  pose proof (Z.mod_pos_bound a b Hb) as [Hr0 Hr1].
  apply (f_equal IZR) in Hdm. rewrite plus_IZR, mult_IZR in Hdm.
  apply IZR_le in Hr0. apply IZR_lt in Hr1.
  set (q := IZR (a / b)) in *. set (r := IZR (a mod b)) in *.
  replace (IZR a / IZR b) with (q + r / IZR b) by (rewrite Hdm; field; lra).
  assert (0 <= r / IZR b < 1).
  { pose proof (Rinv_0_lt_compat _ HbR) as Hinv.
    split; [apply Rmult_le_pos; lra|].
    apply (Rmult_lt_reg_r (IZR b)); [lra|].
    unfold Rdiv. rewrite Rmult_assoc, Rinv_l by lra. lra. }
  lra.
Qed.

Lemma exact_int_div (n k : Z) :
  (0 <= n)%Z -> (0 < k)%Z ->
  to_int (of_int n / of_int k)%num = Ok (n / k)%Z.
Proof. intros Hn Hk. simpl. f_equal. by apply real_to_int_quotient. Qed.

Lemma exact_int_ratio (n p q : Z) :
  (0 <= n)%Z -> (0 < p)%Z -> (0 < q)%Z -> (q mod p = 0)%Z ->
  to_int (of_int n * dec p q)%num = Ok (n / (q / p))%Z.
Proof.
  intros Hn Hp Hq Hdiv. simpl. f_equal. unfold dec. simpl.
  apply Z.mod_divide in Hdiv; [|lia]. destruct Hdiv as [c Hc].
  assert (0 < c)%Z by nia.
  replace (q / p)%Z with c by (subst q; rewrite Z.div_mul; lia).
  rewrite <- real_to_int_quotient by lia. f_equal.
  subst q. rewrite mult_IZR. field.
  split; apply not_0_IZR; lia.
Qed.

End exact_facts.

(** ** statistical.moving_average *)

Section moving_average.
Context {F : Type} `{Number F}.

Lemma range_head k : (0 < k)%Z -> exists rest, py.range k = 0%Z :: rest.
Proof.
  intros Hk. unfold py.range.
  destruct (Z.to_nat k) as [|m] eqn:Hm; [lia|]. simpl. eauto.
Qed.

(** C5.  For a sequence of [n >= 1] samples, [moving_average] raises
    [ZeroDivisionError] when [floor(n/10) = 0], that is when [n < 10];
    otherwise it returns [n - floor(n/10) + 1] averages, and the entry at
    offset [i] is the sum of the window of length [floor(n/10)] that starts
    at [i], divided by that length.  The third hypothesis says that the
    truncated quotient [int(n / 10)] is [floor(n/10)] in the arithmetic at
    hand: [exact_int_div] proves it for exact arithmetic and every [n], and
    on [binary64] it holds for every length a list can have. *)
Theorem moving_average_spec (data : list F) (n : Z) :
  n = py.len data -> (1 <= n)%Z ->
  to_int (of_int n / of_int 10)%num = Ok (n / 10)%Z ->
  let w := (n / 10)%Z in
  (w = 0%Z <-> (n < 10)%Z) /\
  (w = 0%Z -> statistical.moving_average data n = Raise ZeroDivisionError) /\
  (w <> 0%Z -> exists averages,
      statistical.moving_average data n = Ok averages /\
      py.len averages = (n - w + 1)%Z /\
      forall i, (0 <= i <= n - w)%Z ->
        length (take (Z.to_nat w) (drop (Z.to_nat i) data)) = Z.to_nat w /\
        averages !! Z.to_nat i
        = Some (py.sum (take (Z.to_nat w) (drop (Z.to_nat i) data)) / of_int w)%num).
Proof.
  intros Hn Hpos Hw w.
  assert (Hw0 : (0 <= w)%Z) by (apply Z.div_pos; lia).
  assert (Hwn : (w <= n)%Z) by (subst w; apply Z.div_le_upper_bound; lia).
  split; [|split].
  - subst w. rewrite Z.div_small_iff by lia. lia.
  - intros Hz. unfold statistical.moving_average. rewrite Hw. simpl.
    unfold w in Hz. rewrite Hz.
    destruct (range_head (n - 0 + 1)) as [rest ->]; [lia|]. done.
  - intros Hnz. unfold statistical.moving_average. rewrite Hw. simpl. fold w.
    set (g := fun i : Z =>
      (py.sum (take (Z.to_nat w) (drop (Z.to_nat i) data)) / of_int w)%num).
    exists (g <$> py.range (n - w + 1)). split; [|split].
    + apply (for_each_collect _
        (fun i => py.true_div py.python_float
                    (py.sum (py.slice data i (i + w))) w) g []).
      intros i [Hi0 Hi1]%elem_of_range.
      unfold py.true_div. destruct (Z.eqb_spec w 0); [done|].
      unfold g. rewrite slice_nonneg by lia. do 4 f_equal. lia.
    + unfold py.len. rewrite length_fmap, range_length. lia.
    + intros i Hi. split.
      * rewrite length_take, length_drop. unfold py.len in Hn. lia.
      * rewrite list_lookup_fmap, range_lookup by lia. simpl. unfold g.
        by rewrite Z2Nat.id by lia.
Qed.

End moving_average.

(** The theorem at a sequence of twelve doubles. *)
Lemma moving_average_spec_witness :
  exists averages : list float,
    statistical.moving_average (float_of_int <$> py.range 12) 12 = Ok averages
    /\ py.len averages = 12%Z.
Proof.
  destruct (moving_average_spec (F := float) (float_of_int <$> py.range 12) 12)
    as (_ & _ & Hok).
  - reflexivity.
  - lia.
  - vm_compute. reflexivity.
  - destruct Hok as (averages & Hrun & Hlen & _).
    + vm_compute. discriminate.
    + exists averages. split; [exact Hrun|exact Hlen].
Defined.

(** ** The median filter and the integral *)

Section filter_facts.
Context {F : Type} `{Number F}.
Implicit Types (data cur : list F).

Lemma padded_data_ok data (window_size : Z) :
  data <> [] ->
  exists first last_,
    head data = Some first /\ last data = Some last_ /\
    common_lib.padded_data data window_size
    = Ok (replicate (Z.to_nat (window_size / 2)) first ++ data
          ++ replicate (Z.to_nat (window_size / 2)) last_).
Proof.
  intros Hne. destruct data as [|y front _] using rev_ind; [done|].
  assert (exists x rest, front ++ [y] = x :: rest) as (x & rest & Hx)
    by (destruct front; simpl; eauto).
  exists x, y. split; [by rewrite Hx|]. split; [apply last_snoc|].
  unfold common_lib.padded_data.
  rewrite Hx at 1. rewrite getitem_first, getitem_last. done.
Qed.

Lemma padded_data_nil (window_size : Z) :
  common_lib.padded_data (@nil F) window_size = Raise IndexError.
Proof. unfold common_lib.padded_data. by rewrite getitem_nil. Qed.

Lemma insert_sorted_length x (l : list F) :
  length (py.insert_sorted x l) = S (length l).
Proof.
  induction l as [|y l IH]; simpl; [done|].
  destruct (y <? x)%num; simpl; by rewrite ?IH.
Qed.

Lemma sorted_length (l : list F) : length (py.sorted l) = length l.
Proof.
  induction l as [|x l IH]; simpl; [done|].
  by rewrite insert_sorted_length, IH.
Qed.

(** The window of the median filter at offset [i]. *)
Lemma filter_window_length cur (pre post : list F) (i w : Z) :
  (0 <= i)%Z -> (0 <= w)%Z ->
  (i + w <= py.len (pre ++ cur ++ post))%Z ->
  length (py.slice (pre ++ cur ++ post) i (i + w)) = Z.to_nat w.
Proof.
  intros Hi Hw Hlen. pose proof (slice_length (pre ++ cur ++ post) i (i + w)) as Hs.
  unfold py.len in *. lia.
Qed.

(** For a non-negative parameter the median filter returns one median per
    sample. *)
Lemma filtered_data_ok cur (n count : Z) :
  n = py.len cur -> cur <> [] -> (0 <= count)%Z ->
  exists filtered,
    vector.filtered_data cur n count = Ok filtered /\ py.len filtered = n.
Proof.
  intros Hn Hne Hc. unfold vector.filtered_data.
  destruct (padded_data_ok cur (1 + 2 * count) Hne) as (x & y & _ & _ & ->).
  simpl. replace ((1 + 2 * count) / 2)%Z with count by (apply Z.div_unique with 1%Z; lia).
  set (padded := replicate (Z.to_nat count) x ++ cur ++ replicate (Z.to_nat count) y).
  set (median := fun i : Z =>
    default x (py.sorted (py.slice padded i (i + (1 + 2 * count))) !! Z.to_nat count)).
  exists (median <$> py.range n). split.
  - apply (for_each_collect _
      (fun i => py.getitem (py.sorted (py.slice padded i (i + (1 + 2 * count)))) count)
      median []).
    intros i [Hi0 Hi1]%elem_of_range.
    assert (Hlen : length (py.sorted (py.slice padded i (i + (1 + 2 * count))))
                   = Z.to_nat (1 + 2 * count)).
    { rewrite sorted_length. apply filter_window_length; [lia..|].
      rewrite !len_app. unfold py.len. rewrite !length_replicate.
      unfold py.len in Hn. lia. }
    destruct (lookup_lt_is_Some_2
                (py.sorted (py.slice padded i (i + (1 + 2 * count))))
                (Z.to_nat count)) as [m Hm]; [lia|].
    unfold median. rewrite Hm. simpl. by apply getitem_lookup.
  - unfold py.len. rewrite length_fmap, range_length.
    pose proof (len_nonneg cur). lia.
Qed.

(** With parameter [0] every window holds one sample, which is its
    median. *)
Lemma filtered_data_zero cur (n : Z) :
  n = py.len cur -> cur <> [] -> vector.filtered_data cur n 0 = Ok cur.
Proof.
  intros Hn Hne. unfold vector.filtered_data.
  destruct (padded_data_ok cur (1 + 2 * 0) Hne) as (x & y & _ & _ & ->).
  simpl. rewrite app_nil_r.
  rewrite (for_each_collect _
      (fun i => py.getitem (py.sorted (py.slice cur i (i + 1))) 0)
      (fun i => default x (cur !! Z.to_nat i)) []).
  - simpl. f_equal. apply list_eq. intros j.
    rewrite list_lookup_fmap. destruct (cur !! j) as [v|] eqn:Hj.
    + rewrite range_lookup; simpl.
      * by rewrite Nat2Z.id, Hj.
      * apply lookup_lt_Some in Hj. unfold py.len in Hn. lia.
    + rewrite lookup_ge_None_2; [done|]. rewrite range_length.
      apply lookup_ge_None in Hj. unfold py.len in Hn. lia.
  - intros i [Hi0 Hi1]%elem_of_range.
    destruct (lookup_lt_is_Some_2 cur (Z.to_nat i)) as [v Hv];
      [unfold py.len in Hn; lia|].
    rewrite Hv. simpl. rewrite slice_nonneg by lia.
    replace (Z.to_nat (i + 1) - Z.to_nat i)%nat with 1%nat by lia.
    rewrite (drop_S _ _ _ Hv). simpl. by apply getitem_lookup.
Qed.

Lemma cumsum_from_length (s : F) (a : list F) :
  length (signal_process.cumsum_from s a) = length a.
Proof. revert s. induction a as [|x a IH]; intros s; simpl; by rewrite ?IH. Qed.

Lemma cumsum_length (a : list F) :
  length (signal_process.cumsum a) = length a.
Proof. destruct a as [|x a]; simpl; by rewrite ?cumsum_from_length. Qed.

Lemma cumulative_trapezoid_ok (y : list F) (dx : F) :
  y <> [] ->
  exists integ,
    signal_process.cumulative_trapezoid y dx = Ok integ /\
    py.len integ = py.len y /\ head integ = Some (of_int 0).
Proof.
  intros Hne. destruct y as [|a rest]; [done|].
  unfold signal_process.cumulative_trapezoid.
  eexists. split; [reflexivity|]. split; [|done].
  unfold py.len. cbn [length].
  rewrite cumsum_length, length_zip_with. cbn [length]. lia.
Qed.

End filter_facts.

(** ** The store and restore_spikes *)

Section store_facts.
Context {F : Type}.
Implicit Types (σ : store.heap F) (f : list F) (spikes : list (Z * F)).

Lemma alloc_spec (l : list F) σ :
  exists r, store.alloc l σ = (Ok r, <[r := l]> σ) /\ σ !! r = None.
Proof.
  exists (fresh (dom σ)). split; [done|].
  apply not_elem_of_dom, is_fresh.
Qed.

Lemma store_item_valid (vec : store.loc) (i : Z) (v : F) σ f :
  σ !! vec = Some f -> (0 <= i < py.len f)%Z ->
  store.store_item vec i v σ = (Ok tt, <[vec := <[Z.to_nat i := v]> f]> σ).
Proof.
  intros Hvec Hi. unfold store.store_item, py.setitem.
  rewrite (lookup_total_correct _ _ _ Hvec).
  by rewrite position_nonneg.
Qed.

(** Whatever the index, [store_item] changes the list at [vec] only, and
    keeps its length. *)
Lemma store_item_frame (vec : store.loc) (i : Z) (v : F) σ f :
  σ !! vec = Some f ->
  exists res f',
    store.store_item vec i v σ = (res, <[vec := f']> σ) /\ length f' = length f.
Proof.
  intros Hvec. unfold store.store_item, py.setitem.
  rewrite (lookup_total_correct _ _ _ Hvec).
  destruct (py.position f i) as [k|].
  - eexists _, _. split; [reflexivity|]. apply length_insert.
  - exists (Raise IndexError), f. split; [|done]. by rewrite insert_id.
Qed.

Lemma overwrite_length spikes f : length (overwrite spikes f) = length f.
Proof.
  revert f. induction spikes as [|p spikes IH]; intros f; simpl; [done|].
  unfold overwrite in *. simpl. by rewrite IH, length_insert.
Qed.

Lemma overwrite_snoc spikes p f :
  overwrite (spikes ++ [p]) f = <[Z.to_nat (fst p) := snd p]> (overwrite spikes f).
Proof. unfold overwrite. by rewrite foldl_app. Qed.

Lemma restore_spikes_valid spikes (vec : store.loc) σ f :
  σ !! vec = Some f ->
  Forall (fun p => (0 <= fst p < py.len f)%Z) spikes ->
  vector.restore_spikes spikes vec σ = (Ok vec, <[vec := overwrite spikes f]> σ).
Proof.
  unfold vector.restore_spikes, store.bind.
  intros Hvec Hvalid. revert σ f Hvec Hvalid.
  induction spikes as [|[i v] spikes IH]; intros σ f Hvec Hvalid; simpl.
  - unfold store.ret. by rewrite insert_id.
  - apply Forall_cons in Hvalid as [Hi Hvalid]. simpl in Hi.
    unfold store.bind at 1. rewrite (store_item_valid _ _ _ _ f) by done.
    specialize (IH (<[vec := <[Z.to_nat i := v]> f]> σ) (<[Z.to_nat i := v]> f)).
    rewrite insert_insert_eq in IH. apply IH.
    + apply lookup_insert_eq.
    + eapply Forall_impl; [exact Hvalid|]. intros p. unfold py.len.
      by rewrite length_insert.
Qed.

Lemma restore_spikes_frame spikes (vec : store.loc) σ f :
  σ !! vec = Some f ->
  exists res f',
    vector.restore_spikes spikes vec σ = (res, <[vec := f']> σ) /\
    length f' = length f /\ forall r, res = Ok r -> r = vec.
Proof.
  unfold vector.restore_spikes, store.bind.
  revert σ f. induction spikes as [|[i v] spikes IH]; intros σ f Hvec; simpl.
  - exists (Ok vec), f. unfold store.ret. rewrite insert_id by done.
    split; [done|]. split; [done|]. by intros r [= <-].
  - unfold store.bind at 1.
    destruct (store_item_frame vec i v σ f Hvec) as (res & f1 & -> & Hlen1).
    destruct res as [[]|e].
    + destruct (IH (<[vec := f1]> σ) f1) as (res & f2 & Hrun & Hlen2 & Hres).
      { apply lookup_insert_eq. }
      exists res, f2. rewrite insert_insert_eq in Hrun.
      split; [exact Hrun|]. split; [congruence|exact Hres].
    + exists (Raise e), f1. split; [done|]. split; [done|]. by intros r [=].
Qed.

(** The value an index holds after [overwrite]: that of the last pair that
    names the index, or the old value when no pair does. *)
Lemma overwrite_lookup spikes f (j : nat) :
  Forall (fun p => (0 <= fst p)%Z) spikes ->
  (j < length f)%nat ->
  overwrite spikes f !! j
  = match last (filter (fun p => fst p = Z.of_nat j) spikes) with
    | Some p => Some (snd p)
    | None => f !! j
    end.
Proof.
  intros Hvalid Hj. induction spikes as [|[i v] spikes IH] using rev_ind.
  - done.
  - apply Forall_app in Hvalid as [Hvalid [Hi _]%Forall_cons]. simpl in Hi.
    rewrite overwrite_snoc, filter_app. simpl.
    destruct (decide (i = Z.of_nat j)) as [->|Hne].
    + rewrite filter_cons_True by done. rewrite filter_nil, last_snoc. simpl.
      rewrite Nat2Z.id. apply list_lookup_insert_eq.
      by rewrite overwrite_length.
    + rewrite filter_cons_False by done. rewrite filter_nil, app_nil_r.
      rewrite list_lookup_insert_ne by lia. by apply IH.
Qed.

End store_facts.

Section restore_spikes.
Context {F : Type}.
Implicit Types (σ : store.heap F) (f : list F) (spikes : list (Z * F)).

Lemma filter_none {A} (P : A -> Prop) `{!forall x, Decision (P x)} (l : list A) :
  (forall x, x ∈ l -> ~ P x) -> filter P l = [].
Proof.
  induction l as [|x l IH]; intros Hl; [done|].
  rewrite filter_cons_False by (apply Hl; left).
  apply IH. intros y Hy. apply Hl. by right.
Qed.

Lemma last_named_unique spikes (i : Z) (v : F) :
  NoDup spikes.*1 -> (i, v) ∈ spikes ->
  last (filter (fun p => fst p = i) spikes) = Some (i, v).
Proof.
  induction spikes as [|p spikes IH]; intros Hnd Hin.
  - by apply elem_of_nil in Hin.
  - rewrite fmap_cons in Hnd. apply NoDup_cons in Hnd as [Hfresh Hnd].
    apply elem_of_cons in Hin as [<-|Hin].
    + rewrite filter_cons_True by done. rewrite filter_none; [done|].
      intros q Hq Heq. apply Hfresh. simpl. rewrite <- Heq.
      by apply list_elem_of_fmap_2.
    + rewrite filter_cons_False; [by apply IH|].
      intros Heq. apply Hfresh. rewrite Heq.
      by apply (list_elem_of_fmap_2 fst _ (i, v)).
Qed.


End restore_spikes.



(** ** Commands that replace the working sequence *)

Section sessions.
Context {F : Type} `{Number F}.
Implicit Types (σ : store.heap F) (self : app_gui.t (F := F)) (v : vector.t).

Lemma init_spec (vec : vector.argument) σ0 v σ1 :
  vector.init vec σ0 = (Ok v, σ1) ->
  σ1 !! vector.original_data v = Some (samples_of vec σ0) /\
  σ1 !! vector.current v = Some (samples_of vec σ0) /\
  vector.n v = py.len (samples_of vec σ0) /\
  σ0 ⊆ σ1.
Proof.
  unfold vector.init. destruct vec as [h samples|r]; simpl.
  - unfold vector.check_header, vector.number_values, store.bind, store.ret,
      store.read.
    destruct (alloc_spec samples σ0) as (r1 & -> & Hr1).
    destruct (alloc_spec samples (<[r1 := samples]> σ0)) as (r2 & -> & Hr2).
    destruct (alloc_spec samples (<[r2 := samples]> (<[r1 := samples]> σ0)))
      as (r3 & -> & Hr3).
    intros Heq. inversion Heq; subst; clear Heq. simpl.
    assert (r1 <> r2) by (intros ->; by rewrite lookup_insert_eq in Hr2).
    assert (r2 <> r3) by (intros ->; by rewrite lookup_insert_eq in Hr3).
    assert (r1 <> r3).
    { intros ->. rewrite lookup_insert_ne, lookup_insert_eq in Hr3; done. }
    split; [by rewrite !lookup_insert_ne, lookup_insert_eq by done|].
    split; [by rewrite lookup_insert_ne, lookup_insert_eq by done|].
    split.
    + by rewrite lookup_total_insert_ne, lookup_total_insert_eq by done.
    + etrans; [by apply insert_subseteq|]. etrans; by apply insert_subseteq.
  - unfold vector.check_header, vector.number_values, store.bind, store.ret,
      store.read, store.lift.
    destruct (py.getitem (σ0 !!! r) 0) as [x|e] eqn:Hg; simpl; [|done].
    rewrite Hg. simpl. rewrite Hg. simpl.
    intros Heq. inversion Heq; subst; clear Heq. simpl.
    assert (Hr : σ1 !! r = Some (σ1 !!! r)).
    { rewrite lookup_total_alt in *. destruct (σ1 !! r); [done|].
      simpl in Hg. by rewrite getitem_nil in Hg. }
    done.
Qed.

Lemma for_each_append_length {A B} (xs : list B) (f : B -> result A) init l :
  py.for_each xs (fun acc x => v ← f x; mret (acc ++ [v])) init = Ok l ->
  length l = (length init + length xs)%nat.
Proof.
  revert init. induction xs as [|x xs IH]; intros init; simpl.
  - intros [= <-]. lia.
  - destruct (f x) as [a|e]; simpl; [|done].
    intros Hrun%IH. rewrite length_app in Hrun. simpl in Hrun. lia.
Qed.

Lemma filtered_data_length (cur : list F) (n count : Z) filtered :
  vector.filtered_data cur n count = Ok filtered ->
  length filtered = Z.to_nat n.
Proof.
  unfold vector.filtered_data.
  destruct (common_lib.padded_data cur (1 + 2 * count)) as [padded|]; [|done].
  simpl. intros Hrun%for_each_append_length. by rewrite range_length in Hrun.
Qed.

Lemma median_filter_spec self σ cur :
  σ !! vector.current (app_gui.selected self) = Some cur ->
  match app_gui.median_filter self σ with
  | (Ok r, σ') =>
      exists filtered,
        vector.filtered_data cur (vector.n (app_gui.selected self))
                             (app_gui.filtered_count self) = Ok filtered /\
        σ !! r = None /\ σ' = <[r := filtered]> σ
  | (Raise _, σ') => σ' = σ
  end.
Proof.
  intros Hcur. unfold app_gui.median_filter, vector.call, store.bind,
    store.read, store.lift.
  rewrite (lookup_total_correct _ _ _ Hcur).
  destruct (vector.filtered_data _ _ _) as [filtered|e]; [|done].
  destruct (alloc_spec filtered σ) as (r & -> & Hr). eauto.
Qed.

Lemma consistent_weaken orig self σ σ' :
  consistent orig self σ -> σ ⊆ σ' -> consistent orig self σ'.
Proof.
  intros (Ho & Hn & cur & Hc & Hlen) Hsub. split; [|split; [done|]].
  - by eapply lookup_weaken.
  - exists cur. split; [by eapply lookup_weaken|done].
Qed.

Lemma consistent_fresh orig self σ r l :
  consistent orig self σ -> σ !! r = None ->
  py.len l = vector.n (app_gui.selected self) ->
  forall ts fc,
    consistent orig
      {| app_gui.selected := app_gui.set_current (app_gui.selected self) r;
         app_gui.time_step := ts; app_gui.filtered_count := fc |}
      (<[r := l]> σ).
Proof.
  intros (Ho & Hn & _) Hr Hl ts fc. split; [|split; [done|]]; simpl.
  - rewrite lookup_insert_ne; [done|]. intros ->. congruence.
  - exists l. by rewrite lookup_insert_eq.
Qed.

(** A command leaves the objects of the store as they are, apart from the
    list it builds, and keeps the invariant. *)
Lemma execute_consistent orig (c : app_gui.command) self σ res σ' :
  consistent orig self σ ->
  app_gui.execute c self σ = (res, σ') ->
  σ ⊆ σ' /\ forall self', res = Ok self' -> consistent orig self' σ'.
Proof.
  intros Hinv Hrun. pose proof Hinv as (Ho & Hn & cur & Hc & Hlen).
  pose proof (len_nonneg cur) as Hpos.
  destruct c; simpl in Hrun.
  - (* Filter Signal *)
    unfold app_gui.filtered_data, store.bind in Hrun.
    pose proof (median_filter_spec self σ cur Hc) as Hmf.
    destruct (app_gui.median_filter self σ) as [[r|e] σ1].
    + destruct Hmf as (filtered & Hfd%filtered_data_length & Hr & ->).
      inversion Hrun; subst; clear Hrun.
      split; [by apply insert_subseteq|].
      intros self' [= <-]. apply consistent_fresh; [done..|].
      unfold py.len in *. lia.
    + inversion Hrun; subst; clear Hrun. split; [done|]. by intros self' [=].
  - (* Filter Signal, Keep Spikes *)
    unfold app_gui.filtered_data_keep_spikes, store.bind in Hrun.
    unfold vector.call, store.bind, store.read, store.lift in Hrun.
    destruct (vector.detect_spikes _ _) as [spikes|e].
    2:{ inversion Hrun; subst. split; [done|]. by intros self' [=]. }
    pose proof (median_filter_spec self σ cur Hc) as Hmf.
    destruct (app_gui.median_filter self σ) as [[r|e] σ1].
    2:{ inversion Hrun; subst. split; [done|]. by intros self' [=]. }
    destruct Hmf as (filtered & Hfd%filtered_data_length & Hr & ->).
    destruct (restore_spikes_frame spikes r (<[r := filtered]> σ) filtered)
      as (res1 & f' & Hrs & Hlen' & Hres); [apply lookup_insert_eq|].
    rewrite Hrs, insert_insert_eq in Hrun.
    destruct res1 as [r'|e].
    + rewrite (Hres r' eq_refl) in Hrun. inversion Hrun; subst; clear Hrun.
      split; [by apply insert_subseteq|].
      intros self' [= <-]. apply consistent_fresh; [done..|].
      unfold py.len in *. lia.
    + inversion Hrun; subst. split; [by apply insert_subseteq|].
      by intros self' [=].
  - (* Integrate Signal *)
    unfold app_gui.integration, signal_process.integral, store.bind,
      store.read, store.lift in Hrun. simpl in Hrun.
    rewrite (lookup_total_correct _ _ _ Hc) in Hrun.
    destruct cur as [|x cur].
    { inversion Hrun; subst. split; [done|]. by intros self' [=]. }
    destruct (cumulative_trapezoid_ok (x :: cur) (app_gui.time_step self))
      as (integ & Hct & Hil & _); [done|].
    rewrite Hct in Hrun.
    destruct (alloc_spec integ σ) as (r & Hal & Hr). rewrite Hal in Hrun.
    inversion Hrun; subst; clear Hrun.
    split; [by apply insert_subseteq|].
    intros self' [= <-]. apply consistent_fresh; [done..|]. congruence.
  - (* Restore Signal *)
    unfold app_gui.restore_data, store.ret in Hrun.
    inversion Hrun; subst; clear Hrun. split; [done|].
    intros self' [= <-]. split; [done|]. split; [done|]. by exists orig.
Qed.

Lemma session_consistent orig (cs : list app_gui.command) self σ :
  consistent orig self σ ->
  consistent orig (fst (app_gui.session cs self σ))
                  (snd (app_gui.session cs self σ)).
Proof.
  revert self σ. induction cs as [|c cs IH]; intros self σ Hinv; [done|].
  simpl. destruct (app_gui.execute c self σ) as [res σ'] eqn:Hrun.
  destruct (execute_consistent orig c self σ res σ' Hinv Hrun) as [Hsub Hok].
  destruct res as [self'|e].
  - apply IH. by apply Hok.
  - apply IH. by eapply consistent_weaken.
Qed.

Lemma session_app (cs1 cs2 : list app_gui.command) self σ :
  app_gui.session (cs1 ++ cs2) self σ
  = app_gui.session cs2 (fst (app_gui.session cs1 self σ))
                        (snd (app_gui.session cs1 self σ)).
Proof.
  revert self σ. induction cs1 as [|c cs1 IH]; intros self σ; [done|].
  simpl. by destruct (app_gui.execute c self σ) as [[self'|e] σ'].
Qed.

Lemma init_consistent (vec : vector.argument) σ0 v σ1 ts fc :
  vector.init vec σ0 = (Ok v, σ1) ->
  consistent (samples_of vec σ0)
    {| app_gui.selected := v; app_gui.time_step := ts;
       app_gui.filtered_count := fc |} σ1.
Proof.
  intros (Ho & Hc & Hn & _)%init_spec. split; [done|]. split; [done|].
  by exists (samples_of vec σ0).
Qed.

End sessions.

Section commits.
Context {F : Type} `{Number F}.
Implicit Types (σ : store.heap F) (self : app_gui.t (F := F)) (v : vector.t).

(** C8.  With [count_param = 0] the median filter returns a sequence equal,
    element by element, to [current].  The sequence is a new list object
    [r]: the store after the call is the store before it with [r] added, so
    the list [current] names is not changed. *)
Theorem median_filter_identity self σ (cur : list F) :
  σ !! vector.current (app_gui.selected self) = Some cur ->
  vector.n (app_gui.selected self) = py.len cur ->
  cur <> [] ->
  app_gui.filtered_count self = 0%Z ->
  vector.filtered_data cur (py.len cur) 0 = Ok cur /\
  exists r,
    app_gui.median_filter self σ = (Ok r, <[r := cur]> σ) /\
    σ !! r = None /\
    <[r := cur]> σ !! vector.current (app_gui.selected self) = Some cur.
Proof.
  intros Hcur Hn Hne Hc.
  pose proof (filtered_data_zero cur (py.len cur) eq_refl Hne) as Hfd.
  split; [exact Hfd|].
  pose proof (median_filter_spec self σ cur Hcur) as Hmf.
  rewrite Hn, Hc, Hfd in Hmf.
  unfold app_gui.median_filter, vector.call, store.bind, store.read,
    store.lift in *.
  rewrite (lookup_total_correct _ _ _ Hcur), Hn, Hc, Hfd in *.
  destruct (alloc_spec cur σ) as (r & Hal & Hr). rewrite Hal.
  exists r. split; [done|]. split; [done|].
  rewrite lookup_insert_ne; [done|]. intros ->. congruence.
Qed.

(** C7.  After construction, run any sequence of Filter Signal, Filter
    Signal Keep Spikes, Integrate Signal and Restore Signal commands, then
    Restore Signal: [current] names a list equal to the samples the
    constructor received, and so does [original_data]. *)
Theorem restore_round_trip (vec : vector.argument) σ0 v σ1
    (ts : F) (fc : Z) (cs : list app_gui.command) :
  vector.init vec σ0 = (Ok v, σ1) ->
  let start := {| app_gui.selected := v; app_gui.time_step := ts;
                  app_gui.filtered_count := fc |} in
  let final := app_gui.session (cs ++ [app_gui.RestoreSignal]) start σ1 in
  snd final !! vector.current (app_gui.selected (fst final))
  = Some (samples_of vec σ0) /\
  snd final !! vector.original_data (app_gui.selected (fst final))
  = Some (samples_of vec σ0).
Proof.
  intros Hinit start final.
  pose proof (session_consistent _ cs start σ1
                (init_consistent vec σ0 v σ1 ts fc Hinit)) as (Ho & _).
  subst final. rewrite session_app. simpl.
  unfold app_gui.restore_data, store.ret. simpl. done.
Qed.

(** C10.  After construction, and after any sequence of the commands that
    replace [current], [n] is the length of the list [current] names.  On
    such a signal, when it is not empty, [filtered_data] with a non-negative
    parameter and [cumulative_trapezoid], which [integral] returns, both
    yield a sequence of length [n]. *)
Theorem count_invariant (vec : vector.argument) σ0 v σ1
    (ts : F) (fc : Z) (cs : list app_gui.command) :
  vector.init vec σ0 = (Ok v, σ1) ->
  let start := {| app_gui.selected := v; app_gui.time_step := ts;
                  app_gui.filtered_count := fc |} in
  let final := app_gui.session cs start σ1 in
  let cur := snd final !!! vector.current (app_gui.selected (fst final)) in
  let count := vector.n (app_gui.selected (fst final)) in
  count = py.len cur /\
  (cur <> [] ->
   (forall count_param, (0 <= count_param)%Z ->
      exists filtered,
        vector.filtered_data cur count count_param = Ok filtered /\
        py.len filtered = count) /\
   (forall dx,
      exists integ,
        signal_process.cumulative_trapezoid cur dx = Ok integ /\
        py.len integ = count)).
Proof.
  intros Hinit start final cur count.
  pose proof (session_consistent _ cs start σ1
                (init_consistent vec σ0 v σ1 ts fc Hinit))
    as (_ & _ & cur' & Hcur & Hlen).
  assert (Hcount : count = py.len cur).
  { subst cur count final. by rewrite (lookup_total_correct _ _ _ Hcur). }
  split; [exact Hcount|]. intros Hne. split.
  - intros count_param Hc. by apply filtered_data_ok.
  - intros dx. destruct (cumulative_trapezoid_ok cur dx Hne) as (integ & ? & ? & _).
    exists integ. split; [done|congruence].
Qed.

End commits.

Lemma loaded_init :
  vector.init (vector.WithHeader "Signal_1" four_doubles) ∅
  = (Ok (fst loaded), snd loaded).
Proof. vm_compute. reflexivity. Qed.

Lemma median_filter_identity_witness :
  vector.filtered_data four_doubles 4 0 = Ok four_doubles.
Proof.
  apply (median_filter_identity
           {| app_gui.selected := fst loaded; app_gui.time_step := 0.5%float;
              app_gui.filtered_count := 0 |}
           (snd loaded) four_doubles).
  - reflexivity.
  - reflexivity.
  - discriminate.
  - reflexivity.
Defined.

Lemma restore_round_trip_witness :
  let final :=
    app_gui.session
      ([app_gui.FilterSignal; app_gui.IntegrateSignal] ++ [app_gui.RestoreSignal])
      {| app_gui.selected := fst loaded; app_gui.time_step := 0.5%float;
         app_gui.filtered_count := 0 |}
      (snd loaded) in
  snd final !! vector.current (app_gui.selected (fst final)) = Some four_doubles.
Proof.
  apply (restore_round_trip (vector.WithHeader "Signal_1" four_doubles) ∅
           (fst loaded) (snd loaded) 0.5%float 0
           [app_gui.FilterSignal; app_gui.IntegrateSignal]).
  exact loaded_init.
Defined.

Lemma count_invariant_witness :
  let final :=
    app_gui.session [app_gui.FilterSignal; app_gui.IntegrateSignal]
      {| app_gui.selected := fst loaded; app_gui.time_step := 0.5%float;
         app_gui.filtered_count := 0 |}
      (snd loaded) in
  vector.n (app_gui.selected (fst final))
  = py.len (snd final !!! vector.current (app_gui.selected (fst final))).
Proof.
  apply (count_invariant (vector.WithHeader "Signal_1" four_doubles) ∅
           (fst loaded) (snd loaded) 0.5%float 0
           [app_gui.FilterSignal; app_gui.IntegrateSignal]).
  exact loaded_init.
Defined.

(** ** Frequency bins, constant signals and the spike scenario *)

(** C3, on a signal of four samples with time step [0.5].  [frequencies]
    passes [1.0 / time_step] as the sample spacing, so it returns the bins
    [k * 0.5 / 4], while the bins of an FFT of length [4] with sample spacing
    [0.5] are [k / (4 * 0.5)]. *)
Theorem frequencies_half_second :
  signal_process.frequencies half_second = Ok [0%float; 0.125%float; 0.25%float]
  /\ frequency_bins 4 0.5%float = [0%float; 0.5%float; 1%float].
Proof. split; vm_compute; reflexivity. Qed.

(** C2, on twenty samples equal to [5.0].  The branch for [global_std == 0]
    is taken and reads the unbound name [n]: the call raises [NameError]
    and returns no interval. *)
Theorem detect_stalls_constant :
  vector.detect_stalls (F := float) (replicate 20 5%float) 20 = Raise NameError.
Proof. vm_compute. reflexivity. Qed.

(** C1 as stated fails on the scenario of the specification: nineteen
    samples [5.0], the outlier [20.0], three samples [5.0].  No spike is
    reported. *)
Lemma detect_spikes_scenario :
  vector.detect_spikes (F := float)
    (replicate 19 5%float ++ [20%float] ++ replicate 3 5%float) 23 = Ok []
  /\ vector.detect_spikes (F := float)
       (replicate 19 5%float ++ [20%float] ++ replicate 3 5%float) 23
     <> Ok [(19%Z, 20%float)].
Proof.
  assert (Hrun : vector.detect_spikes (F := float)
            (replicate 19 5%float ++ [20%float] ++ replicate 3 5%float) 23
          = Ok []) by (vm_compute; reflexivity).
  split; [exact Hrun|]. rewrite Hrun. discriminate.
Qed.

(** ** detect_stalls *)

Section stats_facts.
Context {F : Type} `{Number F}.

Lemma returns_ok {A} (r : result A) : is_ok r = true <-> returns r.
Proof.
  destruct r as [a|e]; simpl; split; try done.
  - intros _. by exists a.
  - by intros [a ?].
Qed.

Lemma returns_on_range {A} (f : Z -> result A) (k : Z) :
  forallb (fun i => is_ok (f i)) (py.range k) = true ->
  forall i, (0 <= i < k)%Z -> returns (f i).
Proof.
  intros Hall i Hi. apply returns_ok.
  rewrite forallb_forall in Hall. apply Hall.
  apply list_elem_of_In, elem_of_range. lia.
Qed.

Lemma sum_kind_nonempty {A} (k : py.scalar) (l : list A) :
  l <> [] -> py.sum_kind k l = k.
Proof. by destruct l. Qed.

Lemma len_nonzero {A} (l : list A) : l <> [] -> (py.len l =? 0)%Z = false.
Proof.
  intros Hne. apply Z.eqb_neq. destruct l; [done|].
  unfold py.len. simpl. lia.
Qed.

Lemma true_div_nonzero (k : py.scalar) (x : F) (d : Z) :
  (d =? 0)%Z = false -> py.true_div k x d = Ok (x / of_int d)%num.
Proof. intros Hd. unfold py.true_div. destruct k; by rewrite ?Hd. Qed.

Lemma mean_value_total (k : py.scalar) (l : list F) :
  l <> [] -> common_lib.mean_value k l (py.len l) = Ok (mean_of l).
Proof.
  intros Hne. unfold common_lib.mean_value.
  by rewrite true_div_nonzero by by apply len_nonzero.
Qed.

(** [x ** 2] is the product, unless it raises [OverflowError], which only
    a Python [float] does. *)
Lemma sq_cases (k : py.scalar) (x : F) :
  py.sq k x = Ok (x * x)%num \/
  k = py.python_float /\ py.sq k x = Raise OverflowError.
Proof.
  unfold py.sq. destruct k; [|by left].
  destruct (is_finite x && negb (is_finite (x * x)%num)); [by right|by left].
Qed.

(** The loop that adds the squares [g v ** 2]. *)
Lemma squares_loop (k : py.scalar) (g : F -> F) (l : list F) (s : F) :
  py.for_each l (fun s v => q ← py.sq k (g v); mret (s + q)%num) s
  = Ok (fold_left (fun s v => s + g v * g v)%num l s) \/
  k = py.python_float /\
  py.for_each l (fun s v => q ← py.sq k (g v); mret (s + q)%num) s
  = Raise OverflowError.
Proof.
  revert s. induction l as [|v l IH]; intros s; simpl; [by left|].
  destruct (sq_cases k (g v)) as [->|[-> ->]]; simpl; [apply IH|by right].
Qed.

Lemma squares_loop_numpy (g : F -> F) (l : list F) (s : F) :
  py.for_each l (fun s v => q ← py.sq py.numpy_float64 (g v); mret (s + q)%num) s
  = Ok (fold_left (fun s v => s + g v * g v)%num l s).
Proof. by destruct (squares_loop py.numpy_float64 g l s) as [?|[? _]]. Qed.

(** On a non-empty sequence [variance] returns the variance of the
    specification, unless a square overflows. *)
Lemma variance_cases (k : py.scalar) (l : list F) :
  l <> [] ->
  common_lib.variance k l (py.len l) = Ok (variance_of l) \/
  k = py.python_float /\
  common_lib.variance k l (py.len l) = Raise OverflowError.
Proof.
  intros Hne. unfold common_lib.variance.
  rewrite mean_value_total by done. simpl.
  destruct (squares_loop k (fun v => v - mean_of l)%num l (of_int 0))
    as [->|[-> ->]]; simpl; [left|by right].
  by rewrite true_div_nonzero by by apply len_nonzero.
Qed.

Lemma variance_numpy (l : list F) :
  l <> [] ->
  common_lib.variance py.numpy_float64 l (py.len l) = Ok (variance_of l).
Proof. intros Hne. by destruct (variance_cases py.numpy_float64 l Hne) as [?|[? _]]. Qed.

Lemma variance_returns (k : py.scalar) (l : list F) (v : F) :
  l <> [] -> common_lib.variance k l (py.len l) = Ok v -> v = variance_of l.
Proof.
  intros Hne Hv. destruct (variance_cases k l Hne) as [Hok|[_ Hraise]];
    congruence.
Qed.

Lemma variance_not_returns (k : py.scalar) (l : list F) :
  l <> [] -> ~ returns (common_lib.variance k l (py.len l)) ->
  common_lib.variance k l (py.len l) = Raise OverflowError.
Proof.
  intros Hne Hno. destruct (variance_cases k l Hne) as [Hok|[_ Hraise]];
    [|done].
  exfalso. apply Hno. by eexists.
Qed.

(** The loop over the squares of Python [float]s returns exactly when no
    square of a finite number overflows. *)
Lemma squares_loop_returns (g : F -> F) (l : list F) (s : F) :
  returns (py.for_each l
             (fun s v => q ← py.sq py.python_float (g v); mret (s + q)%num) s)
  <-> forall v, v ∈ l ->
        is_finite (g v) && negb (is_finite (g v * g v)%num) = false.
Proof.
  revert s. induction l as [|x l IH]; intros s.
  - split; [by intros _ v ?%elem_of_nil|]. intros _. by exists s.
  - cbn [py.for_each].
    assert (Hsq : py.sq py.python_float (g x)
                  = if is_finite (g x) && negb (is_finite (g x * g x)%num)
                    then Raise OverflowError else Ok (g x * g x)%num)
      by reflexivity.
    rewrite Hsq.
    destruct (is_finite (g x) && negb (is_finite (g x * g x)%num)) eqn:Hx;
      cbn [mbind result_bind mret result_ret].
    + split; [by intros [a ?]|]. intros Hall.
      specialize (Hall x ltac:(left)). congruence.
    + rewrite IH. split.
      * intros Hall v [->|Hv]%elem_of_cons; [done|by apply Hall].
      * intros Hall v Hv. apply Hall. by right.
Qed.

(** So [variance] of a non-empty list of Python [float]s returns exactly
    when no squared deviation from the mean overflows. *)
Lemma variance_returns_iff (l : list F) :
  l <> [] ->
  returns (common_lib.variance py.python_float l (py.len l))
  <-> forall v, v ∈ l ->
        is_finite (v - mean_of l)%num
        && negb (is_finite ((v - mean_of l) * (v - mean_of l))%num) = false.
Proof.
  intros Hne.
  rewrite <- (squares_loop_returns (fun v => v - mean_of l)%num l (of_int 0)).
  unfold common_lib.variance. rewrite mean_value_total by done.
  cbn [mbind result_bind].
  destruct (py.for_each l _ (of_int 0)) as [s|e]; cbn [mbind result_bind].
  - rewrite true_div_nonzero by by apply len_nonzero.
    split; intros _; by eexists.
  - split; by intros [a ?].
Qed.

(** A loop raises [e] when one iteration does not return and no iteration
    raises another exception. *)
Lemma for_each_raises {S B} (xs : list B) (body : S -> B -> result S) e init :
  (forall s x e', x ∈ xs -> body s x = Raise e' -> e' = e) ->
  (exists x, x ∈ xs /\ forall s, ~ returns (body s x)) ->
  py.for_each xs body init = Raise e.
Proof.
  revert init. induction xs as [|x xs IH]; intros init Honly (y & Hy & Hno).
  - by apply elem_of_nil in Hy.
  - simpl. destruct (body init x) as [s'|e'] eqn:Hx; simpl.
    + apply IH.
      * intros s z e' Hz. apply Honly. by right.
      * apply elem_of_cons in Hy as [->|Hy]; [|by exists y].
        exfalso. apply (Hno init). by eexists.
    + f_equal. by apply (Honly init x); [left|].
Qed.

(** A loop that appends one entry per iteration returns one entry per
    iteration. *)
Lemma for_each_length {A B} (xs : list B)
    (body : list A -> B -> result (list A)) init res :
  (forall acc x acc', body acc x = Ok acc' -> length acc' = S (length acc)) ->
  py.for_each xs body init = Ok res ->
  length res = (length init + length xs)%nat.
Proof.
  intros Hbody. revert init. induction xs as [|x xs IH]; intros init; simpl.
  - intros [= <-]. lia.
  - destruct (body init x) as [acc'|] eqn:Hx; simpl; [|done].
    intros Hres%IH. rewrite (Hbody _ _ _ Hx) in Hres. lia.
Qed.

Lemma window_nonempty (current : list F) (window_size i : Z) :
  (0 < window_size)%Z -> (0 <= i)%Z -> (i + window_size <= py.len current)%Z ->
  py.slice current i (i + window_size) <> [].
Proof.
  intros Hw Hi Hlen Hnil.
  assert (Hl : py.len (py.slice current i (i + window_size)) = window_size)
    by (rewrite slice_length; lia).
  rewrite Hnil in Hl. unfold py.len in Hl. simpl in Hl. lia.
Qed.

Lemma moving_std_total (current : list F) (n window_size : Z) :
  n = py.len current -> (0 < window_size)%Z ->
  (forall i, (0 <= i <= n - window_size)%Z ->
     returns (window_variance current window_size i)) ->
  vector.moving_std current n window_size
  = Ok ((fun i => std_of (py.slice current i (i + window_size)))
          <$> py.range (n - window_size + 1)).
Proof.
  intros Hn Hw Hret. unfold vector.moving_std.
  apply (for_each_append _ _
    (fun i => std_of (py.slice current i (i + window_size))) []).
  intros acc i [Hi0 Hi1]%elem_of_range.
  destruct (Hret i ltac:(lia)) as [v Hv]. unfold window_variance in Hv.
  cbv zeta in Hv. rewrite Hv. simpl.
  by rewrite (variance_returns _ _ v (window_nonempty current window_size i
                ltac:(lia) ltac:(lia) ltac:(lia)) Hv).
Qed.

Lemma moving_std_raises (current : list F) (n window_size : Z) :
  n = py.len current -> (0 < window_size)%Z ->
  (exists i, (0 <= i <= n - window_size)%Z /\
     ~ returns (window_variance current window_size i)) ->
  vector.moving_std current n window_size = Raise OverflowError.
Proof.
  intros Hn Hw (i & Hi & Hno). unfold vector.moving_std.
  apply for_each_raises.
  - intros acc j e' [Hj0 Hj1]%elem_of_range.
    destruct (variance_cases py.python_float
                (py.slice current j (j + window_size))) as [->|[_ ->]];
      [apply window_nonempty; lia|done|]. simpl. by intros [= <-].
  - exists i. split; [apply elem_of_range; lia|].
    intros acc [res Hres]. apply Hno. unfold window_variance. cbv zeta.
    destruct (common_lib.variance _ _ _) as [v|]; [by exists v|done].
Qed.

End stats_facts.

Section scan.
Context (n window_size : Z) (flags : list bool).
Hypothesis window_min : (10 <= window_size)%Z.

Lemma enumerate_lookup (k : nat) (f : bool) :
  flags !! k = Some f -> vector.enumerate flags !! k = Some (Z.of_nat k, f).
Proof.
  intros Hk. unfold vector.enumerate. apply lookup_zip_with_Some.
  exists (Z.of_nat k), f. split; [done|]. split; [|done].
  apply range_lookup. apply lookup_lt_Some in Hk. unfold py.len. lia.
Qed.

Lemma enumerate_length : length (vector.enumerate flags) = length flags.
Proof.
  unfold vector.enumerate. rewrite length_zip_with, range_length.
  unfold py.len. lia.
Qed.

(** A run that ends at [e] starts at one offset only. *)
Lemma run_start_unique (a a' e : Z) :
  (0 <= a < e)%Z -> (0 <= a' < e)%Z ->
  (forall i, (a <= i < e)%Z -> flags !! Z.to_nat i = Some true) ->
  (forall i, (a' <= i < e)%Z -> flags !! Z.to_nat i = Some true) ->
  ((0 < a)%Z -> flags !! Z.to_nat (a - 1) = Some false) ->
  ((0 < a')%Z -> flags !! Z.to_nat (a' - 1) = Some false) ->
  a = a'.
Proof.
  intros Ha Ha' Hrun Hrun' Hpre Hpre'.
  destruct (Z.lt_trichotomy a a') as [Hlt|[Heq|Hgt]]; [|done|].
  - specialize (Hrun (a' - 1)%Z ltac:(lia)). rewrite Hpre' in Hrun by lia. done.
  - specialize (Hrun' (a - 1)%Z ltac:(lia)). rewrite Hpre in Hrun' by lia. done.
Qed.

Lemma scan_invariant_holds (k : nat) :
  (k <= length flags)%nat ->
  scan_invariant n window_size flags k (scan_prefix n window_size flags k).
Proof.
  induction k as [|k IH]; intros Hk.
  - unfold scan_prefix. simpl. split; [|lia].
    intros a b. split; [by intros ?%elem_of_nil|].
    intros (e & He & (Hae & _) & _). lia.
  - destruct (lookup_lt_is_Some_2 flags k) as [f Hf]; [lia|].
    specialize (IH ltac:(lia)). unfold scan_prefix, scan_invariant in *.
    rewrite (take_S_r _ _ _ (enumerate_lookup k f Hf)), fold_left_app.
    destruct (fold_left _ (take k _) _) as [[stalls in_stall] start].
    simpl. destruct IH as [Hstalls Hopen].
    assert (Hlen : (Z.of_nat k < py.len flags)%Z) by (unfold py.len; lia).
    destruct f, in_stall; simpl.
    + (* the run goes on *)
      split.
      * intros a b. rewrite Hstalls. split.
        -- intros (e & He & Hrun & ->). exists e. split; [lia|done].
        -- intros (e & He & Hrun & ->). exists e. split; [|done].
           destruct (decide (e = Z.of_nat k)) as [->|]; [|lia].
           destruct Hrun as (_ & _ & _ & _ & Hend).
           rewrite Nat2Z.id, Hf in Hend. by specialize (Hend Hlen).
      * destruct Hopen as (Hs & Hrun & Hpre). split; [lia|]. split; [|done].
        intros i Hi. destruct (decide (i = Z.of_nat k)) as [->|].
        -- by rewrite Nat2Z.id.
        -- apply Hrun. lia.
    + (* a run opens *)
      split.
      * intros a b. rewrite Hstalls. split.
        -- intros (e & He & Hrun & ->). exists e. split; [lia|done].
        -- intros (e & He & Hrun & ->). exists e. split; [|done].
           destruct (decide (e = Z.of_nat k)) as [->|]; [|lia].
           destruct Hrun as (_ & _ & _ & _ & Hend).
           rewrite Nat2Z.id, Hf in Hend. by specialize (Hend Hlen).
      * split; [lia|]. split.
        -- intros i Hi. replace i with (Z.of_nat k) by lia. by rewrite Nat2Z.id.
        -- intros Hpos. replace (Z.to_nat (Z.of_nat k - 1)) with (k - 1)%nat by lia.
           apply Hopen. lia.
    + (* the run closes *)
      destruct Hopen as (Hs & Hrun & Hpre).
      destruct (Z.leb_spec 10 (Z.of_nat k + window_size - 1 - start)) as [_|]; [|lia].
      split.
      * intros a b. rewrite elem_of_app, list_elem_of_singleton, Hstalls. split.
        -- intros [(e & He & Hr & ->)|Heq].
           ++ exists e. split; [lia|done].
           ++ inversion Heq; subst a b; clear Heq.
              exists (Z.of_nat k). split; [lia|]. split; [|done].
              split; [lia|]. split; [lia|]. split; [done|]. split; [done|].
              intros _. by rewrite Nat2Z.id.
        -- intros (e & He & Hr & ->).
           destruct (decide (e = Z.of_nat k)) as [->|].
           ++ right. destruct Hr as (Ha & _ & Hrun' & Hpre' & _).
              f_equal. by apply (run_start_unique a start (Z.of_nat k)).
           ++ left. exists e. split; [lia|done].
      * intros _. rewrite <- Hf. f_equal. lia.
    + (* no run is open *)
      split.
      * intros a b. rewrite Hstalls. split.
        -- intros (e & He & Hrun & ->). exists e. split; [lia|done].
        -- intros (e & He & Hrun & ->). exists e. split; [|done].
           destruct (decide (e = Z.of_nat k)) as [->|]; [|lia].
           destruct Hrun as (Ha & _ & Hrun & _).
           specialize (Hrun (Z.of_nat k - 1)%Z ltac:(lia)).
           replace (Z.to_nat (Z.of_nat k - 1)) with (k - 1)%nat in Hrun by lia.
           rewrite Hopen in Hrun by lia. done.
      * intros _. rewrite <- Hf. f_equal. lia.
Qed.

(** The result of the scan and of the test that follows it. *)
Lemma scan_result :
  let '(stalls, in_stall, start) :=
    fold_left (vector.scan_step n window_size) (vector.enumerate flags)
              ([], false, 0%Z) in
  let reported :=
    if in_stall : bool then
      if (10 <=? n - 1 - start)%Z then stalls ++ [(start, (n - 1)%Z)] else stalls
    else stalls in
  forall a b, (a, b) ∈ reported <->
    exists e, maximal_run flags a e /\
      ((e < py.len flags)%Z /\ b = Z.min (e + window_size - 1) (n - 1) \/
       e = py.len flags /\ (10 <= n - 1 - a)%Z /\ b = (n - 1)%Z).
Proof.
  pose proof (scan_invariant_holds (length flags) ltac:(lia)) as Hinv.
  unfold scan_prefix, scan_invariant in Hinv.
  rewrite take_ge in Hinv by (rewrite enumerate_length; lia).
  destruct (fold_left _ _ _) as [[stalls in_stall] start].
  destruct Hinv as [Hstalls Hopen]. fold (py.len flags) in *.
  intros reported a b. subst reported. destruct in_stall.
  - destruct Hopen as (Hs & Hrun & Hpre).
    assert (Hlast : maximal_run flags start (py.len flags)).
    { split; [done|]. split; [lia|]. split; [done|]. split; [done|lia]. }
    assert (Huniq : forall a, maximal_run flags a (py.len flags) -> a = start).
    { intros a' (Ha & _ & Hrun' & Hpre' & _).
      by apply (run_start_unique a' start (py.len flags)). }
    destruct (Z.leb_spec 10 (n - 1 - start)) as [Hlong|Hshort].
    + rewrite elem_of_app, list_elem_of_singleton, Hstalls. split.
      * intros [(e & He & Hr & ->)|Heq]; [exists e; by eauto|].
        inversion Heq; subst a b; clear Heq.
        exists (py.len flags). split; [done|]. right. done.
      * intros (e & Hr & [[He ->]|(-> & Hlong' & ->)]).
        -- left. by exists e.
        -- right. by rewrite (Huniq a Hr).
    + rewrite Hstalls. split.
      * intros (e & He & Hr & ->). exists e. by eauto.
      * intros (e & Hr & [[He ->]|(-> & Hlong' & ->)]); [by exists e|].
        rewrite (Huniq a Hr) in Hlong'. lia.
  - rewrite Hstalls. split.
    + intros (e & He & Hr & ->). exists e. by eauto.
    + intros (e & Hr & [[He ->]|(-> & Hlong' & ->)]); [by exists e|].
      destruct Hr as (Ha & _ & Hrun & _).
      specialize (Hrun (py.len flags - 1)%Z ltac:(lia)).
      replace (Z.to_nat (py.len flags - 1)) with (length flags - 1)%nat
        in Hrun by (unfold py.len; lia).
      rewrite Hopen in Hrun; [done|]. unfold py.len in Ha. lia.
Qed.

End scan.

Section detect_stalls.
Context {F : Type} `{Number F}.

(** C4, amended.  With [global_std] different from zero: when the variance
    of a window overflows, [detect_stalls] raises [OverflowError]; when the
    variance of every window returns, [detect_stalls] returns, and reports
    exactly these intervals.  A maximal run of in-stall offsets [s .. e - 1]
    that is followed by an offset [e] not in stall is reported as
    [(s, e + window_size - 1)], whatever its length; this end is at most
    [n - 1], so clipping changes nothing.  A run that reaches the last
    offset is reported as [(s, n - 1)] when [n - 1 - s >= 10], and is not
    reported otherwise. *)
Theorem detect_stalls_runs (current : list F) (n w : Z) (var_ : F) :
  n = py.len current ->
  to_int (of_int n * dec 3 100)%num = Ok w ->
  common_lib.variance py.python_float current n = Ok var_ ->
  (common_lib.std_dev var_ =? of_int 0)%num = false ->
  let window_size := Z.max w 10 in
  let flags := stall_flags current n window_size
                 (common_lib.std_dev var_ * dec 2 1000)%num in
  ((exists i, (0 <= i <= n - window_size)%Z /\
      ~ returns (window_variance current window_size i)) ->
   vector.detect_stalls current n = Raise OverflowError) /\
  ((forall i, (0 <= i <= n - window_size)%Z ->
      returns (window_variance current window_size i)) ->
   exists stalls,
     vector.detect_stalls current n = Ok stalls /\
     forall a b, (a, b) ∈ stalls <->
       exists e, maximal_run flags a e /\
         ((e < py.len flags)%Z /\ b = (e + window_size - 1)%Z /\ (b <= n - 1)%Z \/
          e = py.len flags /\ (10 <= n - 1 - a)%Z /\ b = (n - 1)%Z)).
Proof.
  intros Hn Hw Hvar Hstd window_size flags.
  assert (Hmin : (10 <= window_size)%Z) by (subst window_size; lia).
  split.
  { intros Hno. unfold vector.detect_stalls. rewrite Hw. simpl.
    rewrite Hvar. simpl. rewrite Hstd. fold window_size.
    by rewrite moving_std_raises by (done || lia). }
  intros Hret.
  unfold vector.detect_stalls. rewrite Hw. simpl. rewrite Hvar. simpl.
  rewrite Hstd. fold window_size.
  rewrite moving_std_total by (done || lia). simpl.
  rewrite <- list_fmap_compose.
  change (_ <$> py.range (n - window_size + 1)) with flags.
  pose proof (scan_result n window_size flags Hmin) as Hscan.
  destruct (fold_left _ _ _) as [[stalls in_stall] start].
  assert (Hflags : py.len flags = Z.max 0 (n - window_size + 1)).
  { subst flags. unfold stall_flags, py.len.
    rewrite length_fmap, range_length. lia. }
  cbv zeta in Hscan.
  exists (if in_stall
          then if (10 <=? n - 1 - start)%Z
               then stalls ++ [(start, (n - 1)%Z)] else stalls
          else stalls).
  split; [by destruct in_stall, (10 <=? n - 1 - start)%Z|].
  intros a b.
  rewrite Hscan. split.
  - intros (e & Hr & [[He ->]|Hopen]); exists e; (split; [done|]).
    + left. destruct Hr as (Ha & _). split; [done|]. split; lia.
    + by right.
  - intros (e & Hr & [(He & -> & Hb)|Hopen]); exists e; (split; [done|]).
    + left. destruct Hr as (Ha & _). split; [done|]. lia.
    + by right.
Qed.

End detect_stalls.

Lemma two_outliers_stall_flags :
  stall_flags two_outliers 40 (Z.max 1 10)
    (common_lib.std_dev 10.6875%float * dec 2 1000)%num
  = two_outliers_flags.
Proof. vm_compute. reflexivity. Qed.

(** The theorem at [two_outliers]. *)
Lemma detect_stalls_runs_witness :
  exists stalls,
    vector.detect_stalls two_outliers 40 = Ok stalls /\
    forall a b, (a, b) ∈ stalls <->
      exists e, maximal_run two_outliers_flags a e /\
        ((e < py.len two_outliers_flags)%Z /\ b = (e + Z.max 1 10 - 1)%Z
           /\ (b <= 40 - 1)%Z \/
         e = py.len two_outliers_flags /\ (10 <= 40 - 1 - a)%Z /\ b = (40 - 1)%Z).
Proof.
  rewrite <- two_outliers_stall_flags.
  apply (detect_stalls_runs (F := float) two_outliers 40 1 10.6875%float).
  - reflexivity.
  - vm_compute. reflexivity.
  - vm_compute. reflexivity.
  - vm_compute. reflexivity.
  - intros i Hi.
    apply (returns_on_range (window_variance two_outliers (Z.max 1 10)) 31).
    + vm_compute. reflexivity.
    + simpl in Hi. lia.
Defined.

(** C4 as stated fails on [two_outliers], where [window_size] is 10.  The
    offsets 6 to 10 are a maximal run of five in-stall offsets, and the run
    is reported, as [(6, 20)] and not as [(6, 6 + 10 - 1)].  The run of the
    offsets 21 to 30 is reported as [(21, 39)], not as [(21, 30)]. *)
Lemma detect_stalls_short_run :
  vector.detect_stalls two_outliers 40 = Ok [(6%Z, 20%Z); (21%Z, 39%Z)] /\
  maximal_run two_outliers_flags 6 11 /\
  ~ (forall a b, (a, b) ∈ [(6%Z, 20%Z); (21%Z, 39%Z)] <->
       exists e, maximal_run two_outliers_flags a e /\ (10 <= e - a)%Z /\
                 b = Z.min (a + 10 - 1) (40 - 1)).
Proof.
  split; [vm_compute; reflexivity|]. split.
  - split; [lia|]. split; [unfold py.len; simpl; lia|].
    split; [|split; intros _; reflexivity].
    intros i Hi.
    assert (i = 6 \/ i = 7 \/ i = 8 \/ i = 9 \/ i = 10)%Z
      as [->|[->|[->|[->| ->]]]] by lia; reflexivity.
  - intros Hclaim. destruct (Hclaim 6%Z 20%Z) as [Hrep _].
    destruct Hrep as (e & _ & _ & Hend); [left|]. lia.
Qed.

(** On [large_samples] the squared deviations of the whole signal are
    finite and their sum is not, so [global_std] is infinite; in the window
    at offset 1 the last sample deviates from the mean by [-1.8e154], whose
    square overflows: [detect_stalls] raises [OverflowError]. *)
Example detect_stalls_large_samples :
  common_lib.variance py.python_float large_samples 20 = Ok infinity /\
  is_ok (window_variance large_samples 10 0) = true /\
  window_variance large_samples 10 1 = Raise OverflowError /\
  vector.detect_stalls large_samples 20 = Raise OverflowError.
Proof. repeat split; vm_compute; reflexivity. Qed.

(** ** detect_oscillations *)

(** A loop that appends an entry at the iterations that pass a test. *)
Lemma for_each_select {A B} (xs : list B)
    (body : list A -> B -> result (list A)) (p : B -> bool) (g : B -> A) init :
  (forall acc x, x ∈ xs -> body acc x = Ok (if p x then acc ++ [g x] else acc)) ->
  py.for_each xs body init = Ok (init ++ (g <$> List.filter p xs)).
Proof.
  revert init. induction xs as [|x xs IH]; intros init Hbody; simpl.
  - by rewrite app_nil_r.
  - rewrite (Hbody init x) by left. simpl.
    rewrite IH by (intros acc y Hy; apply Hbody; by right).
    destruct (p x); simpl; [by rewrite <- app_assoc|done].
Qed.

(** A loop that appends one entry to each of two lists. *)
Lemma for_each_append2 {A1 A2 B} (xs : list B)
    (body : list A1 * list A2 -> B -> result (list A1 * list A2))
    (g1 : B -> A1) (g2 : B -> A2) init1 init2 :
  (forall acc1 acc2 x, x ∈ xs ->
     body (acc1, acc2) x = Ok (acc1 ++ [g1 x], acc2 ++ [g2 x])) ->
  py.for_each xs body (init1, init2)
  = Ok (init1 ++ (g1 <$> xs), init2 ++ (g2 <$> xs)).
Proof.
  revert init1 init2. induction xs as [|x xs IH]; intros init1 init2 Hbody; simpl.
  - by rewrite !app_nil_r.
  - rewrite (Hbody init1 init2 x) by left. simpl.
    rewrite IH by (intros acc1 acc2 y Hy; apply Hbody; by right).
    by rewrite <- !app_assoc.
Qed.

(** A loop over the indices of a list that reads the entry at each index is
    a loop over the entries. *)
Lemma for_each_indices {A S} (l : list A) (body : S -> A -> result S) s :
  py.for_each (py.range (py.len l))
    (fun s k => x ← py.getitem l k; body s x) s
  = py.for_each l body s.
Proof.
  revert s. induction l as [|y l IH] using rev_ind; intros s; [done|].
  rewrite len_app. change (py.len [y]) with 1%Z.
  rewrite range_succ by apply len_nonneg. rewrite !for_each_app.
  assert (Hpre : py.for_each (py.range (py.len l))
            (fun s k => x ← py.getitem (l ++ [y]) k; body s x) s
          = py.for_each l body s).
  { rewrite <- IH. clear IH. generalize s.
    assert (Hin : forall k, k ∈ py.range (py.len l) ->
              py.getitem (l ++ [y]) k = py.getitem l k).
    { intros k [Hk0 Hk1]%elem_of_range.
      destruct (lookup_lt_is_Some_2 l (Z.to_nat k)) as [v Hv];
        [unfold py.len in Hk1; lia|].
      rewrite (getitem_lookup l k v), (getitem_lookup (l ++ [y]) k v); try done.
      by apply lookup_app_l_Some. }
    induction (py.range (py.len l)) as [|k ks IHks]; intros s0; [done|].
    simpl. rewrite Hin by left.
    destruct (py.getitem l k ≫= body s0); simpl; [|done].
    apply IHks. intros k' Hk'. apply Hin. by right. }
  rewrite Hpre. destruct (py.for_each l body s) as [s'|e]; simpl; [|done].
  rewrite (getitem_lookup (l ++ [y]) (py.len l) y); [done|apply len_nonneg|].
  unfold py.len. rewrite Nat2Z.id. apply list_lookup_middle. done.
Qed.

(** A counting loop counts the entries that pass the test. *)
Lemma for_each_count {A} (l : list A) (p : A -> bool) (c : Z) :
  py.for_each l (fun count x => if p x then mret (count + 1)%Z else mret count) c
  = Ok (c + py.len (List.filter p l))%Z.
Proof.
  revert c. induction l as [|x l IH]; intros c; simpl.
  - f_equal. unfold py.len. simpl. lia.
  - destruct (p x); simpl; rewrite IH; f_equal; unfold py.len; simpl; lia.
Qed.

Section where_facts.
Context {F : Type} `{Number F}.

Lemma nonzero_from_cons s x d :
  nonzero_from s (x :: d)
  = (if negb (x =? of_int 0)%num then [Z.of_nat s] else []) ++ nonzero_from (S s) d.
Proof. unfold nonzero_from. simpl. by destruct (negb _). Qed.

Lemma nonzero_from_bounds s d j a :
  nonzero_from s d !! j = Some a -> (Z.of_nat s <= a < Z.of_nat s + py.len d)%Z.
Proof.
  revert s j. induction d as [|x d IH]; intros s j.
  - done.
  - rewrite nonzero_from_cons. unfold py.len. simpl length.
    destruct (negb _); simpl.
    + destruct j as [|j]; simpl.
      * intros [= <-]. lia.
      * intros Hj%IH. unfold py.len in Hj. lia.
    + intros Hj%IH. unfold py.len in Hj. lia.
Qed.

Lemma nonzero_from_increasing s d j a b :
  nonzero_from s d !! j = Some a -> nonzero_from s d !! S j = Some b -> (a < b)%Z.
Proof.
  revert s j. induction d as [|x d IH]; intros s j.
  - done.
  - rewrite nonzero_from_cons. destruct (negb _); simpl; [|apply IH].
    destruct j as [|j]; simpl; [|apply IH].
    intros [= <-] Hb%nonzero_from_bounds. lia.
Qed.

Lemma where_nonzero_from d : vector.where_nonzero d = nonzero_from 0 d.
Proof.
  unfold nonzero_from. unfold vector.where_nonzero, py.range, py.len. simpl.
  by rewrite Nat2Z.id.
Qed.

Lemma crossings_from_cons (s : Z) (x y : F) (rest : list F) :
  crossings_from s (x :: y :: rest)
  = (if signs_differ x y then [s] else []) ++ crossings_from (s + 1) (y :: rest).
Proof. reflexivity. Qed.

Lemma crossings_from_bounds (s : Z) (centered : list F) j a :
  crossings_from s centered !! j = Some a ->
  (s <= a < s + py.len centered - 1)%Z.
Proof.
  revert s j. induction centered as [|x rest IH]; intros s j; [done|].
  destruct rest as [|y rest']; [done|].
  rewrite crossings_from_cons.
  assert (Hlen : py.len (x :: y :: rest') = (py.len (y :: rest') + 1)%Z)
    by (unfold py.len; cbn [length]; lia).
  rewrite Hlen. destruct (signs_differ x y).
  - destruct j as [|j].
    + intros [= <-]. pose proof (len_nonneg rest').
      unfold py.len in *. cbn [length]. lia.
    + intros Hj. apply IH in Hj. lia.
  - intros Hj. apply IH in Hj. lia.
Qed.

Lemma crossings_from_increasing (s : Z) (centered : list F) j a b :
  crossings_from s centered !! j = Some a ->
  crossings_from s centered !! S j = Some b -> (a < b)%Z.
Proof.
  revert s j. induction centered as [|x rest IH]; intros s j; [done|].
  destruct rest as [|y rest']; [done|].
  rewrite crossings_from_cons.
  destruct (signs_differ x y); [|apply IH].
  destruct j as [|j]; [|apply IH].
  intros [= <-] Hb. apply crossings_from_bounds in Hb. lia.
Qed.

Lemma zero_crossings_bounds (centered : list F) j a :
  zero_crossings centered !! j = Some a -> (0 <= a < py.len centered - 1)%Z.
Proof. intros Ha%crossings_from_bounds. lia. Qed.

Lemma zero_crossings_increasing (centered : list F) j a b :
  zero_crossings centered !! j = Some a ->
  zero_crossings centered !! S j = Some b -> (a < b)%Z.
Proof. apply crossings_from_increasing. Qed.

End where_facts.

Lemma filter_map_length {A B} (p : B -> bool) (f : A -> B) (l : list A) :
  length (List.filter p (f <$> l)) = length (List.filter (fun x => p (f x)) l).
Proof.
  induction l as [|x l IH]; [done|].
  rewrite fmap_cons. cbn [List.filter].
  destruct (p (f x)); cbn [length]; by rewrite IH.
Qed.

(** Reading consecutive entries by index is reading the consecutive
    pairs. *)
Lemma consecutive_by_index {C} (f : Z -> Z -> C) (zc : list Z) :
  (fun j => f (default 0%Z (zc !! Z.to_nat j))
              (default 0%Z (zc !! Z.to_nat (j + 1))))
    <$> py.range (py.len zc - 1)
  = (fun p => f (fst p) (snd p)) <$> zip zc (drop 1 zc).
Proof.
  apply list_eq. intros j. rewrite !list_lookup_fmap.
  destruct (decide (S j < length zc)%nat) as [Hlt|Hge].
  - rewrite range_lookup by (unfold py.len; lia). simpl.
    destruct (lookup_lt_is_Some_2 zc j) as [a Ha]; [lia|].
    destruct (lookup_lt_is_Some_2 zc (S j)) as [b Hb]; [lia|].
    assert (Hzip : zip zc (drop 1 zc) !! j = Some (a, b)).
    { apply lookup_zip_Some. split; [done|]. by rewrite lookup_drop. }
    rewrite Hzip. simpl. rewrite Nat2Z.id.
    replace (Z.to_nat (Z.of_nat j + 1)) with (S j) by lia.
    by rewrite Ha, Hb.
  - rewrite (lookup_ge_None_2 (py.range _)) by (rewrite range_length; unfold py.len; lia).
    rewrite (lookup_ge_None_2 (zip _ _)); [done|].
    rewrite length_zip_with, length_drop. lia.
Qed.

(** A loop does not return when one of its iterations never does. *)
Lemma for_each_not_returns {S B} (xs : list B) (body : S -> B -> result S) init :
  (exists x, x ∈ xs /\ forall s, ~ returns (body s x)) ->
  ~ returns (py.for_each xs body init).
Proof.
  revert init. induction xs as [|x xs IH]; intros init (y & Hy & Hno).
  - by apply elem_of_nil in Hy.
  - simpl. destruct (body init x) as [s'|e'] eqn:Hx; simpl.
    + apply IH. apply elem_of_cons in Hy as [->|Hy]; [|by exists y].
      exfalso. apply (Hno init). by eexists.
    + by intros [res ?].
Qed.

Section detect_oscillations.
Context {F : Type} `{Number F}.
Context (detrend : list F -> result (list F)).
(** [detrend] returns an array of the shape of its argument. *)
Hypothesis detrend_length : forall l l', detrend l = Ok l' -> length l' = length l.
(** The arithmetic of the signs [-1], [0] and [1] is exact, and a difference
    with a NaN is a NaN, which is not equal to zero.  Both arithmetics have
    these properties. *)
Hypothesis sign_difference : forall a b : Z,
  (-1 <= a <= 1)%Z -> (-1 <= b <= 1)%Z ->
  (of_int a - of_int b =? of_int 0)%num = (a =? b)%Z.
Hypothesis no_sign_difference : forall x y : F,
  signum x = None ->
  (x - y =? of_int 0)%num = false /\ (y - x =? of_int 0)%num = false.

(** [np.sign] gives the sign as a number, and a NaN for a NaN. *)
Lemma sign_signum (x : F) :
  match signum x with
  | Some a => (-1 <= a <= 1)%Z /\ vector.sign x = of_int a
  | None => vector.sign x = x
  end.
Proof.
  unfold signum, vector.sign.
  destruct (x <? of_int 0)%num; [split; [lia|done]|].
  destruct (of_int 0 <? x)%num; [split; [lia|done]|].
  destruct (x =? of_int 0)%num; [split; [lia|done]|done].
Qed.

(** An entry of [np.diff(signs)] differs from zero when the two signs
    differ. *)
Lemma sign_change (x y : F) :
  negb (vector.sign y - vector.sign x =? of_int 0)%num = signs_differ x y.
Proof.
  unfold signs_differ.
  pose proof (sign_signum x) as Hx. pose proof (sign_signum y) as Hy.
  destruct (signum x) as [a|] eqn:Ha.
  - destruct Hx as [Hra ->]. destruct (signum y) as [b|] eqn:Hb.
    + destruct Hy as [Hrb ->]. rewrite sign_difference by done.
      by rewrite Z.eqb_sym.
    + rewrite Hy. by rewrite (proj1 (no_sign_difference y (of_int a) Hb)).
  - rewrite Hx. by rewrite (proj2 (no_sign_difference x (vector.sign y) Ha)).
Qed.

(** [np.where(np.diff(np.sign(centered)) != 0)[0]] holds the zero crossings
    of [centered]. *)
Lemma crossings_of_signs (s : nat) (centered : list F) :
  nonzero_from s (vector.diff (vector.sign <$> centered))
  = crossings_from (Z.of_nat s) centered.
Proof.
  revert s. induction centered as [|x rest IH]; intros s; [done|].
  destruct rest as [|y rest']; [done|].
  change (vector.diff (vector.sign <$> x :: y :: rest'))
    with ((vector.sign y - vector.sign x)%num
          :: vector.diff (vector.sign <$> y :: rest')).
  rewrite nonzero_from_cons, sign_change, IH, crossings_from_cons.
  by replace (Z.of_nat (S s)) with (Z.of_nat s + 1)%Z by lia.
Qed.

Lemma where_crossings (centered : list F) :
  vector.where_nonzero (vector.diff (vector.sign <$> centered))
  = zero_crossings centered.
Proof. rewrite where_nonzero_from. apply crossings_of_signs. Qed.

(** [abs(max(l, key=abs))] is the peak absolute amplitude of [l]. *)
Lemma fold_peak (rest : list F) (x m : F) :
  fabs x = m ->
  fabs (fold_left (fun best item =>
                     if (fabs item >? fabs best)%num then item else best)
                  rest x)
  = fold_left (fun m v => if (m <? fabs v)%num then fabs v else m) rest m.
Proof.
  revert x m. induction rest as [|v rest IH]; intros x m <-; simpl; [done|].
  destruct (fabs x <? fabs v)%num; by apply IH.
Qed.

Lemma max_key_abs_peak (l : list F) :
  l <> [] ->
  exists x, py.max_key_abs l = Ok x /\ fabs x = peak_amplitude l.
Proof.
  intros Hne. destruct l as [|x rest]; [done|].
  eexists. split; [reflexivity|]. by apply fold_peak.
Qed.

Lemma sub_intervals_length (centered : list F) :
  py.len (sub_intervals centered) = Z.max 0 (py.len (zero_crossings centered) - 1).
Proof.
  unfold sub_intervals, py.len. rewrite length_zip_with, length_drop. lia.
Qed.

Lemma crossing_intervals_total (centered : list F) :
  vector.crossing_intervals centered (zero_crossings centered)
  = Ok ((fun p => snd p - fst p)%Z <$> sub_intervals centered,
        amplitudes centered).
Proof.
  unfold vector.crossing_intervals, amplitudes, sub_intervals.
  set (zc := zero_crossings centered).
  rewrite <- (consecutive_by_index (fun a b => (b - a)%Z) zc).
  rewrite <- (consecutive_by_index
                (fun a b => peak_amplitude (take (Z.to_nat (b - a))
                                                 (drop (Z.to_nat a) centered)))
                zc).
  apply (for_each_append2 _ _
    (fun j => (default 0 (zc !! Z.to_nat (j + 1)) - default 0 (zc !! Z.to_nat j))%Z)
    (fun j => peak_amplitude
                (take (Z.to_nat (default 0%Z (zc !! Z.to_nat (j + 1))
                                 - default 0%Z (zc !! Z.to_nat j)))
                      (drop (Z.to_nat (default 0%Z (zc !! Z.to_nat j)))
                            centered)))
    [] []).
  intros acc1 acc2 j [Hj0 Hj1]%elem_of_range.
  destruct (lookup_lt_is_Some_2 zc (Z.to_nat j)) as [a Ha];
    [unfold py.len in Hj1; lia|].
  destruct (lookup_lt_is_Some_2 zc (Z.to_nat (j + 1))) as [b Hb];
    [unfold py.len in Hj1; lia|].
  rewrite (getitem_lookup zc j a), (getitem_lookup zc (j + 1) b) by (done || lia).
  rewrite Ha, Hb. simpl.
  replace (Z.to_nat (j + 1)) with (S (Z.to_nat j)) in Hb by lia.
  pose proof (zero_crossings_increasing centered _ a b Ha Hb) as Hab.
  pose proof (zero_crossings_bounds centered _ a Ha) as Ha'.
  pose proof (zero_crossings_bounds centered _ b Hb) as Hb'.
  destruct (max_key_abs_peak (py.slice centered a b)) as (x & -> & Hx).
  { intros Hnil.
    assert (Hl : py.len (py.slice centered a b) = (b - a)%Z)
      by (rewrite slice_length; lia).
    rewrite Hnil in Hl. unfold py.len in Hl. simpl in Hl. lia. }
  simpl. rewrite Hx, slice_nonneg by lia.
  by rewrite Z2Nat.inj_sub by lia.
Qed.

Lemma qualifies_oscillating global_std centered :
  qualifies global_std centered = true <-> oscillating global_std centered.
Proof.
  unfold qualifies, oscillating.
  rewrite !andb_true_iff, negb_true_iff, !Z.ltb_lt. tauto.
Qed.

(** One iteration of the scan, on a window of full length that [detrend]
    accepts. *)
Lemma oscillation_step (padded_data : list F) (global_std : F)
    (window_size i : Z) (osci_regions : list (Z * Z)) (centered : list F) :
  (10 <= window_size)%Z -> (0 <= i)%Z ->
  (i + window_size <= py.len padded_data)%Z ->
  detrend (py.slice padded_data i (i + window_size)) = Ok centered ->
  (let start := i in
   let end_ := (i + window_size)%Z in
   let window := py.slice padded_data start end_ in
   let n_window := py.len window in
   centered ← detrend window;
   local_var ← common_lib.variance py.numpy_float64 centered n_window;
   let local_std := common_lib.std_dev local_var in
   if (local_std <? dec 1 100 * global_std)%num then mret osci_regions
   else
     let signs := vector.sign <$> centered in
     let zero_crossings := vector.where_nonzero (vector.diff signs) in
     if (5 <? py.len zero_crossings)%Z then
       '(length, amp) ← vector.crossing_intervals centered zero_crossings;
       amp_var ← common_lib.variance py.numpy_float64 amp (py.len amp);
       let amp_std := common_lib.std_dev amp_var in
       amp_mean ← common_lib.mean_value py.numpy_float64 amp (py.len amp);
       count ← py.for_each (py.range (py.len length))
         (fun count k =>
            length_k ← py.getitem length k;
            if (5 <=? length_k)%Z && (amp_std <? dec 3 10 * amp_mean)%num
            then mret (count + 1)%Z
            else mret count)
         0%Z;
       if (3 <? count)%Z then mret (osci_regions ++ [(start, end_)])
       else mret osci_regions
     else mret osci_regions)
  = Ok (if qualifies global_std centered
        then osci_regions ++ [(i, (i + window_size)%Z)] else osci_regions).
Proof.
  intros Hw Hi Hlen Hdetrend. cbv zeta.
  set (window := py.slice padded_data i (i + window_size)) in *.
  rewrite Hdetrend. simpl.
  assert (Hwin : py.len window = window_size)
    by (subst window; rewrite slice_length; lia).
  assert (Hcen : py.len centered = py.len window)
    by (unfold py.len; by rewrite (detrend_length _ _ Hdetrend)).
  assert (Hne : centered <> []).
  { intros Hnil. rewrite Hnil in Hcen. unfold py.len in Hcen at 1.
    simpl in Hcen. lia. }
  rewrite <- Hcen, variance_numpy by done. simpl.
  unfold qualifies.
  change (common_lib.std_dev (variance_of centered)) with (std_of centered).
  destruct (std_of centered <? dec 1 100 * global_std)%num; simpl; [done|].
  rewrite where_crossings.
  destruct (Z.ltb_spec 5 (py.len (zero_crossings centered))) as [Hzc|]; simpl; [|done].
  rewrite crossing_intervals_total. simpl.
  assert (Hamp : amplitudes centered <> []).
  { intros Hnil. pose proof (sub_intervals_length centered) as Hsl.
    unfold amplitudes in Hnil. apply fmap_nil_inv in Hnil.
    rewrite Hnil in Hsl. unfold py.len in Hsl at 1. simpl in Hsl. lia. }
  rewrite variance_numpy, mean_value_total by done. simpl.
  change (common_lib.std_dev (variance_of (amplitudes centered)))
    with (std_of (amplitudes centered)).
  rewrite (for_each_indices _
    (fun count length_k =>
       if (5 <=? length_k)%Z
          && (std_of (amplitudes centered)
              <? dec 3 10 * mean_of (amplitudes centered))%num
       then mret (count + 1)%Z else mret count)).
  rewrite for_each_count. simpl.
  unfold py.len at 1. rewrite filter_map_length.
  fold (regular centered). fold (py.len (List.filter (regular centered) (sub_intervals centered))).
  fold (regular_intervals centered). rewrite Z.add_0_l.
  by destruct (3 <? py.len (regular_intervals centered))%Z.
Qed.

(** C6.  On a non-empty signal [detect_oscillations] raises what the
    variance of the whole signal raises, and does not return when [detrend]
    raises on a window.  Otherwise it returns, and the window at start
    offset [s], cut from the padded signal, is reported, as
    [(s, s + window_size)], when and only when [s] is one of the offsets
    [0 .. n - window_size] and the detrended window is [oscillating]: its
    standard deviation is not below [0.01 * global_std], its sign sequence
    has more than 5 zero crossings, and more than 3 of the sub-intervals
    between consecutive crossings have a gap of at least 5 while
    [amp_std < 0.3 * amp_mean], the two being computed once from all the
    peak amplitudes of the window. *)
Theorem detect_oscillations_windows (current : list F) (n w : Z)
    (window_ratio : F) :
  n = py.len current -> current <> [] ->
  to_int (of_int n * window_ratio)%num = Ok w ->
  let window_size := Z.max w 10 in
  exists padded_data,
    common_lib.padded_data current window_size = Ok padded_data /\
    (forall e, common_lib.variance py.python_float current n = Raise e ->
       vector.detect_oscillations detrend current n window_ratio = Raise e) /\
    ((exists s, (0 <= s <= n - window_size)%Z /\
        ~ returns (detrend (py.slice padded_data s (s + window_size)))) ->
     ~ returns (vector.detect_oscillations detrend current n window_ratio)) /\
    (returns (common_lib.variance py.python_float current n) ->
     (forall s, (0 <= s <= n - window_size)%Z ->
        returns (detrend (py.slice padded_data s (s + window_size)))) ->
     exists regions,
       vector.detect_oscillations detrend current n window_ratio = Ok regions /\
       forall s e, (s, e) ∈ regions <->
         (0 <= s <= n - window_size)%Z /\ e = (s + window_size)%Z /\
         exists centered,
           detrend (py.slice padded_data s (s + window_size)) = Ok centered /\
           oscillating (std_of current) centered).
Proof.
  intros Hn Hne Hw window_size.
  destruct (padded_data_ok current window_size Hne)
    as (x & y & _ & _ & Hpad).
  set (padded := replicate (Z.to_nat (window_size / 2)) x ++ current
                 ++ replicate (Z.to_nat (window_size / 2)) y) in *.
  assert (Hplen : (n <= py.len padded)%Z).
  { subst padded. rewrite !len_app. pose proof (len_nonneg (replicate (Z.to_nat (window_size / 2)) x)).
    pose proof (len_nonneg (replicate (Z.to_nat (window_size / 2)) y)). lia. }
  exists padded. split; [done|].
  unfold vector.detect_oscillations. rewrite Hw. simpl. fold window_size.
  rewrite Hpad. simpl.
  split; [by intros e ->|]. split.
  - intros (s & Hs & Hno).
    destruct (common_lib.variance py.python_float current n) as [var_|e];
      simpl; [|by intros [res ?]].
    apply for_each_not_returns. exists s. split; [apply elem_of_range; lia|].
    intros acc [res Hres].
    destruct (detrend (py.slice padded s (s + window_size))) as [c|] eqn:Hc;
      [|done].
    apply Hno. by exists c.
  - intros [var_ Hvar] Hret. rewrite Hvar. simpl.
    rewrite Hn in Hvar. apply variance_returns in Hvar; [|done]. subst var_.
    change (common_lib.std_dev (variance_of current)) with (std_of current).
    set (test := fun i =>
           match detrend (py.slice padded i (i + window_size)) with
           | Ok centered => qualifies (std_of current) centered
           | Raise _ => false
           end).
    exists ((fun i => (i, (i + window_size)%Z))
              <$> List.filter test (py.range (n - window_size + 1))).
    split.
    + apply (for_each_select _ _ test (fun i => (i, (i + window_size)%Z)) []).
      intros acc i [Hi0 Hi1]%elem_of_range.
      destruct (Hret i ltac:(lia)) as [centered Hc].
      etrans;
        [apply (oscillation_step padded (std_of current) window_size i acc
                  centered); (done || subst window_size; lia)|].
      unfold test. by rewrite Hc.
    + intros s e. rewrite list_elem_of_fmap. split.
      * intros (i & [= -> ->] & Hin). apply list_elem_of_In, filter_In in Hin.
        destruct Hin as [Hin%list_elem_of_In%elem_of_range Hq].
        split; [lia|]. split; [done|]. unfold test in Hq.
        destruct (detrend _) as [centered|]; [|done].
        exists centered. split; [done|]. by apply qualifies_oscillating.
      * intros (Hs & -> & centered & Hc & Hosc). exists s. split; [done|].
        apply list_elem_of_In, filter_In. split.
        -- apply list_elem_of_In, elem_of_range. lia.
        -- unfold test. rewrite Hc. by apply qualifies_oscillating.
Qed.

End detect_oscillations.

(** The two hypotheses on the arithmetic of signs hold on [binary64] and
    in exact arithmetic. *)
Lemma binary64_sign_difference (a b : Z) :
  (-1 <= a <= 1)%Z -> (-1 <= b <= 1)%Z ->
  (of_int (F := float) a - of_int b =? of_int 0)%num = (a =? b)%Z.
Proof.
  intros Ha Hb.
  assert (a = -1 \/ a = 0 \/ a = 1)%Z as [->|[->| ->]] by lia;
    assert (b = -1 \/ b = 0 \/ b = 1)%Z as [->|[->| ->]] by lia;
    vm_compute; reflexivity.
Qed.

Lemma binary64_no_sign (x : float) :
  signum x = None -> Prim2SF x = S754_nan.
Proof.
  unfold signum. simpl.
  replace (float_of_int 0) with 0%float by (vm_compute; reflexivity).
  rewrite !FloatAxioms.ltb_spec, FloatAxioms.eqb_spec.
  replace (Prim2SF 0) with (S754_zero false) by (vm_compute; reflexivity).
  by destruct (Prim2SF x) as [[]|[]| |[] m e].
Qed.

Lemma binary64_no_sign_difference (x y : float) :
  signum x = None ->
  (x - y =? of_int 0)%num = false /\ (y - x =? of_int 0)%num = false.
Proof.
  intros Hx%binary64_no_sign. simpl.
  rewrite !FloatAxioms.eqb_spec, !FloatAxioms.sub_spec, Hx.
  by destruct (Prim2SF y) as [[]|[]| |[] m e].
Qed.

Lemma exact_sign_difference (a b : Z) :
  (of_int (F := R) a - of_int b =? of_int 0)%num = (a =? b)%Z.
Proof.
  simpl. destruct (Req_dec_T (IZR a - IZR b) 0) as [Heq|Hne].
  - symmetry. apply Z.eqb_eq. apply eq_IZR. lra.
  - symmetry. apply Z.eqb_neq. intros ->. lra.
Qed.

Lemma exact_signum (x : R) : signum x <> None.
Proof.
  unfold signum. simpl.
  destruct (Rlt_dec x 0); [done|]. destruct (Rlt_dec 0 x); [done|].
  destruct (Req_dec_T x 0); [done|lra].
Qed.

(** The theorem at the square wave, with window ratio [0.5] and a detrending
    that finds no trend. *)
Lemma detect_oscillations_windows_witness :
  exists padded_data,
    common_lib.padded_data square_wave (Z.max 48 10) = Ok padded_data /\
    (forall e, common_lib.variance py.python_float square_wave 96 = Raise e ->
       vector.detect_oscillations (fun l => Ok l) square_wave 96 0.5%float
       = Raise e) /\
    ((exists s, (0 <= s <= 96 - Z.max 48 10)%Z /\
        ~ returns (Ok (py.slice padded_data s (s + Z.max 48 10)))) ->
     ~ returns (vector.detect_oscillations (fun l => Ok l) square_wave 96
                  0.5%float)) /\
    (returns (common_lib.variance py.python_float square_wave 96) ->
     (forall s, (0 <= s <= 96 - Z.max 48 10)%Z ->
        returns (Ok (py.slice padded_data s (s + Z.max 48 10)))) ->
     exists regions,
       vector.detect_oscillations (fun l => Ok l) square_wave 96 0.5%float
       = Ok regions /\
       forall s e, (s, e) ∈ regions <->
         (0 <= s <= 96 - Z.max 48 10)%Z /\ e = (s + Z.max 48 10)%Z /\
         exists centered,
           Ok (py.slice padded_data s (s + Z.max 48 10)) = Ok centered /\
           oscillating (std_of square_wave) centered).
Proof.
  apply (detect_oscillations_windows (F := float) (fun l => Ok l)
           (fun l l' Heq => f_equal length
              (eq_sym (f_equal (fun r => match r with Ok a => a | Raise _ => l end) Heq)))
           binary64_sign_difference binary64_no_sign_difference
           square_wave 96 48 0.5%float).
  - reflexivity.
  - discriminate.
  - vm_compute. reflexivity.
Defined.

(** On the square wave the windows at the offsets 13 to 48 are reported. *)
Example detect_oscillations_square_wave :
  vector.detect_oscillations (fun l => Ok l) square_wave 96 0.5%float
  = Ok ((fun s => (s, s + 48)%Z) <$> (Z.add 13 <$> py.range 36)).
Proof. vm_compute. reflexivity. Qed.

(** A sample [2 ** 700] among zeros: its deviation from the mean is finite
    and the square is not, so the variance of the whole signal raises
    [OverflowError], and [detect_oscillations] with it. *)
Example detect_oscillations_large_sample :
  vector.detect_oscillations (fun l => Ok l)
    (0x1p700%float :: replicate 19 0%float) 20 0.5%float
  = Raise OverflowError.
Proof. vm_compute. reflexivity. Qed.

(** ** detect_spikes on a single outlier *)

Section two_valued.
Local Open Scope R_scope.

Lemma sum_samples (bs : list bool) (a : R) :
  fold_left Rplus (sample <$> bs) a
  = a + 5 * INR (length bs) + 15 * INR (outliers bs).
Proof.
  revert a. induction bs as [|b bs IH]; intros a.
  - simpl. lra.
  - cbn [fmap list_fmap fold_left length outliers]. rewrite IH.
    rewrite S_INR, plus_INR. destruct b; simpl; lra.
Qed.

Lemma squares_samples (bs : list bool) (mu a : R) :
  fold_left (fun s v => s + (v - mu) * (v - mu)) (sample <$> bs) a
  = a + (INR (length bs) - INR (outliers bs)) * ((5 - mu) * (5 - mu))
      + INR (outliers bs) * ((20 - mu) * (20 - mu)).
Proof.
  revert a. induction bs as [|b bs IH]; intros a.
  - simpl. lra.
  - cbn [fmap list_fmap fold_left length outliers]. rewrite IH.
    rewrite S_INR, plus_INR. destruct b; simpl; lra.
Qed.

(** In exact arithmetic no square overflows. *)
Lemma sq_exact (k : py.scalar) (x : R) : py.sq k x = Ok (x * x).
Proof. by destruct k. Qed.

Lemma squares_loop_exact (k : py.scalar) (g : R -> R) (l : list R) (s : R) :
  py.for_each l (fun s v => q ← py.sq k (g v); mret (s + q)%num) s
  = Ok (fold_left (fun s v => s + g v * g v) l s).
Proof.
  revert s. induction l as [|v l IH]; intros s; [done|].
  cbn [py.for_each fold_left]. rewrite sq_exact. apply IH.
Qed.

Lemma variance_exact (k : py.scalar) (l : list R) :
  l <> [] -> common_lib.variance k l (py.len l) = Ok (variance_of l).
Proof.
  intros Hne. unfold common_lib.variance.
  rewrite mean_value_total by done. cbn [mbind result_bind].
  rewrite (squares_loop_exact k (fun v => v - mean_of l)).
  cbn [mbind result_bind].
  by rewrite true_div_nonzero by by apply len_nonzero.
Qed.

Lemma mean_of_samples (bs : list bool) :
  mean_of (sample <$> bs) = mean_mk (INR (length bs)) (INR (outliers bs)).
Proof.
  unfold mean_of, mean_mk, py.len. simpl.
  rewrite sum_samples, length_fmap, <- INR_IZR_INZ. f_equal. lra.
Qed.

Lemma mean_samples (bs : list bool) :
  bs <> [] ->
  common_lib.mean_value py.python_float (sample <$> bs) (py.len (sample <$> bs))
  = Ok (mean_mk (INR (length bs)) (INR (outliers bs))).
Proof.
  intros Hne. rewrite mean_value_total by (by destruct bs).
  by rewrite mean_of_samples.
Qed.

Lemma variance_samples (bs : list bool) :
  bs <> [] ->
  common_lib.variance py.python_float (sample <$> bs) (py.len (sample <$> bs))
  = Ok (variance_mk (INR (length bs)) (INR (outliers bs))).
Proof.
  intros Hne. rewrite variance_exact by (by destruct bs). f_equal.
  unfold variance_of. rewrite mean_of_samples.
  unfold variance_mk, py.len. simpl.
  rewrite squares_samples, length_fmap, <- INR_IZR_INZ. f_equal. lra.
Qed.

Lemma mean_mk_ratio (m k : R) : 0 < m -> mean_mk m k = 5 + 15 * (k / m).
Proof. intros Hm. unfold mean_mk. field. lra. Qed.

Lemma variance_mk_ratio (m k : R) :
  0 < m -> variance_mk m k = 225 * (k / m) * (1 - k / m).
Proof.
  intros Hm. unfold variance_mk. rewrite mean_mk_ratio by done. field. lra.
Qed.

(** A deviation whose square is at most sixteen times the variance is not
    above four standard deviations. *)
Lemma within_four_sigma (v d : R) :
  0 <= v -> d * d <= 16 * v -> ~ (4 * R_sqrt.sqrt v < Rabs d).
Proof.
  intros Hv Hd Hlt.
  pose proof (sqrt_pos v) as Hs. pose proof (sqrt_sqrt v Hv) as Hss.
  pose proof (Rabs_pos d) as Ha.
  assert (Habs : Rabs d * Rabs d = d * d).
  { unfold Rabs. destruct (Rcase_abs d); ring. }
  assert (Hsq : (4 * R_sqrt.sqrt v) * (4 * R_sqrt.sqrt v) < Rabs d * Rabs d)
    by (apply Rmult_le_0_lt_compat; lra).
  replace ((4 * R_sqrt.sqrt v) * (4 * R_sqrt.sqrt v)) with (16 * (R_sqrt.sqrt v * R_sqrt.sqrt v))
    in Hsq by ring.
  rewrite Hss, Habs in Hsq. lra.
Qed.

Lemma ratio_bounds (m k : R) : 0 < m -> 0 <= k <= m -> 0 <= k / m <= 1.
Proof.
  intros Hm Hk. pose proof (Rinv_0_lt_compat m Hm) as Hi.
  assert (m * / m = 1) by (apply Rinv_r; lra).
  unfold Rdiv. split; nra.
Qed.

(** A sample at the level, judged against [m] neighbours of which [k] are
    outliers, is not flagged when [17 k <= 16 m]. *)
Lemma level_not_flagged (m k : R) :
  0 < m -> 0 <= k <= m -> 17 * k <= 16 * m ->
  ~ (4 * R_sqrt.sqrt (variance_mk m k) < Rabs (5 - mean_mk m k)).
Proof.
  intros Hm Hk Hfew.
  pose proof (ratio_bounds m k Hm Hk) as Ht.
  assert (Ht17 : 17 * (k / m) <= 16).
  { pose proof (Rinv_0_lt_compat m Hm) as Hi.
    assert (m * / m = 1) by (apply Rinv_r; lra). unfold Rdiv. nra. }
  rewrite variance_mk_ratio, mean_mk_ratio by done.
  set (t := k / m) in *. apply within_four_sigma; nra.
Qed.

(** An outlier, judged against [m] neighbours of which [k] are outliers, is
    not flagged when [m <= 17 k]; with [k = 0] the neighbours have standard
    deviation zero. *)
Lemma outlier_not_flagged (m k : R) :
  0 < m -> 0 <= k <= m -> m <= 17 * k ->
  ~ (4 * R_sqrt.sqrt (variance_mk m k) < Rabs (20 - mean_mk m k)).
Proof.
  intros Hm Hk Hmany.
  pose proof (ratio_bounds m k Hm Hk) as Ht.
  assert (Ht17 : 1 <= 17 * (k / m)).
  { pose proof (Rinv_0_lt_compat m Hm) as Hi.
    assert (m * / m = 1) by (apply Rinv_r; lra). unfold Rdiv. nra. }
  rewrite variance_mk_ratio, mean_mk_ratio by done.
  set (t := k / m) in *. apply within_four_sigma; nra.
Qed.

Lemma flat_neighbours (m : R) : 0 < m -> R_sqrt.sqrt (variance_mk m 0) = 0.
Proof.
  intros Hm. rewrite variance_mk_ratio by done.
  replace (225 * (0 / m) * (1 - 0 / m)) with 0 by (field; lra).
  apply sqrt_0.
Qed.

End two_valued.

(** A loop whose iterations all leave the state as it is. *)
Lemma for_each_unchanged {A S} (xs : list A) (body : S -> A -> result S) s :
  (forall s' x, x ∈ xs -> body s' x = Ok s') -> py.for_each xs body s = Ok s.
Proof.
  induction xs as [|x xs IH]; intros Hbody; [done|].
  simpl. rewrite (Hbody s x) by left. simpl.
  apply IH. intros s' y Hy. apply Hbody. by right.
Qed.

Section outlier_counts.
Implicit Types (bs : list bool).

Lemma outliers_app bs1 bs2 :
  outliers (bs1 ++ bs2) = (outliers bs1 + outliers bs2)%nat.
Proof. induction bs1 as [|b bs1 IH]; simpl; [done|]. rewrite IH. lia. Qed.

Lemma outliers_replicate (b : bool) (k : nat) :
  outliers (replicate k b) = if b then k else 0%nat.
Proof. induction k as [|k IH]; simpl; [by destruct b|]. rewrite IH. by destruct b. Qed.

Lemma outliers_le_length bs : (outliers bs <= length bs)%nat.
Proof. induction bs as [|[] bs IH]; simpl; lia. Qed.

(** The outliers among the [a] samples that start at offset [i]. *)
Lemma outliers_window (A B C i a : nat) :
  outliers (take a (drop i (blocks A B C)))
  = ((a - (A - i)) `min` (B - (i - A)))%nat.
Proof.
  unfold blocks.
  rewrite !drop_app, !take_app, !drop_replicate, !take_replicate.
  rewrite !outliers_app, !outliers_replicate.
  rewrite ?length_app, ?length_replicate. lia.
Qed.

(** A window of [w] samples at offset [i], without its centre at [h]. *)
Lemma window_without_center bs (i w h : nat) :
  (h < w)%nat -> (i + w <= length bs)%nat ->
  take h (take w (drop i bs)) ++ drop (S h) (take w (drop i bs))
  = take h (drop i bs) ++ take (w - S h) (drop (i + S h) bs).
Proof.
  intros Hh Hlen. rewrite take_take. replace (h `min` w)%nat with h by lia.
  f_equal. rewrite <- (drop_drop bs (S h) i).
  rewrite (take_drop_commute (drop i bs) (w - S h) (S h)).
  by replace (S h + (w - S h))%nat with w by lia.
Qed.

End outlier_counts.

Lemma getitem_head {A} (l : list A) (x : A) :
  head l = Some x -> py.getitem l 0 = Ok x.
Proof. destruct l; [done|]. intros [= ->]. apply getitem_first. Qed.

Lemma getitem_minus_one {A} (l : list A) (y : A) :
  last l = Some y -> py.getitem l (-1) = Ok y.
Proof. intros [l' ->]%last_Some. apply getitem_last. Qed.

Lemma single_outlier_samples (p q : nat) :
  single_outlier p q = sample <$> blocks p 1 q.
Proof.
  unfold single_outlier, blocks. by rewrite !fmap_app, !fmap_replicate.
Qed.

Lemma single_outlier_length (p q : nat) :
  py.len (single_outlier p q) = Z.of_nat (p + 1 + q).
Proof.
  unfold py.len, single_outlier. rewrite !length_app, !length_replicate.
  simpl. lia.
Qed.

Lemma single_outlier_lookup (p q i : nat) :
  (i < p + 1 + q)%nat ->
  single_outlier p q !! i = Some (sample (bool_decide (i = p))).
Proof.
  intros Hi. unfold single_outlier.
  destruct (decide (i < p)%nat) as [Hlt|Hge].
  - rewrite lookup_app_l by (rewrite length_replicate; lia).
    rewrite bool_decide_eq_false_2 by lia.
    apply lookup_replicate. split; [done|lia].
  - rewrite lookup_app_r by (rewrite length_replicate; lia).
    rewrite length_replicate. destruct (decide (i = p)) as [->|Hne].
    + rewrite bool_decide_eq_true_2 by done. by rewrite Nat.sub_diag.
    + rewrite bool_decide_eq_false_2 by done.
      replace (i - p)%nat with (S (i - p - 1)) by lia. simpl.
      apply lookup_replicate. split; [done|lia].
Qed.

Lemma padded_single_outlier (p q : nat) (window_size : Z) :
  common_lib.padded_data (single_outlier p q) window_size
  = Ok (sample <$> padded_outlier p q (Z.to_nat (window_size / 2))).
Proof.
  set (h := Z.to_nat (window_size / 2)).
  assert (Hhead : head (single_outlier p q) = Some (sample (if p is O then true else false)))
    by (by destruct p).
  assert (Hlast : last (single_outlier p q) = Some (sample (if q is O then true else false))).
  { unfold single_outlier. destruct q as [|q].
    - by rewrite app_nil_r, last_snoc.
    - by rewrite replicate_S_end, !app_assoc, last_snoc. }
  unfold common_lib.padded_data.
  rewrite (getitem_head _ _ Hhead), (getitem_minus_one _ _ Hlast). simpl.
  f_equal. fold h. unfold padded_outlier, blocks, single_outlier.
  rewrite !fmap_app, !fmap_replicate.
  destruct p as [|p], q as [|q]; simpl sample;
    rewrite ?replicate_add, ?app_nil_r; simpl; rewrite <- ?app_assoc; try done.
Qed.

Lemma padded_outlier_length (p q h : nat) :
  length (padded_outlier p q h) = (p + 1 + q + 2 * h)%nat.
Proof.
  unfold padded_outlier, blocks. rewrite !length_app, !length_replicate.
  destruct p, q; lia.
Qed.

Section single_outlier.

(** The neighbours of the sample at offset [i]: the window of [w] samples
    of the padded signal that starts at [i], without its centre. *)
Lemma neighbours_of_offset (p q : nat) (i w : Z) :
  (10 <= w)%Z -> (0 <= i < Z.of_nat (p + 1 + q))%Z ->
  let h := Z.to_nat (w / 2) in
  let padded := sample <$> padded_outlier p q h in
  let window := py.slice padded i (i + w) in
  py.slice_to window (w / 2) ++ py.slice_from window (w / 2 + 1)
  = sample <$> (take h (drop (Z.to_nat i) (padded_outlier p q h))
                ++ take (Z.to_nat w - S h)
                        (drop (Z.to_nat i + S h) (padded_outlier p q h))).
Proof.
  intros Hw Hi h padded window.
  assert (Hh : (2 * h <= Z.to_nat w <= 2 * h + 1)%nat).
  { subst h. pose proof (Z.div_mod w 2 ltac:(lia)).
    pose proof (Z.mod_pos_bound w 2 ltac:(lia)). lia. }
  assert (Hdiv : (0 <= w / 2)%Z) by (apply Z.div_pos; lia).
  subst window padded.
  rewrite slice_to_nonneg, slice_from_nonneg, slice_nonneg by lia.
  replace (Z.to_nat (i + w) - Z.to_nat i)%nat with (Z.to_nat w) by lia.
  replace (Z.to_nat (w / 2 + 1)) with (S h) by (subst h; lia).
  fold h. rewrite <- fmap_drop, <- fmap_take, <- fmap_take, <- fmap_drop, <- fmap_app.
  f_equal. apply window_without_center; [lia|].
  rewrite padded_outlier_length. lia.
Qed.

(** The outliers among the neighbours of the sample at offset [i]. *)
Lemma neighbours_outliers (p q i w h : nat) :
  let bs := take h (drop i (padded_outlier p q h))
            ++ take (w - S h) (drop (i + S h) (padded_outlier p q h)) in
  (10 <= w)%nat -> (2 * h <= w <= 2 * h + 1)%nat -> (i < p + 1 + q)%nat ->
  length bs = (w - 1)%nat /\
  (i <> p -> (17 * outliers bs <= 16 * (w - 1))%nat) /\
  (i = p -> outliers bs = 0%nat \/ (w - 1 <= 17 * outliers bs)%nat).
Proof.
  intros bs Hw Hh Hi. split; [|split].
  - subst bs. rewrite length_app, !length_take, !length_drop.
    rewrite padded_outlier_length. lia.
  - intros Hne. subst bs. rewrite outliers_app. unfold padded_outlier.
    rewrite !outliers_window. destruct p, q; lia.
  - intros ->. subst bs. rewrite outliers_app. unfold padded_outlier.
    rewrite !outliers_window. destruct p, q; lia.
Qed.

(** C1, amended.  On a series of [n >= 20] samples that are all [5.0]
    except one sample [20.0], [detect_spikes] returns and reports no spike,
    in exact arithmetic.  The neighbours of the outlier are either all
    [5.0], so their standard deviation is zero and the test
    [local_std > 0] fails, or, when the outlier is the first or the last
    sample, mostly copies of it made by the padding.  The other samples
    deviate from their neighbours by less than four standard deviations. *)
Theorem detect_spikes_single_outlier (p q : nat) :
  (20 <= p + 1 + q)%nat ->
  vector.detect_spikes (F := R) (single_outlier p q) (Z.of_nat (p + 1 + q))
  = Ok [].
Proof.
  intros Hn. set (n := Z.of_nat (p + 1 + q)).
  unfold vector.detect_spikes.
  rewrite (exact_int_ratio n 5 100) by (done || lia). simpl.
  change (100 / 5)%Z with 20%Z.
  set (w := Z.max (n / 20) 10).
  assert (Hw : (10 <= w)%Z) by (subst w; lia).
  rewrite padded_single_outlier. simpl.
  replace (common_lib.variance py.python_float (single_outlier p q) n)
    with (common_lib.variance py.python_float (single_outlier p q)
                              (py.len (single_outlier p q)))
    by (by rewrite single_outlier_length).
  rewrite variance_exact by (unfold single_outlier; by destruct p). simpl.
  apply for_each_unchanged. intros spikes i [Hi0 Hi1]%elem_of_range.
  rewrite (neighbours_of_offset p q i w Hw) by (subst n; lia).
  set (h := Z.to_nat (w / 2)).
  set (bs := take h (drop (Z.to_nat i) (padded_outlier p q h))
             ++ take (Z.to_nat w - S h)
                     (drop (Z.to_nat i + S h) (padded_outlier p q h))).
  assert (Hh : (2 * h <= Z.to_nat w <= 2 * h + 1)%nat).
  { subst h. pose proof (Z.div_mod w 2 ltac:(lia)).
    pose proof (Z.mod_pos_bound w 2 ltac:(lia)). lia. }
  destruct (neighbours_outliers p q (Z.to_nat i) (Z.to_nat w) h)
    as (Hlen & Hlevel & Houtlier); [lia|done|subst n; lia|].
  fold bs in Hlen, Hlevel, Houtlier.
  assert (Hne : bs <> []) by (intros Hnil; rewrite Hnil in Hlen; simpl in Hlen; lia).
  rewrite mean_samples, variance_samples by done. simpl.
  set (m := INR (length bs)). set (k := INR (outliers bs)).
  assert (Hm : (0 < m)%R).
  { subst m. rewrite Hlen. apply (lt_INR 0). lia. }
  assert (Hk : (0 <= k <= m)%R).
  { subst k m. split; [apply pos_INR|apply le_INR, outliers_le_length]. }
  change (common_lib.std_dev (variance_mk m k))
    with (R_sqrt.sqrt (variance_mk m k)).
  destruct (Rlt_dec 0 (R_sqrt.sqrt (variance_mk m k))) as [Hpos|]; [|done].
  rewrite (getitem_lookup _ i (sample (bool_decide (Z.to_nat i = p))));
    [|lia|apply single_outlier_lookup; subst n; lia]. simpl.
  destruct (Rlt_dec _ _) as [Hflag|]; [exfalso|done].
  destruct (decide (Z.to_nat i = p)) as [Heq|Hneq].
  - rewrite bool_decide_eq_true_2 in Hflag by done. simpl in Hflag.
    destruct (Houtlier Heq) as [Hzero|Hmany].
    + subst k. rewrite Hzero in Hpos. simpl in Hpos.
      rewrite flat_neighbours in Hpos by done. lra.
    + revert Hflag. apply outlier_not_flagged; [done..|].
      subst m k. rewrite Hlen, !INR_IZR_INZ, <- mult_IZR. apply IZR_le. lia.
  - rewrite bool_decide_eq_false_2 in Hflag by done. simpl in Hflag.
    revert Hflag. apply level_not_flagged; [done..|].
    subst m k. rewrite Hlen, !INR_IZR_INZ, <- !mult_IZR. apply IZR_le.
    specialize (Hlevel Hneq). lia.
Qed.

End single_outlier.

(** The theorem at the scenario of the specification. *)
Lemma detect_spikes_single_outlier_witness :
  vector.detect_spikes (F := R) (single_outlier 19 3) 23 = Ok [].
Proof. apply (detect_spikes_single_outlier 19 3). lia. Defined.

(** ** Constant signals and frequency bins in exact arithmetic *)

Section exact_supplements.
Local Open Scope R_scope.

Lemma sum_constant (x : R) (k : nat) (a : R) :
  fold_left Rplus (replicate k x) a = a + INR k * x.
Proof.
  revert a. induction k as [|k IH]; intros a.
  - simpl. lra.
  - cbn [replicate fold_left]. rewrite IH, S_INR. lra.
Qed.

Lemma squares_constant (x mu : R) (k : nat) (a : R) :
  fold_left (fun s v => s + (v - mu) * (v - mu)) (replicate k x) a
  = a + INR k * ((x - mu) * (x - mu)).
Proof.
  revert a. induction k as [|k IH]; intros a.
  - simpl. lra.
  - cbn [replicate fold_left]. rewrite IH, S_INR. lra.
Qed.

(** In exact arithmetic every constant signal has variance zero. *)
Lemma variance_constant (x : R) (k : nat) :
  (1 <= k)%nat ->
  common_lib.variance py.python_float (replicate k x) (Z.of_nat k) = Ok 0.
Proof.
  intros Hk. assert (Hpos : 0 < INR k) by (apply (lt_INR 0); lia).
  replace (Z.of_nat k) with (py.len (replicate k x))
    by (unfold py.len; by rewrite length_replicate).
  rewrite variance_exact by (destruct k; [lia|done]). f_equal.
  unfold variance_of, mean_of, py.len. simpl.
  rewrite squares_constant, sum_constant, length_replicate, <- INR_IZR_INZ.
  field. lra.
Qed.

(** C2 in exact arithmetic: on every constant signal [detect_stalls] takes
    the branch for [global_std == 0] and raises [NameError]. *)
Lemma detect_stalls_constant_exact (x : R) (k : nat) :
  (1 <= k)%nat ->
  vector.detect_stalls (F := R) (replicate k x) (Z.of_nat k) = Raise NameError.
Proof.
  intros Hk. unfold vector.detect_stalls. simpl.
  rewrite variance_constant by done. simpl.
  unfold common_lib.std_dev. simpl. rewrite sqrt_0.
  by destruct (Req_dec_T 0 0).
Qed.

(** C3 in exact arithmetic: bin [k] of [frequencies] is [k * dt / n]. *)
Lemma frequencies_exact (v : vector.t) (dt : R) :
  (1 <= vector.n v)%Z -> 0 < dt ->
  signal_process.frequencies (signal_process.init v dt)
  = Ok ((fun k => IZR k * dt / IZR (vector.n v))
          <$> py.range (vector.n v / 2 + 1)).
Proof.
  intros Hn Hdt. assert (HnR : 0 < IZR (vector.n v)) by (apply IZR_lt; lia).
  unfold signal_process.frequencies, signal_process.rfftfreq,
    signal_process.float_div. simpl.
  destruct (Req_dec_T dt 0) as [|_]; [lra|]. simpl.
  destruct (Req_dec_T (IZR (vector.n v) * (1 / dt)) 0) as [Hz|_].
  { exfalso. assert (0 < IZR (vector.n v) * (1 / dt)); [|lra].
    apply Rmult_lt_0_compat; [done|]. apply Rdiv_lt_0_compat; lra. }
  simpl. f_equal. apply list_fmap_ext. intros _ k _. field. lra.
Qed.

End exact_supplements.

(** * Further properties of the code *)

(** ** Sorting and loops that append *)

Section sorting_facts.
Context {F : Type} `{Number F}.

Lemma insert_sorted_permutation (x : F) (l : list F) :
  py.insert_sorted x l ≡ₚ x :: l.
Proof.
  induction l as [|y l IH]; simpl; [done|].
  destruct (y <? x)%num; [|done].
  rewrite IH. apply Permutation_swap.
Qed.

(** [sorted] rearranges its argument: no sample is lost or invented. *)
Lemma sorted_permutation (l : list F) : py.sorted l ≡ₚ l.
Proof.
  induction l as [|x l IH]; simpl; [done|].
  by rewrite insert_sorted_permutation, IH.
Qed.

(** A loop that appends one entry per iteration raises the exception [e]
    when one iteration does and no iteration raises another one. *)
Lemma for_each_append_raises {A B} (xs : list B) (f : B -> result A) e init :
  (forall x e', x ∈ xs -> f x = Raise e' -> e' = e) ->
  (exists x, x ∈ xs /\ f x = Raise e) ->
  py.for_each xs (fun acc x => v ← f x; mret (acc ++ [v])) init = Raise e.
Proof.
  revert init. induction xs as [|x xs IH]; intros init Honly (y & Hy & Hfy).
  - by apply elem_of_nil in Hy.
  - simpl. destruct (f x) as [v|e'] eqn:Hfx; simpl.
    + apply IH.
      * intros z e' Hz. apply Honly. by right.
      * apply elem_of_cons in Hy as [->|Hy]; [congruence|]. by exists y.
    + f_equal. apply (Honly x); [by left|done].
Qed.

End sorting_facts.

(** ** padded_data *)


Section padding.
Context {F : Type} `{Number F}.
Implicit Types (data cur : list F).

Lemma padded_lookup data (x y : F) (h p : nat) :
  head data = Some x -> last data = Some y ->
  (p < h + length data + h)%nat ->
  (replicate h x ++ data ++ replicate h y) !! p
  = data !! padded_source (Z.of_nat h) (py.len data) (Z.of_nat p).
Proof.
  intros Hx Hy Hp. unfold padded_source, py.len.
  assert (Hne : (0 < length data)%nat) by (destruct data; simpl; [done|lia]).
  destruct (decide (p < h)%nat) as [Hlt|Hge].
  - rewrite lookup_app_l by (rewrite length_replicate; lia).
    replace (Z.to_nat _) with 0%nat by lia.
    rewrite <- head_lookup, Hx. apply lookup_replicate. split; [done|lia].
  - rewrite lookup_app_r by (rewrite length_replicate; lia).
    rewrite length_replicate.
    destruct (decide (p - h < length data)%nat) as [Hin|Hout].
    + rewrite lookup_app_l by lia. f_equal. lia.
    + rewrite lookup_app_r by lia.
      replace (Z.to_nat _) with (pred (length data)) by lia.
      rewrite <- last_lookup, Hy. apply lookup_replicate. split; [done|lia].
Qed.

Lemma padded_data_lookup data (window_size : Z) :
  data <> [] ->
  let h := Z.to_nat (window_size / 2) in
  exists padded,
    common_lib.padded_data data window_size = Ok padded /\
    length padded = (h + length data + h)%nat /\
    forall p : nat, (p < length padded)%nat ->
      padded !! p = data !! padded_source (Z.of_nat h) (py.len data) (Z.of_nat p).
Proof.
  intros Hne h.
  destruct (padded_data_ok data window_size Hne) as (x & y & Hx & Hy & Hpad).
  eexists. split; [exact Hpad|]. fold h.
  assert (Hlen : length (replicate h x ++ data ++ replicate h y)
                 = (h + length data + h)%nat)
    by (rewrite !length_app, !length_replicate; lia).
  split; [exact Hlen|].
  intros p Hp. apply padded_lookup; [done..|lia].
Qed.

(** X1.  On a non-empty sequence [padded_data] returns a sequence with
    [window_size // 2] more samples on each side; position [p] of it holds
    the sample of [data] at index [p - window_size // 2], clamped to the
    first and the last index.  On the empty sequence it raises
    [IndexError]. *)
Theorem padded_data_alignment (data : list F) (window_size : Z) :
  (0 <= window_size)%Z ->
  (data = [] -> common_lib.padded_data data window_size = Raise IndexError) /\
  (data <> [] ->
   exists padded,
     common_lib.padded_data data window_size = Ok padded /\
     py.len padded = (py.len data + 2 * (window_size / 2))%Z /\
     forall p, (0 <= p < py.len padded)%Z ->
       exists v,
         py.getitem padded p = Ok v /\
         py.getitem data
           (Z.max 0 (Z.min (p - window_size / 2) (py.len data - 1))) = Ok v).
Proof.
  intros Hw. split.
  - intros ->. apply padded_data_nil.
  - intros Hne.
    assert (Hh : (0 <= window_size / 2)%Z) by (apply Z.div_pos; lia).
    destruct (padded_data_lookup data window_size Hne)
      as (padded & Hpad & Hlen & Hlook).
    exists padded. split; [done|]. split; [unfold py.len; lia|].
    intros p Hp. unfold py.len in Hp.
    destruct (lookup_lt_is_Some_2 padded (Z.to_nat p)) as [v Hv]; [lia|].
    exists v. split; [apply getitem_lookup; [lia|done]|].
    rewrite Hlook in Hv by lia.
    apply getitem_lookup; [lia|]. rewrite <- Hv. f_equal.
    unfold padded_source. rewrite !Z2Nat.id by lia. done.
Qed.

End padding.

(** The theorem at three doubles and a window of five samples. *)
Lemma padded_data_alignment_witness :
  exists padded,
    common_lib.padded_data [1%float; 2%float; 3%float] 5 = Ok padded /\
    py.len padded = 7%Z.
Proof.
  destruct (padded_data_alignment [1%float; 2%float; 3%float] 5) as [_ Hok];
    [lia|].
  destruct Hok as (padded & Hpad & Hlen & _); [discriminate|].
  exists padded. split; [exact Hpad|exact Hlen].
Defined.

(** ** The median filter *)

Section median_filter.
Context {F : Type} `{Number F}.
Implicit Types (cur : list F).

(** The entries of the median filter: entry [i] is the middle element of the
    sorted window that starts at offset [i] of the padded signal. *)
Lemma filtered_data_entries cur (n count : Z) :
  n = py.len cur -> cur <> [] -> (0 <= count)%Z ->
  exists padded filtered,
    common_lib.padded_data cur (1 + 2 * count) = Ok padded /\
    vector.filtered_data cur n count = Ok filtered /\
    py.len filtered = n /\
    forall i : nat, (Z.of_nat i < n)%Z ->
      exists v,
        filtered !! i = Some v /\
        py.sorted (py.slice padded (Z.of_nat i) (Z.of_nat i + (1 + 2 * count)))
          !! Z.to_nat count = Some v.
Proof.
  intros Hn Hne Hc.
  assert (Hhalf : ((1 + 2 * count) / 2)%Z = count)
    by (symmetry; apply Z.div_unique with 1%Z; lia).
  destruct (padded_data_lookup cur (1 + 2 * count) Hne)
    as (padded & Hpad & Hlen & _).
  rewrite Hhalf in Hlen.
  unfold vector.filtered_data. rewrite Hpad. simpl. rewrite Hhalf.
  set (window := fun i : Z => py.slice padded i (i + (1 + 2 * count))).
  assert (Hwin : forall i, (0 <= i < n)%Z ->
            exists v, py.sorted (window i) !! Z.to_nat count = Some v).
  { intros i Hi. apply lookup_lt_is_Some_2. rewrite sorted_length.
    assert (py.len (window i) = 1 + 2 * count)%Z; [|unfold py.len in *; lia].
    subst window. simpl. rewrite slice_length; unfold py.len in *; lia. }
  set (median := fun i : Z => default (of_int 0)
                                (py.sorted (window i) !! Z.to_nat count)).
  exists padded, (median <$> py.range n). split; [done|]. split; [|split].
  - apply (for_each_collect _
      (fun i => py.getitem (py.sorted (window i)) count) median []).
    intros i Hi%elem_of_range. destruct (Hwin i Hi) as [v Hv].
    unfold median. rewrite Hv. simpl. by apply getitem_lookup.
  - unfold py.len. rewrite length_fmap, range_length.
    pose proof (len_nonneg cur). lia.
  - intros i Hi. destruct (Hwin (Z.of_nat i)) as [v Hv]; [lia|].
    exists v. split; [|done].
    rewrite list_lookup_fmap, range_lookup by lia. simpl.
    unfold median. by rewrite Hv.
Qed.

(** X2.  For a non-negative parameter the median filter returns one value
    per sample, and the value at index [i] is one of the samples of
    [current] at distance at most [count] from [i]: the filter never invents
    a value. *)
Theorem filtered_data_nearby_sample cur (n count : Z) :
  n = py.len cur -> cur <> [] -> (0 <= count)%Z ->
  exists filtered,
    vector.filtered_data cur n count = Ok filtered /\
    py.len filtered = n /\
    forall (i : nat) v, filtered !! i = Some v ->
      exists j : nat,
        cur !! j = Some v /\ (Z.abs (Z.of_nat j - Z.of_nat i) <= count)%Z.
Proof.
  intros Hn Hne Hc.
  assert (Hhalf : ((1 + 2 * count) / 2)%Z = count)
    by (symmetry; apply Z.div_unique with 1%Z; lia).
  destruct (padded_data_lookup cur (1 + 2 * count) Hne)
    as (padded & Hpad & Hlen & Hlook).
  destruct (filtered_data_entries cur n count Hn Hne Hc)
    as (padded' & filtered & Hpad' & Hrun & Hflen & Hentry).
  rewrite Hpad in Hpad'. inversion Hpad'; subst padded'; clear Hpad'.
  rewrite Hhalf in Hlen, Hlook.
  exists filtered. split; [done|]. split; [done|].
  intros i v Hv.
  assert (Hi : (Z.of_nat i < n)%Z).
  { apply lookup_lt_Some in Hv. unfold py.len in Hflen. lia. }
  destruct (Hentry i Hi) as (v' & Hv' & Hsorted).
  rewrite Hv in Hv'. inversion Hv'; subst v'; clear Hv'.
  apply list_elem_of_lookup_2 in Hsorted.
  rewrite sorted_permutation in Hsorted.
  rewrite slice_nonneg in Hsorted by lia.
  apply list_elem_of_lookup_1 in Hsorted as [k Hk].
  pose proof (lookup_lt_Some _ _ _ Hk) as Hklen.
  rewrite length_take in Hklen.
  rewrite lookup_take_lt, lookup_drop in Hk by lia.
  pose proof (lookup_lt_Some _ _ _ Hk) as Hplen.
  rewrite Hlook in Hk by done.
  eexists. split; [exact Hk|].
  unfold padded_source, py.len in *. lia.
Qed.

(** X3.  With a negative parameter the median filter raises [IndexError] on
    every non-empty signal: no padding is added and the window of the last
    sample is empty. *)
Theorem filtered_data_negative cur (n count : Z) :
  n = py.len cur -> cur <> [] -> (count < 0)%Z ->
  vector.filtered_data cur n count = Raise IndexError.
Proof.
  intros Hn Hne Hc.
  assert (Hhalf : ((1 + 2 * count) / 2)%Z = count)
    by (symmetry; apply Z.div_unique with 1%Z; lia).
  destruct (padded_data_ok cur (1 + 2 * count) Hne) as (x & y & _ & _ & Hpad).
  unfold vector.filtered_data. rewrite Hpad. simpl. rewrite Hhalf.
  replace (Z.to_nat count) with 0%nat by lia. simpl. rewrite app_nil_r.
  assert (Hpos : (0 < n)%Z).
  { destruct cur; [done|]. unfold py.len in Hn. simpl in Hn. lia. }
  apply (for_each_append_raises _
    (fun i => py.getitem (py.sorted (py.slice cur i (i + (1 + 2 * count))))
                         count)).
  - intros i e' _. unfold py.getitem.
    destruct (_ ≫= _); [done|]. by intros [= <-].
  - exists (n - 1)%Z. split; [apply elem_of_range; lia|].
    replace (py.slice cur (n - 1) (n - 1 + (1 + 2 * count))) with (@nil F).
    + apply getitem_nil.
    + unfold py.slice, py.bound. rewrite <- Hn.
      destruct (Z.ltb_spec (n - 1 + (1 + 2 * count)) 0),
               (Z.ltb_spec (n - 1) 0); try lia.
      * replace (_ - _)%nat with 0%nat by lia. done.
      * replace (_ - _)%nat with 0%nat by lia. done.
Qed.

End median_filter.

(** The theorems at a signal of four doubles. *)
Lemma filtered_data_nearby_sample_witness :
  exists filtered,
    vector.filtered_data four_doubles 4 1 = Ok filtered /\ py.len filtered = 4%Z.
Proof.
  destruct (filtered_data_nearby_sample four_doubles 4 1)
    as (filtered & Hrun & Hlen & _); [reflexivity|discriminate|lia|].
  exists filtered. split; [exact Hrun|exact Hlen].
Defined.

Lemma filtered_data_negative_witness :
  vector.filtered_data four_doubles 4 (-1) = Raise IndexError.
Proof.
  apply (filtered_data_negative four_doubles 4 (-1));
    [reflexivity|discriminate|lia].
Defined.

(** ** The spikes and the command that keeps them *)

Lemma getitem_inv {A} (l : list A) (i : Z) (v : A) :
  (0 <= i)%Z -> py.getitem l i = Ok v -> l !! Z.to_nat i = Some v.
Proof.
  intros Hi. unfold py.getitem, py.position.
  destruct (Z.leb_spec 0 i); [|lia].
  destruct (i <? py.len l)%Z; simpl; [|done].
  by destruct (l !! Z.to_nat i); [intros [= ->]|].
Qed.

(** A loop whose iterations either leave the list as it is or append one
    entry related to the loop variable returns the entries of a subsequence
    of the iterations. *)
Lemma for_each_trace {A B} (R : B -> A -> Prop) (xs : list B)
    (body : list A -> B -> result (list A)) init res :
  (forall acc x acc', x ∈ xs -> body acc x = Ok acc' ->
     acc' = acc \/ exists y, R x y /\ acc' = acc ++ [y]) ->
  py.for_each xs body init = Ok res ->
  exists sel ys, sel `sublist_of` xs /\ Forall2 R sel ys /\ res = init ++ ys.
Proof.
  revert init. induction xs as [|x xs IH]; intros init Hbody; simpl.
  - intros [= <-]. exists [], []. by rewrite app_nil_r.
  - destruct (body init x) as [acc'|e] eqn:Hx; simpl; [|done].
    intros Hrun. apply IH in Hrun as (sel & ys & Hsub & HR & ->);
      [|intros acc y acc'' Hy; apply Hbody; by right].
    destruct (Hbody init x acc') as [->|(y & Hy & ->)]; [by left|done| |].
    + exists sel, ys. split; [by apply sublist_cons|done].
    + exists (x :: sel), (y :: ys). split; [by apply sublist_skip|].
      split; [by constructor|]. by rewrite <- app_assoc.
Qed.

Lemma trace_indices {A} (P : Z -> A -> Prop) (sel : list Z) (ys : list (Z * A)) :
  Forall2 (fun i (s : Z * A) => fst s = i /\ P i (snd s)) sel ys -> ys.*1 = sel.
Proof.
  induction 1 as [|i s sel ys [Hi _] _ IH]; [done|].
  rewrite fmap_cons. by f_equal.
Qed.

Section spikes.
Context {F : Type} `{Number F}.
Implicit Types (cur : list F) (σ : store.heap F).

Lemma detect_spikes_trace cur (n : Z) spikes :
  vector.detect_spikes cur n = Ok spikes ->
  exists sel,
    sel `sublist_of` py.range n /\
    Forall2 (fun i (s : Z * F) =>
               fst s = i /\ cur !! Z.to_nat i = Some (snd s)) sel spikes.
Proof.
  unfold vector.detect_spikes.
  destruct (to_int _) as [w|]; simpl; [|done].
  destruct (common_lib.padded_data _ _) as [padded|]; simpl; [|done].
  destruct (common_lib.variance _ cur n) as [var|]; simpl; [|done].
  intros Hrun.
  apply (for_each_trace
           (fun i (s : Z * F) => fst s = i /\ cur !! Z.to_nat i = Some (snd s)))
    in Hrun as (sel & ys & Hsub & HR & ->); [by exists sel|].
  intros acc i acc' [Hi0 Hi1]%elem_of_range.
  destruct (common_lib.mean_value _ _ _) as [mean|]; simpl; [|done].
  destruct (common_lib.variance _ _ _) as [lvar|]; simpl; [|done].
  destruct (_ >? _)%num; simpl; [|intros [= <-]; by left].
  destruct (py.getitem cur i) as [x|] eqn:Hx; simpl; [|done].
  destruct (_ >? _)%num; simpl; [|intros [= <-]; by left].
  intros [= <-]. right. exists (i, x). split; [|done].
  split; [done|]. by apply getitem_inv.
Qed.

(** X4.  The spikes [detect_spikes] reports are pairs [(i, current[i])]
    whose indices form a subsequence of [0 .. n - 1]: they are in range, in
    increasing order and pairwise distinct. *)
Theorem detect_spikes_indices cur (n : Z) spikes :
  n = py.len cur ->
  vector.detect_spikes cur n = Ok spikes ->
  spikes.*1 `sublist_of` py.range n /\
  NoDup spikes.*1 /\
  forall i v, (i, v) ∈ spikes ->
    (0 <= i < n)%Z /\ cur !! Z.to_nat i = Some v.
Proof.
  intros Hn (sel & Hsub & HR)%detect_spikes_trace.
  assert (Hfst : spikes.*1 = sel)
    by exact (trace_indices (fun i v => cur !! Z.to_nat i = Some v) _ _ HR).
  rewrite Hfst. split; [done|]. split.
  - eapply sublist_NoDup; [|done]. unfold py.range.
    apply NoDup_fmap_2; [apply Nat2Z.inj'|apply NoDup_seq].
  - intros i v Hin.
    apply list_elem_of_lookup_1 in Hin as [k Hk].
    destruct (Forall2_lookup_r _ _ _ _ _ HR Hk) as (i' & Hi' & Hfst' & Hcur).
    simpl in *. subst i'. split; [|done].
    apply list_elem_of_lookup_2 in Hi'.
    eapply elem_of_sublist in Hi'; [|done]. by apply elem_of_range in Hi'.
Qed.

(** X5.  Filter Signal, Keep Spikes: when [detect_spikes] and
    [filtered_data] return, the command returns; [current] then names a new
    list of the same length, every other list is unchanged, and the new list
    holds the sample of the old [current] at every spike index and the
    median-filtered value at every other index. *)
Theorem keep_spikes_composition (self : app_gui.t) σ cur spikes filtered :
  σ !! vector.current (app_gui.selected self) = Some cur ->
  vector.n (app_gui.selected self) = py.len cur ->
  vector.detect_spikes cur (py.len cur) = Ok spikes ->
  vector.filtered_data cur (py.len cur) (app_gui.filtered_count self)
  = Ok filtered ->
  exists r kept,
    app_gui.filtered_data_keep_spikes self σ
    = (Ok {| app_gui.selected := app_gui.set_current (app_gui.selected self) r;
             app_gui.time_step := app_gui.time_step self;
             app_gui.filtered_count := app_gui.filtered_count self + 1 |},
       <[r := kept]> σ) /\
    σ !! r = None /\
    length kept = length cur /\
    forall j : nat,
      kept !! j = if decide (Z.of_nat j ∈ spikes.*1) then cur !! j
                  else filtered !! j.
Proof.
  intros Hcur Hn Hspikes Hfiltered.
  destruct (detect_spikes_trace cur _ spikes Hspikes) as (sel & Hsub & HR).
  assert (Hfst : spikes.*1 = sel)
    by exact (trace_indices (fun i v => cur !! Z.to_nat i = Some v) _ _ HR).
  assert (Hnd : NoDup spikes.*1).
  { rewrite Hfst. eapply sublist_NoDup; [|done]. unfold py.range.
    apply NoDup_fmap_2; [apply Nat2Z.inj'|apply NoDup_seq]. }
  assert (Hflen : length filtered = length cur).
  { apply filtered_data_length in Hfiltered. unfold py.len in Hfiltered. lia. }
  assert (Hin : forall i v, (i, v) ∈ spikes ->
            (0 <= i < py.len cur)%Z /\ cur !! Z.to_nat i = Some v).
  { intros i v Hiv. apply list_elem_of_lookup_1 in Hiv as [k Hk].
    destruct (Forall2_lookup_r _ _ _ _ _ HR Hk) as (i' & Hi' & Hfst' & Hc).
    simpl in *. subst i'. split; [|done].
    apply list_elem_of_lookup_2 in Hi'.
    eapply elem_of_sublist in Hi'; [|done]. by apply elem_of_range in Hi'. }
  assert (Hvalid : Forall (fun p : Z * F => (0 <= fst p < py.len filtered)%Z) spikes).
  { apply Forall_forall. intros [i v] Hiv. destruct (Hin i v Hiv) as [Hi _].
    simpl. unfold py.len in *. lia. }
  destruct (alloc_spec filtered σ) as (r & Halloc & Hr).
  exists r, (overwrite spikes filtered).
  split; [|split; [done|split; [by rewrite overwrite_length|]]].
  - unfold app_gui.filtered_data_keep_spikes, app_gui.median_filter,
      vector.call, store.bind, store.read, store.lift.
    rewrite (lookup_total_correct _ _ _ Hcur), Hn, Hspikes, Hfiltered, Halloc.
    rewrite (restore_spikes_valid spikes r _ filtered)
      by (done || apply lookup_insert_eq).
    by rewrite insert_insert_eq.
  - intros j. destruct (decide (j < length filtered)%nat) as [Hj|Hj].
    + rewrite overwrite_lookup; [|eapply Forall_impl; [exact Hvalid|]|done].
      2:{ intros p. simpl. lia. }
      destruct (decide (Z.of_nat j ∈ spikes.*1)) as [Hnamed|Hfree].
      * apply list_elem_of_fmap in Hnamed as ([i v] & Hi & Hiv). simpl in Hi.
        subst i. rewrite (last_named_unique _ _ v Hnd Hiv). simpl.
        destruct (Hin _ _ Hiv) as [_ Hc]. by rewrite Nat2Z.id in Hc.
      * rewrite filter_none; [done|].
        intros p Hp Heq. apply Hfree. rewrite <- Heq.
        by apply list_elem_of_fmap_2.
    + rewrite !lookup_ge_None_2; [by destruct (decide _)|lia..|].
      rewrite overwrite_length. lia.
Qed.

End spikes.


Lemma detect_spikes_indices_witness :
  [(10%Z, 100%float)].*1 `sublist_of` py.range 23 /\
  NoDup [(10%Z, 100%float)].*1 /\
  forall i v, (i, v) ∈ [(10%Z, 100%float)] ->
    (0 <= i < 23)%Z /\ ripple !! Z.to_nat i = Some v.
Proof.
  apply (detect_spikes_indices (F := float) ripple 23 [(10%Z, 100%float)]).
  - reflexivity.
  - vm_compute. reflexivity.
Defined.


Lemma keep_spikes_composition_witness :
  exists r kept,
    app_gui.filtered_data_keep_spikes ripple_analyzer ripple_heap
    = (Ok {| app_gui.selected :=
               app_gui.set_current (app_gui.selected ripple_analyzer) r;
             app_gui.time_step := 1%float;
             app_gui.filtered_count := 2 |},
       <[r := kept]> ripple_heap) /\
    ripple_heap !! r = None /\
    length kept = 23%nat /\
    forall j : nat,
      kept !! j = if decide (Z.of_nat j ∈ [10%Z]) then ripple !! j
                  else ([5; 5; 6; 5; 6; 5; 6; 5; 6; 6; 6; 6; 5; 6; 5; 6; 5; 6;
                         5; 6; 5; 6; 6]%float : list float) !! j.
Proof.
  apply (keep_spikes_composition (F := float) ripple_analyzer ripple_heap
           ripple [(10%Z, 100%float)]).
  - reflexivity.
  - reflexivity.
  - vm_compute. reflexivity.
  - vm_compute. reflexivity.
Defined.

(** ** The stalls the Detect Stalls command plots *)

Section stalls.
Context {F : Type} `{Number F}.
Implicit Types (cur : list F).

Lemma detect_stalls_bounds cur (n : Z) stalls :
  n = py.len cur ->
  vector.detect_stalls cur n = Ok stalls ->
  Forall (fun s : Z * Z => 0 <= fst s /\ fst s + 10 <= snd s <= n - 1)%Z stalls.
Proof.
  intros Hn. unfold vector.detect_stalls.
  destruct (to_int _) as [w|]; simpl; [|done].
  destruct (common_lib.variance _ cur n) as [var_|]; simpl; [|done].
  destruct (_ =? _)%num; simpl; [done|].
  set (window_size := Z.max w 10).
  assert (Hmin : (10 <= window_size)%Z) by (subst window_size; lia).
  destruct (vector.moving_std cur n window_size) as [stds|] eqn:Hstds;
    simpl; [|done].
  assert (Hlen : length stds = Z.to_nat (n - window_size + 1)).
  { unfold vector.moving_std in Hstds.
    apply for_each_length in Hstds; [by rewrite Hstds, range_length|].
    intros acc i acc'.
    destruct (common_lib.variance _ _ _) as [v|]; simpl; [|done].
    intros [= <-]. rewrite length_app. simpl. lia. }
  set (flags := _ <$> stds).
  pose proof (scan_result n window_size flags Hmin) as Hscan.
  destruct (fold_left _ _ _) as [[closed in_stall] start].
  cbv zeta in Hscan.
  assert (Hflags : py.len flags = Z.max 0 (n - window_size + 1)).
  { subst flags. unfold py.len. rewrite length_fmap, Hlen. lia. }
  intros Hres.
  assert (Hrep : stalls = if in_stall
                          then if (10 <=? n - 1 - start)%Z
                               then closed ++ [(start, (n - 1)%Z)] else closed
                          else closed).
  { destruct in_stall; [destruct (10 <=? n - 1 - start)%Z|]; simpl in Hres;
      by inversion Hres. }
  rewrite <- Hrep in Hscan. clear Hres Hrep.
  apply Forall_forall. intros [a b] Hab. simpl.
  apply Hscan in Hab as (e & (Hae & He & _) & Hcase). lia.
Qed.

(** X6.  Every interval [(a, b)] that [detect_stalls] returns lies inside
    the signal and spans at least ten samples: [0 <= a], [a + 10 <= b] and
    [b <= n - 1].  The Detect Stalls command therefore never raises on the
    intervals it plots: it marks the samples at [a] and at [b - 1]. *)
Theorem detect_stalls_plot cur (n : Z) stalls :
  n = py.len cur ->
  vector.detect_stalls cur n = Ok stalls ->
  (forall a b, (a, b) ∈ stalls -> 0 <= a /\ a + 10 <= b <= n - 1)%Z /\
  exists plotted,
    app_gui.detect_stalls cur n = Ok plotted /\
    length plotted = length stalls /\
    forall (k : nat) a b, stalls !! k = Some (a, b) ->
      exists ya yb,
        cur !! Z.to_nat a = Some ya /\ cur !! Z.to_nat (b - 1) = Some yb /\
        plotted !! k = Some ([a; (b - 1)%Z], [ya; yb]).
Proof.
  intros Hn Hstalls.
  pose proof (detect_stalls_bounds cur n stalls Hn Hstalls) as Hb.
  split.
  { intros a b Hab. by apply (proj1 (Forall_forall _ _) Hb (a, b)). }
  pose (d := match cur with x :: _ => x | [] => of_int 0 end).
  pose (g := fun s : Z * Z =>
               ([fst s; (snd s - 1)%Z],
                [default d (cur !! Z.to_nat (fst s)); default d (cur !! Z.to_nat (snd s - 1))])).
  assert (Hget : forall i, (0 <= i < n)%Z ->
            cur !! Z.to_nat i = Some (default d (cur !! Z.to_nat i))).
  { intros i Hi. destruct (lookup_lt_is_Some_2 cur (Z.to_nat i)) as [x Hx];
      [unfold py.len in Hn; lia|]. by rewrite Hx. }
  exists (g <$> stalls). split; [|split].
  - unfold app_gui.detect_stalls. rewrite Hstalls. simpl.
    apply (for_each_append stalls _ g []).
    intros acc [a b] Hab.
    pose proof (proj1 (Forall_forall _ _) Hb _ Hab) as (Ha0 & Ha1 & Ha2).
    cbn [fst snd] in *.
    rewrite (getitem_lookup cur a _) by (lia || (apply Hget; lia)). simpl.
    by rewrite (getitem_lookup cur (b - 1) _) by (lia || (apply Hget; lia)).
  - by rewrite length_fmap.
  - intros k a b Hk.
    pose proof (proj1 (Forall_lookup _ _) Hb k _ Hk) as (Ha0 & Ha1 & Ha2).
    cbn [fst snd] in *.
    exists (default d (cur !! Z.to_nat a)), (default d (cur !! Z.to_nat (b - 1))).
    split; [apply Hget; lia|]. split; [apply Hget; lia|].
    by rewrite list_lookup_fmap, Hk.
Qed.

End stalls.

Lemma detect_stalls_plot_witness :
  (forall a b, (a, b) ∈ [(6%Z, 20%Z); (21%Z, 39%Z)] ->
     0 <= a /\ a + 10 <= b <= 40 - 1)%Z /\
  exists plotted,
    app_gui.detect_stalls two_outliers 40 = Ok plotted /\
    length plotted = 2%nat /\
    forall (k : nat) a b, [(6%Z, 20%Z); (21%Z, 39%Z)] !! k = Some (a, b) ->
      exists ya yb,
        two_outliers !! Z.to_nat a = Some ya /\
        two_outliers !! Z.to_nat (b - 1) = Some yb /\
        plotted !! k = Some ([a; (b - 1)%Z], [ya; yb]).
Proof.
  apply (detect_stalls_plot (F := float) two_outliers 40
           [(6%Z, 20%Z); (21%Z, 39%Z)]).
  - reflexivity.
  - vm_compute. reflexivity.
Defined.

(** ** The regions the Detect Oscillations command plots *)


Lemma getitem_beyond {A} (l : list A) (i : Z) :
  (py.len l <= i)%Z -> py.getitem l i = Raise IndexError.
Proof.
  intros Hi. pose proof (len_nonneg l). unfold py.getitem, py.position.
  destruct (Z.leb_spec 0 i); [|lia].
  by destruct (Z.ltb_spec i (py.len l)); [lia|].
Qed.

Lemma sublist_strongly_sorted {A} (R : A -> A -> Prop) (k l : list A) :
  k `sublist_of` l -> StronglySorted R l -> StronglySorted R k.
Proof.
  induction 1 as [|x k l Hsub IH|x k l Hsub IH]; intros Hl.
  - constructor.
  - apply StronglySorted_inv in Hl as [Hl Hx]. constructor; [by apply IH|].
    apply Forall_forall. intros y Hy. eapply elem_of_sublist in Hy; [|done].
    by apply (proj1 (Forall_forall _ _) Hx).
  - apply StronglySorted_inv in Hl as [Hl _]. by apply IH.
Qed.

Lemma range_sorted (k : Z) : StronglySorted Z.lt (py.range k).
Proof.
  unfold py.range. generalize 0%nat. generalize (Z.to_nat k).
  induction n as [|m IH]; intros st; simpl; constructor; [apply IH|].
  apply Forall_forall. intros x (y & -> & Hy%elem_of_seq)%list_elem_of_fmap.
  lia.
Qed.

Section oscillations.
Context {F : Type} `{Number F}.
Implicit Types (cur : list F).

Lemma detect_oscillations_trace detrend cur (n : Z) ratio regions :
  vector.detect_oscillations detrend cur n ratio = Ok regions ->
  exists w sel,
    (10 <= w)%Z /\ sel `sublist_of` py.range (n - w + 1) /\
    regions = (fun i => (i, i + w)%Z) <$> sel.
Proof.
  unfold vector.detect_oscillations.
  destruct (to_int _) as [w|]; simpl; [|done].
  destruct (common_lib.padded_data _ _) as [padded|]; simpl; [|done].
  destruct (common_lib.variance _ cur n) as [var|]; simpl; [|done].
  intros Hrun.
  apply (for_each_trace (fun i (r : Z * Z) => r = (i, i + Z.max w 10)%Z))
    in Hrun as (sel & ys & Hsub & HR & ->).
  - exists (Z.max w 10), sel. split; [lia|]. split; [done|].
    clear Hsub. induction HR as [|i r sel ys -> _ IH]; [done|].
    rewrite fmap_cons. simpl in *. by f_equal.
  - intros acc i acc' _.
    destruct (detrend _) as [centered|]; simpl; [|done].
    destruct (common_lib.variance _ _ _) as [lvar|]; simpl; [|done].
    destruct (_ <? _)%num; simpl; [intros [= <-]; by left|].
    destruct (_ <? _)%Z; simpl; [|intros [= <-]; by left].
    destruct (vector.crossing_intervals _ _) as [[length amp]|]; simpl; [|done].
    destruct (common_lib.variance _ amp _) as [avar|]; simpl; [|done].
    destruct (common_lib.mean_value _ amp _) as [amean|]; simpl; [|done].
    destruct (py.for_each _ _ 0%Z) as [count|]; simpl; [|done].
    destruct (3 <? count)%Z; simpl; intros [= <-]; [|by left].
    right. by eexists.
Qed.

Lemma try_ratios_inv detrend cur (n : Z) ratios init oscis :
  app_gui.try_ratios detrend cur n ratios init = Ok oscis ->
  oscis = init \/ oscis = [] \/
  exists ratio, vector.detect_oscillations detrend cur n ratio = Ok oscis.
Proof.
  revert init. induction ratios as [|ratio ratios IH]; intros init; simpl.
  - intros [= <-]. by left.
  - destruct (vector.detect_oscillations detrend cur n ratio)
      as [regions|] eqn:Hr; simpl; [|done].
    destruct (Z.eqb_spec (py.len regions) 0) as [Hz|Hz].
    + intros [->|Hrest]%IH; [|by right].
      right. left. destruct regions; [done|]. unfold py.len in Hz. simpl in Hz. lia.
    + intros [= <-]. right. right. by exists ratio.
Qed.

(** X7.  Detect Oscillations plots from the start of the first region to
    the end of the last one.  Every region is a window [(i, i + w)] with
    [i + w <= n], so the end lies in [1 .. n].  When the last window of the
    signal is reported the end is [n] and reading [current[n]] raises
    [IndexError]; otherwise the two end points are read from [current].
    With no region the command only warns. *)
Theorem detect_oscillations_plot detrend cur (n : Z) oscis :
  n = py.len cur ->
  app_gui.try_ratios detrend cur n [dec 5 100; dec 1 10] [] = Ok oscis ->
  (oscis = [] -> app_gui.detect_oscillations detrend cur n = Ok None) /\
  (forall a b s e, head oscis = Some (a, b) -> last oscis = Some (s, e) ->
     (0 <= a < e)%Z /\ (e <= n)%Z /\
     (e = n -> app_gui.detect_oscillations detrend cur n = Raise IndexError) /\
     ((e < n)%Z -> exists ya ye,
        cur !! Z.to_nat a = Some ya /\ cur !! Z.to_nat e = Some ye /\
        app_gui.detect_oscillations detrend cur n
        = Ok (Some ([a; e], [ya; ye])))).
Proof.
  intros Hn Hrun. unfold app_gui.detect_oscillations. rewrite Hrun. simpl.
  split; [by intros ->|].
  intros a b s e Hhead Hlast.
  assert (Hne : (py.len oscis =? 0)%Z = false).
  { destruct oscis; [done|]. apply Z.eqb_neq. unfold py.len. simpl. lia. }
  rewrite Hne, (getitem_head _ _ Hhead), (getitem_minus_one _ _ Hlast). simpl.
  apply try_ratios_inv in Hrun as [->|[->|[ratio Hratio]]]; [done..|].
  apply detect_oscillations_trace in Hratio as (w & sel & Hw & Hsub & ->).
  assert (Hin : forall i, i ∈ sel -> (0 <= i <= n - w)%Z).
  { intros i Hi. eapply elem_of_sublist in Hi; [|done].
    apply elem_of_range in Hi. lia. }
  assert (Ha : a ∈ sel /\ b = (a + w)%Z).
  { destruct sel as [|i sel']; [done|]. simpl in Hhead.
    inversion Hhead; subst. split; [by left|done]. }
  assert (Hs : s ∈ sel /\ e = (s + w)%Z).
  { rewrite fmap_last in Hlast. destruct (last sel) as [i|] eqn:Hi; [|done].
    simpl in Hlast. inversion Hlast; subst. split; [|done].
    apply last_Some in Hi as [l' ->]. apply elem_of_app. right. by left. }
  destruct Ha as [Ha ->], Hs as [Hs ->].
  assert (Hle : (a <= s)%Z).
  { apply list_elem_of_lookup_1 in Ha as [ka Hka].
    apply list_elem_of_lookup_1 in Hs as [ks Hks].
    assert (Hsorted : StronglySorted Z.lt sel)
      by exact (sublist_strongly_sorted _ _ _ Hsub (range_sorted _)).
    destruct sel as [|i sel']; [done|]. simpl in Hhead.
    inversion Hhead; subst i. clear Hhead.
    apply StronglySorted_inv in Hsorted as [_ Hall].
    destruct ks as [|ks]; simpl in Hks; [inversion Hks; lia|].
    apply (proj1 (Forall_lookup _ _) Hall) in Hks. lia. }
  pose proof (Hin a Ha). pose proof (Hin s Hs).
  split; [lia|]. split; [lia|]. split.
  - intros Hend.
    destruct (py.getitem cur a) as [y0|err] eqn:Hy0; simpl.
    + rewrite getitem_beyond by lia. done.
    + unfold py.getitem in Hy0. by destruct (_ ≫= _); inversion Hy0.
  - intros Hend.
    destruct (lookup_lt_is_Some_2 cur (Z.to_nat a)) as [ya Hya];
      [unfold py.len in Hn; lia|].
    destruct (lookup_lt_is_Some_2 cur (Z.to_nat (s + w))) as [ye Hye];
      [unfold py.len in Hn; lia|].
    exists ya, ye. split; [done|]. split; [done|].
    rewrite (getitem_lookup cur a ya) by (lia || done). simpl.
    by rewrite (getitem_lookup cur (s + w) ye) by (lia || done).
Qed.

End oscillations.

Lemma detect_oscillations_plot_witness :
  app_gui.detect_oscillations (fun l => Ok l) long_square_wave 480
  = Raise IndexError.
Proof.
  destruct (detect_oscillations_plot (F := float) (fun l => Ok l)
              long_square_wave 480
              ((fun s => (s, s + 48)%Z) <$> (Z.add 13 <$> py.range 420)))
    as [_ Hlast].
  - reflexivity.
  - vm_compute. reflexivity.
  - destruct (Hlast 13%Z 61%Z 432%Z 480%Z) as (_ & _ & Hraise & _).
    + reflexivity.
    + vm_compute. reflexivity.
    + apply Hraise. reflexivity.
Defined.

(** ** The constructor of [vector] *)

Section constructor.
Context {F : Type} `{Number F}.
Implicit Types (σ : store.heap F).

Lemma init_with_header (h : string) (samples : list F) σ :
  exists v σ',
    vector.init (vector.WithHeader h samples) σ = (Ok v, σ') /\
    vector.header v = Some h /\ vector.n v = py.len samples /\
    vector.original_data v <> vector.current v /\
    σ !! vector.original_data v = None /\ σ !! vector.current v = None /\
    σ' !! vector.original_data v = Some samples /\
    σ' !! vector.current v = Some samples /\
    σ ⊆ σ'.
Proof.
  destruct (alloc_spec samples σ) as (r1 & Ha1 & Hr1).
  destruct (alloc_spec samples (<[r1 := samples]> σ)) as (r2 & Ha2 & Hr2).
  destruct (alloc_spec samples (<[r2 := samples]> (<[r1 := samples]> σ)))
    as (r3 & Ha3 & Hr3).
  assert (H12 : r1 <> r2).
  { intros ->. by rewrite lookup_insert_eq in Hr2. }
  assert (H23 : r2 <> r3).
  { intros ->. by rewrite lookup_insert_eq in Hr3. }
  assert (H13 : r1 <> r3).
  { intros ->. by rewrite lookup_insert_ne, lookup_insert_eq in Hr3. }
  rewrite lookup_insert_ne in Hr2 by done.
  rewrite !lookup_insert_ne in Hr3 by done.
  eexists _, _. split.
  { unfold vector.init, vector.check_header, vector.number_values,
      store.bind, store.ret, store.read.
    rewrite Ha1, Ha2, Ha3. reflexivity. }
  simpl. split; [done|]. split.
  { rewrite lookup_total_insert_ne by congruence.
    by rewrite lookup_total_insert_eq. }
  split; [done|]. split; [done|]. split; [done|]. split.
  { rewrite lookup_insert_ne, lookup_insert_ne by congruence.
    apply lookup_insert_eq. }
  split.
  { rewrite lookup_insert_ne by congruence. apply lookup_insert_eq. }
  etrans; [apply (insert_subseteq σ r1 samples Hr1)|].
  etrans; [apply (insert_subseteq _ r2 samples);
           by rewrite lookup_insert_ne by congruence|].
  apply insert_subseteq.
  by rewrite lookup_insert_ne, lookup_insert_ne by congruence.
Qed.

(** X8.  The constructor on a list with a header builds two new list
    objects, one for [original_data] and one for [current], with the same
    samples; on the list object [r] without a header it builds none: both
    attributes name [r] itself.  On an empty list it raises [IndexError]. *)
Theorem init_objects σ :
  (forall h samples, exists v σ',
     vector.init (vector.WithHeader h samples) σ = (Ok v, σ') /\
     vector.header v = Some h /\ vector.n v = py.len samples /\
     vector.original_data v <> vector.current v /\
     σ !! vector.original_data v = None /\ σ !! vector.current v = None /\
     σ' !! vector.original_data v = Some samples /\
     σ' !! vector.current v = Some samples /\
     σ ⊆ σ') /\
  (forall r l, σ !! r = Some l ->
     vector.init (vector.Samples r) σ
     = match l with
       | [] => (Raise IndexError, σ)
       | _ :: _ => (Ok {| vector.original_data := r; vector.current := r;
                          vector.header := None; vector.n := py.len l |}, σ)
       end).
Proof.
  split.
  - intros h samples. apply init_with_header.
  - intros r l Hl.
    unfold vector.init, vector.check_header, vector.number_values,
      store.bind, store.ret, store.read, store.lift.
    rewrite (lookup_total_correct _ _ _ Hl).
    destruct l as [|x l]; [by rewrite getitem_nil|].
    pose proof (getitem_first x l) as Hg.
    repeat (rewrite ?Hg, ?(lookup_total_correct _ _ _ Hl); simpl).
    reflexivity.
Qed.

End constructor.

Lemma init_objects_witness :
  vector.init (vector.Samples 1%positive) {[ 1%positive := four_doubles ]}
  = (Ok {| vector.original_data := 1%positive; vector.current := 1%positive;
           vector.header := None; vector.n := 4 |},
     {[ 1%positive := four_doubles ]}).
Proof.
  apply (proj2 (init_objects (F := float) {[ 1%positive := four_doubles ]})
           1%positive four_doubles).
  reflexivity.
Defined.

(** ** statistical.py in exact arithmetic *)

Section exact_statistics.
Implicit Types (l : list R).

Lemma ltb_exact (x y : R) : (x <? y)%num = true <-> (x < y)%R.
Proof. simpl. by destruct (Rlt_dec x y). Qed.

Lemma ltb_exact_false (x y : R) : (x <? y)%num = false <-> (y <= x)%R.
Proof. simpl. destruct (Rlt_dec x y); split; (done || lra). Qed.

Lemma fold_min l (x : R) :
  let m := fold_left (fun best item => if (item <? best)%num then item else best)
                     l x in
  m ∈ x :: l /\ forall y, y ∈ x :: l -> (m <= y)%R.
Proof.
  cbv zeta. revert x. induction l as [|z l IH]; intros x.
  - split; [by left|]. intros y ->%list_elem_of_singleton. apply Rle_refl.
  - cbn [fold_left]. destruct (z <? x)%num eqn:Hc.
    + apply ltb_exact in Hc. destruct (IH z) as [Hin Hle]. split.
      * by right.
      * intros y [->|Hy]%elem_of_cons; [|by apply Hle].
        eapply Rle_trans; [apply (Hle z); by left|]. lra.
    + apply ltb_exact_false in Hc. destruct (IH x) as [Hin Hle]. split.
      * apply elem_of_cons in Hin as [Heq|Hin]; [rewrite Heq; by left|].
        right. by right.
      * intros y [->|[->|Hy]%elem_of_cons]%elem_of_cons.
        -- apply Hle. by left.
        -- eapply Rle_trans; [apply (Hle x); by left|]. lra.
        -- apply Hle. by right.
Qed.

Lemma fold_max l (x : R) :
  let m := fold_left (fun best item => if (item >? best)%num then item else best)
                     l x in
  m ∈ x :: l /\ forall y, y ∈ x :: l -> (y <= m)%R.
Proof.
  cbv zeta. revert x. induction l as [|z l IH]; intros x.
  - split; [by left|]. intros y ->%list_elem_of_singleton. apply Rle_refl.
  - cbn [fold_left]. destruct (z >? x)%num eqn:Hc.
    + apply ltb_exact in Hc. destruct (IH z) as [Hin Hle]. split.
      * by right.
      * intros y [->|Hy]%elem_of_cons; [|by apply Hle].
        eapply Rle_trans; [|apply (Hle z); by left]. lra.
    + apply ltb_exact_false in Hc. destruct (IH x) as [Hin Hle]. split.
      * apply elem_of_cons in Hin as [Heq|Hin]; [rewrite Heq; by left|].
        right. by right.
      * intros y [->|[->|Hy]%elem_of_cons]%elem_of_cons.
        -- apply Hle. by left.
        -- eapply Rle_trans; [|apply (Hle x); by left]. lra.
        -- apply Hle. by right.
Qed.

(** X9.  In exact arithmetic [min] and [max] return a sample that bounds
    every sample from below and from above, and [range] returns their
    difference, which is not negative; on an empty sequence all three raise
    [ValueError]. *)
Theorem extremes l :
  (l = [] ->
   statistical.min l = Raise ValueError /\
   statistical.max l = Raise ValueError /\
   statistical.range l = Raise ValueError) /\
  (l <> [] -> exists lo hi : R,
     statistical.min l = Ok lo /\ statistical.max l = Ok hi /\
     statistical.range l = Ok (hi - lo)%R /\
     lo ∈ l /\ hi ∈ l /\ (0 <= hi - lo)%R /\
     forall x, x ∈ l -> (lo <= x <= hi)%R).
Proof.
  split; [by intros ->|].
  destruct l as [|x l]; [done|]. intros _.
  destruct (fold_min l x) as [Hlo Hmin], (fold_max l x) as [Hhi Hmax].
  eexists _, _. split; [reflexivity|]. split; [reflexivity|].
  split; [reflexivity|]. split; [exact Hlo|]. split; [exact Hhi|].
  split.
  - specialize (Hmin x ltac:(by left)). specialize (Hmax x ltac:(by left)).
    simpl in *. lra.
  - intros y Hy. split; [by apply Hmin|by apply Hmax].
Qed.

(** *** The sorted sequence *)

Lemma insert_sorted_sorted (x : R) l :
  Sorted Rle l -> Sorted Rle (py.insert_sorted x l).
Proof.
  induction 1 as [|y l Hl IH Hy]; simpl.
  - by repeat constructor.
  - destruct (Rlt_dec y x) as [Hlt|Hge].
    + constructor; [done|].
      destruct l as [|z l]; simpl.
      * constructor. lra.
      * destruct (Rlt_dec z x); constructor; [|lra].
        by apply HdRel_inv in Hy.
    + constructor; [by constructor|]. constructor. lra.
Qed.

Lemma sorted_sorted l : Sorted Rle (py.sorted l).
Proof.
  induction l as [|x l IH]; simpl; [constructor|].
  by apply insert_sorted_sorted.
Qed.

Lemma Rle_transitive : Transitive Rle.
Proof. intros x y z. apply Rle_trans. Qed.

Lemma Rle_antisymmetric : AntiSymm (=) Rle.
Proof. intros x y. apply Rle_antisym. Qed.

(** [sorted] depends on the samples only, not on their order. *)
Lemma sorted_unique l l' : l ≡ₚ l' -> py.sorted l = py.sorted l'.
Proof.
  intros Hp. apply (@Sorted_unique _ Rle Rle_transitive Rle_antisymmetric); [apply sorted_sorted..|].
  by rewrite !sorted_permutation.
Qed.

Lemma median_total {F} `{Number F} (data : list F) (n : Z) :
  n = py.len data -> data <> [] ->
  exists m, statistical.median data n = Ok m /\
    ((n mod 2 = 1)%Z /\ py.sorted data !! Z.to_nat (n / 2) = Some m \/
     (n mod 2 = 0)%Z /\ exists a b,
       py.sorted data !! Z.to_nat (n / 2 - 1) = Some a /\
       py.sorted data !! Z.to_nat (n / 2) = Some b /\
       m = ((a + b) / of_int 2)%num).
Proof.
  intros Hn Hne. unfold statistical.median.
  assert (Hpos : (0 < n)%Z).
  { destruct data; [done|]. unfold py.len in Hn. simpl in Hn. lia. }
  assert (Hlen : length (py.sorted data) = Z.to_nat n).
  { rewrite sorted_length. unfold py.len in Hn. lia. }
  pose proof (Z.mod_pos_bound n 2 ltac:(lia)) as Hmod.
  pose proof (Z.div_mod n 2 ltac:(lia)) as Hdiv.
  destruct (Z.eqb_spec (n mod 2) 1) as [Hodd|Heven].
  - destruct (lookup_lt_is_Some_2 (py.sorted data) (Z.to_nat (n / 2)))
      as [m Hm]; [lia|].
    exists m. split; [apply getitem_lookup; [lia|done]|]. by left.
  - destruct (lookup_lt_is_Some_2 (py.sorted data) (Z.to_nat (n / 2 - 1)))
      as [a Ha]; [lia|].
    destruct (lookup_lt_is_Some_2 (py.sorted data) (Z.to_nat (n / 2)))
      as [b Hb]; [lia|].
    exists ((a + b) / of_int 2)%num. split.
    + rewrite (getitem_lookup (py.sorted data) (n / 2 - 1) a) by (lia || done).
      simpl.
      by rewrite (getitem_lookup (py.sorted data) (n / 2) b) by (lia || done).
    + right. split; [lia|]. by exists a, b.
Qed.

(** X10.  In exact arithmetic the median of a non-empty sequence is defined,
    lies between every lower and every upper bound of the samples, and is
    the same for every rearrangement of the samples. *)
Theorem median_order_free l (n : Z) :
  n = py.len l -> l <> [] ->
  exists m : R,
    statistical.median l n = Ok m /\
    (forall lo hi : R, (forall x, x ∈ l -> (lo <= x <= hi)%R) ->
       (lo <= m <= hi)%R) /\
    (forall l', l' ≡ₚ l -> statistical.median l' n = Ok m).
Proof.
  intros Hn Hne.
  destruct (median_total l n Hn Hne) as (m & Hm & Hcase).
  exists m. split; [done|]. split.
  - intros lo hi Hb.
    assert (Hin : forall k x, py.sorted l !! k = Some x -> (lo <= x <= hi)%R).
    { intros k x Hk. apply Hb. rewrite <- (sorted_permutation l).
      by eapply list_elem_of_lookup_2. }
    destruct Hcase as [[_ Hk]|(_ & a & b & Ha & Hb' & ->)]; [by eapply Hin|].
    apply Hin in Ha, Hb'. simpl. lra.
  - intros l' Hp. unfold statistical.median in *.
    by rewrite (sorted_unique l' l Hp).
Qed.

(** *** Sums *)

Lemma fold_sum (g : R -> R) l (a : R) :
  fold_left (fun s v => s + g v)%R l a
  = (a + fold_left (fun s v => s + g v)%R l 0)%R.
Proof.
  revert a. induction l as [|x l IH]; intros a; simpl; [lra|].
  rewrite IH, (IH (0 + g x)%R). lra.
Qed.

Lemma fold_plus l (a : R) :
  fold_left Rplus l a = (a + fold_left Rplus l 0)%R.
Proof. apply (fold_sum (fun v => v)). Qed.

Lemma squares_nonneg (g : R -> R) l :
  (0 <= fold_left (fun s v => s + g v * g v)%R l 0)%R.
Proof.
  induction l as [|x l IH]; simpl; [lra|].
  rewrite (fold_sum (fun v => g v * g v)%R). nra.
Qed.

Lemma deviations l (mu : R) :
  fold_left (fun s v => s + (v - mu) * (v - mu))%R l 0%R
  = (fold_left (fun s v => s + v * v)%R l 0
     - 2 * mu * fold_left Rplus l 0 + INR (length l) * (mu * mu))%R.
Proof.
  induction l as [|x l IH].
  - simpl. lra.
  - cbn [fold_left length].
    rewrite (fold_sum (fun v => (v - mu) * (v - mu))%R),
      (fold_sum (fun v => v * v)%R), (fold_plus l (0 + x)), IH, S_INR.
    lra.
Qed.

(** X11.  In exact arithmetic, on a non-empty sequence of [n] samples, the
    variance is not negative, the square of [rms] is the variance plus the
    square of the mean, and [energy] is [n] times the square of [rms]. *)
Theorem second_moment l (n : Z) :
  n = py.len l -> l <> [] ->
  exists mean var rms : R,
    statistical.mean_value l n = Ok mean /\
    statistical.variance l n = Ok var /\
    statistical.rms l n = Ok rms /\
    (0 <= var)%R /\ (0 <= rms)%R /\
    (rms * rms = var + mean * mean)%R /\
    statistical.energy l = Ok (IZR n * (rms * rms))%R.
Proof.
  intros -> Hne.
  pose proof (len_nonzero l Hne) as Hnz.
  assert (HnR : (0 < IZR (py.len l))%R).
  { apply IZR_lt. destruct l; [done|]. unfold py.len. simpl. lia. }
  assert (HINR : INR (length l) = IZR (py.len l)) by (by rewrite INR_IZR_INZ).
  unfold statistical.mean_value, statistical.variance, statistical.rms,
    statistical.energy.
  rewrite (mean_value_total py.python_float l Hne),
    (variance_exact py.python_float l Hne),
    !(squares_loop_exact py.python_float (fun v => v)).
  cbn [mbind mret result_bind result_ret].
  rewrite true_div_nonzero by done.
  unfold variance_of, mean_of. simpl.
  set (S1 := fold_left Rplus l 0%R).
  set (S2 := fold_left (fun s v => s + v * v)%R l 0%R).
  assert (HS2 : (0 <= S2)%R) by apply (squares_nonneg (fun v => v)).
  assert (Hq : (0 <= S2 / IZR (py.len l))%R).
  { apply Rmult_le_pos; [done|]. left. by apply Rinv_0_lt_compat. }
  eexists _, _, _. split; [reflexivity|]. split; [reflexivity|].
  split; [reflexivity|].
  rewrite (sqrt_sqrt _ Hq).
  rewrite deviations. fold S1 S2. rewrite HINR.
  split; [|split; [apply sqrt_pos|split; [field; lra|f_equal; field; lra]]].
  pose proof (squares_nonneg (fun v => v - S1 / IZR (py.len l))%R l) as Hdev.
  cbv beta in Hdev. rewrite deviations in Hdev. fold S1 S2 in Hdev.
  rewrite HINR in Hdev.
  apply Rmult_le_pos; [done|]. left. by apply Rinv_0_lt_compat.
Qed.

End exact_statistics.


Lemma extremes_witness :
  exists lo hi : R,
    statistical.min four_reals = Ok lo /\ statistical.max four_reals = Ok hi /\
    statistical.range four_reals = Ok (hi - lo)%R /\
    lo ∈ four_reals /\ hi ∈ four_reals /\ (0 <= hi - lo)%R /\
    forall x, x ∈ four_reals -> (lo <= x <= hi)%R.
Proof. apply (proj2 (extremes four_reals)). discriminate. Defined.

Lemma median_order_free_witness :
  exists m : R,
    statistical.median four_reals 4 = Ok m /\
    (forall lo hi : R, (forall x, x ∈ four_reals -> (lo <= x <= hi)%R) ->
       (lo <= m <= hi)%R) /\
    (forall l', l' ≡ₚ four_reals -> statistical.median l' 4 = Ok m).
Proof.
  apply (median_order_free four_reals 4).
  - reflexivity.
  - discriminate.
Defined.

Lemma second_moment_witness :
  exists mean var rms : R,
    statistical.mean_value four_reals 4 = Ok mean /\
    statistical.variance four_reals 4 = Ok var /\
    statistical.rms four_reals 4 = Ok rms /\
    (0 <= var)%R /\ (0 <= rms)%R /\
    (rms * rms = var + mean * mean)%R /\
    statistical.energy four_reals = Ok (4 * (rms * rms))%R.
Proof.
  apply (second_moment four_reals 4).
  - reflexivity.
  - discriminate.
Defined.

(** ** analysis *)

Section analysis.
Context {F : Type} `{Number F}.
Implicit Types (data : list F).

Lemma moving_average_window data (n w : Z) :
  (0 <= n)%Z ->
  to_int (of_int n / of_int 10)%num = Ok w ->
  if (w =? 0)%Z then statistical.moving_average data n = Raise ZeroDivisionError
  else exists averages, statistical.moving_average data n = Ok averages.
Proof.
  intros Hn Hw. unfold statistical.moving_average. rewrite Hw. simpl.
  destruct (Z.eqb_spec w 0) as [->|Hnz].
  - destruct (range_head (n - 0 + 1)) as [rest ->]; [lia|]. done.
  - eexists.
    apply (for_each_collect _
             (fun i => Ok (py.sum (py.slice data i (i + w)) / of_int w)%num)
             (fun i => (py.sum (py.slice data i (i + w)) / of_int w)%num) []).
    by intros i _.
Qed.

(** [rms] and [energy] run the same loop over the squares [value ** 2]:
    both return, or both raise [OverflowError]. *)
Lemma rms_energy data (n : Z) :
  n <> 0%Z ->
  (exists s, statistical.energy data = Ok s /\
             statistical.rms data n = Ok (sqrt (s / of_int n)%num)) \/
  (statistical.energy data = Raise OverflowError /\
   statistical.rms data n = Raise OverflowError).
Proof.
  intros Hnz. unfold statistical.energy, statistical.rms.
  destruct (squares_loop py.python_float (fun v => v) data (of_int 0))
    as [->|[_ ->]]; [left|by right].
  eexists. split; [reflexivity|]. cbn [mbind result_bind].
  rewrite true_div_nonzero by by apply Z.eqb_neq. reflexivity.
Qed.

(** X12.  [analysis] evaluates the ten statistics in the order of the
    dictionary literal, so it raises as soon as one of them does.  On an
    empty sequence it raises [ZeroDivisionError] (from the mean).  On a
    non-empty one: when [variance] does not return (a squared deviation
    overflows) it raises [OverflowError]; otherwise, when [rms] does not
    return (a squared sample overflows) it raises [OverflowError]; otherwise,
    when the window [int(n / 10)] of the moving average is zero it raises
    [ZeroDivisionError]; otherwise it returns a dictionary with exactly the
    ten keys, among them the moving averages and the energy. *)
Theorem analysis_outcome data (n w : Z) :
  n = py.len data ->
  to_int (of_int n / of_int 10)%num = Ok w ->
  (n = 0%Z -> statistical.analysis data n = Raise ZeroDivisionError) /\
  (n <> 0%Z ->
   (~ returns (statistical.variance data n) ->
    statistical.analysis data n = Raise OverflowError) /\
   (returns (statistical.variance data n) ->
    ~ returns (statistical.rms data n) ->
    statistical.analysis data n = Raise OverflowError) /\
   (returns (statistical.variance data n) ->
    returns (statistical.rms data n) ->
    w = 0%Z ->
    statistical.analysis data n = Raise ZeroDivisionError) /\
   (returns (statistical.variance data n) ->
    returns (statistical.rms data n) ->
    w <> 0%Z ->
    exists d averages energy,
      statistical.analysis data n = Ok d /\
      statistical.moving_average data n = Ok averages /\
      statistical.energy data = Ok energy /\
      d !! "moving_average"%string = Some (statistical.Sequence averages) /\
      d !! "energy"%string = Some (statistical.Scalar energy) /\
      dom d = list_to_set
                ["mean_value"; "median"; "variance"; "std_dev"; "min"; "max";
                 "range"; "rms"; "moving_average"; "energy"]%string)).
Proof.
  intros Hn Hw.
  pose proof (len_nonneg data) as Hpos.
  pose proof (moving_average_window data n w ltac:(lia) Hw) as Hma.
  split.
  { intros Hz. destruct data as [|x data].
    - subst n. reflexivity.
    - rewrite Hn in Hz. unfold py.len in Hz. simpl in Hz. lia. }
  intros Hnz.
  assert (Hne : data <> []).
  { intros ->. by unfold py.len in Hn. }
  destruct (median_total data n Hn Hne) as (med & Hmed & _).
  assert (Hmin : exists lo, statistical.min data = Ok lo)
    by (destruct data; [done|by eexists]).
  assert (Hmax : exists hi, statistical.max data = Ok hi)
    by (destruct data; [done|by eexists]).
  destruct Hmin as [lo Hlo], Hmax as [hi Hhi].
  assert (Hvar : statistical.variance data n = Ok (variance_of data) \/
                 statistical.variance data n = Raise OverflowError).
  { unfold statistical.variance. rewrite Hn.
    destruct (variance_cases py.python_float data Hne) as [?|[_ ?]]; eauto. }
  assert (Hshape :
    statistical.analysis data n
    = (variance ← statistical.variance data n;
       rms ← statistical.rms data n;
       moving_average ← statistical.moving_average data n;
       energy ← statistical.energy data;
       mret (list_to_map
               [("mean_value"%string, statistical.Scalar (mean_of data));
                ("median"%string, statistical.Scalar med);
                ("variance"%string, statistical.Scalar variance);
                ("std_dev"%string,
                 statistical.Scalar (common_lib.std_dev variance));
                ("min"%string, statistical.Scalar lo);
                ("max"%string, statistical.Scalar hi);
                ("range"%string, statistical.Scalar (hi - lo)%num);
                ("rms"%string, statistical.Scalar rms);
                ("moving_average"%string, statistical.Sequence moving_average);
                ("energy"%string, statistical.Scalar energy)]))).
  { unfold statistical.analysis, statistical.std_dev, statistical.range.
    rewrite Hmed, Hlo, Hhi. unfold statistical.mean_value.
    rewrite Hn, (mean_value_total py.python_float data Hne).
    cbn [mbind result_bind].
    by destruct (statistical.variance data (py.len data)). }
  rewrite Hshape.
  split; [|split; [|split]].
  - intros Hno. destruct Hvar as [Hv|Hv]; [|by rewrite Hv].
    exfalso. apply Hno. by eexists.
  - intros [v Hv] Hno. rewrite Hv. cbn [mbind result_bind].
    destruct (rms_energy data n Hnz) as [(s & _ & Hr)|[_ Hr]]; [|by rewrite Hr].
    exfalso. apply Hno. by eexists.
  - intros [v Hv] [r Hr] ->. rewrite Hv, Hr. cbn [mbind result_bind].
    simpl in Hma. by rewrite Hma.
  - intros [v Hv] [r Hr] Hwz. rewrite Hv, Hr. cbn [mbind result_bind].
    destruct (Z.eqb_spec w 0) as [|_]; [done|].
    destruct Hma as [averages Hma]. rewrite Hma. cbn [mbind result_bind].
    destruct (rms_energy data n Hnz) as [(s & He & _)|[_ Hr']];
      [|congruence].
    rewrite He. simpl.
    eexists _, averages, s. split; [reflexivity|]. split; [done|].
    split; [done|]. split; [by vm_compute|]. split; [by vm_compute|].
    rewrite !dom_insert_L, dom_empty_L. reflexivity.
Qed.

End analysis.

Lemma analysis_outcome_witness :
  statistical.analysis four_doubles 4 = Raise ZeroDivisionError.
Proof.
  apply (analysis_outcome (F := float) four_doubles 4 0).
  - reflexivity.
  - vm_compute. reflexivity.
  - discriminate.
  - apply returns_ok. vm_compute. reflexivity.
  - apply returns_ok. vm_compute. reflexivity.
  - reflexivity.
Defined.

(** A large sample makes [analysis] raise [OverflowError]: the deviation of
    [2 ** 700] from the mean [2 ** 699] is finite and its square is not. *)
Example analysis_large_sample :
  statistical.analysis [0x1p700%float; 0%float] 2 = Raise OverflowError.
Proof. vm_compute. reflexivity. Qed.

(** ** integral *)

Section running_sums.
Context {F : Type} `{Number F}.

Lemma cumsum_from_lookup (s : F) (a : list F) (k : nat) (x : F) :
  a !! k = Some x ->
  exists t, (s :: signal_process.cumsum_from s a) !! k = Some t /\
            signal_process.cumsum_from s a !! k = Some (t + x)%num.
Proof.
  revert s k. induction a as [|y a IH]; intros s k Hk; [done|].
  destruct k as [|k]; simpl in *.
  - inversion Hk; subst. by exists s.
  - by apply IH.
Qed.

End running_sums.

(** X13.  Integrate Signal in exact arithmetic: [integral] builds a new
    list of the length of the signal and leaves every other list unchanged;
    its first value is [0], and each further value adds the area
    [time_step * (y[k+1] + y[k]) / 2] of one trapezoid to the value before. *)
Theorem integral_trapezoids (self : signal_process.t (F := R))
    (σ : store.heap R) (y : list R) :
  σ !! signal_process.vector_data self = Some y -> y <> [] ->
  exists r integ,
    signal_process.integral self σ = (Ok r, <[r := integ]> σ) /\
    σ !! r = None /\
    length integ = length y /\
    integ !! 0%nat = Some 0%R /\
    forall (k : nat) (a b : R), y !! k = Some a -> y !! S k = Some b ->
      exists s : R,
        integ !! k = Some s /\
        integ !! S k
        = Some (s + signal_process.time_step self * (b + a) / 2)%R.
Proof.
  intros Hy Hne. destruct y as [|y0 rest]; [done|].
  set (dx := signal_process.time_step self).
  set (areas := zip_with (fun a b => (dx * (b + a) / 2)%R) (y0 :: rest) rest).
  destruct (alloc_spec (0%R :: signal_process.cumsum areas) σ)
    as (r & Halloc & Hr).
  exists r, (0%R :: signal_process.cumsum areas).
  split; [|split; [done|split; [|split; [done|]]]].
  - unfold signal_process.integral, store.bind, store.read, store.lift.
    rewrite (lookup_total_correct _ _ _ Hy). simpl. exact Halloc.
  - cbn [length]. rewrite cumsum_length. unfold areas.
    rewrite length_zip_with. cbn [length]. lia.
  - intros k a b Ha Hb.
    assert (Harea : areas !! k = Some (dx * (b + a) / 2)%R).
    { unfold areas. rewrite lookup_zip_with. simpl in Hb.
      by rewrite Ha, Hb. }
    destruct areas as [|x areas'] eqn:Hareas; [done|].
    destruct k as [|k]; simpl in *.
    + inversion Harea; subst. exists 0%R. split; [done|]. f_equal. lra.
    + destruct (cumsum_from_lookup x areas' k _ Harea) as (t & Ht & Ht').
      exists t. split; [done|]. exact Ht'.
Qed.

Lemma integral_trapezoids_witness :
  exists r integ,
    signal_process.integral
      (signal_process.init
         {| vector.original_data := 1%positive; vector.current := 1%positive;
            vector.header := None; vector.n := 3 |} 2%R)
      {[ 1%positive := [1%R; 3%R; 2%R] ]}
    = (Ok r, <[r := integ]> {[ 1%positive := [1%R; 3%R; 2%R] ]}) /\
    ({[ 1%positive := [1%R; 3%R; 2%R] ]} : store.heap R) !! r = None /\
    length integ = 3%nat /\
    integ !! 0%nat = Some 0%R /\
    forall (k : nat) (a b : R),
      [1%R; 3%R; 2%R] !! k = Some a -> [1%R; 3%R; 2%R] !! S k = Some b ->
      exists s : R,
        integ !! k = Some s /\ integ !! S k = Some (s + 2 * (b + a) / 2)%R.
Proof.
  apply (integral_trapezoids
           (signal_process.init
              {| vector.original_data := 1%positive;
                 vector.current := 1%positive;
                 vector.header := None; vector.n := 3 |} 2%R)
           {[ 1%positive := [1%R; 3%R; 2%R] ]} [1%R; 3%R; 2%R]).
  - reflexivity.
  - discriminate.
Defined.

(** ** restore_spikes on an index out of range *)

Section partial_restore.
Context {F : Type} `{Number F}.
Implicit Types (σ : store.heap F) (f : list F).

Lemma store_for_each_app {A} (xs ys : list A) (body : A -> store.M F unit) σ :
  store.for_each (xs ++ ys) body σ
  = store.bind (store.for_each xs body) (fun _ => store.for_each ys body) σ.
Proof.
  revert σ. induction xs as [|x xs IH]; intros σ; simpl; [done|].
  unfold store.bind in *.
  destruct (body x σ) as [[[]|e] σ']; [|done]. apply IH.
Qed.

Lemma position_invalid {A} (l : list A) (i : Z) :
  (py.len l <= i \/ i < - py.len l)%Z -> py.position l i = None.
Proof.
  intros Hi. pose proof (len_nonneg l). unfold py.position.
  destruct (Z.leb_spec 0 i).
  - by destruct (Z.ltb_spec i (py.len l)); [lia|].
  - by destruct (Z.leb_spec (- py.len l) i); [lia|].
Qed.

(** X14.  [restore_spikes] stops at the first spike whose index is not an
    index of [vec]: it raises [IndexError], the spikes before it have
    already been written into [vec], and the spikes after it are not
    written. *)
Theorem restore_spikes_partial (before after : list (Z * F)) (i : Z) (v : F)
    (vec : store.loc) σ f :
  σ !! vec = Some f ->
  Forall (fun p => (0 <= fst p < py.len f)%Z) before ->
  (py.len f <= i \/ i < - py.len f)%Z ->
  vector.restore_spikes (before ++ (i, v) :: after) vec σ
  = (Raise IndexError, <[vec := overwrite before f]> σ).
Proof.
  intros Hvec Hvalid Hi.
  pose proof (restore_spikes_valid before vec σ f Hvec Hvalid) as Hpre.
  unfold vector.restore_spikes, store.bind in *.
  rewrite store_for_each_app. unfold store.bind at 1.
  destruct (store.for_each before _ σ) as [[[]|e] σ1]; [|done].
  inversion Hpre; subst σ1. clear Hpre. simpl.
  unfold store.bind, store.store_item, py.setitem. simpl.
  rewrite lookup_total_insert_eq.
  rewrite position_invalid; [done|].
  unfold py.len in *. by rewrite overwrite_length.
Qed.

End partial_restore.

Lemma restore_spikes_partial_witness :
  vector.restore_spikes [(0%Z, 9%float); (4%Z, 7%float); (1%Z, 8%float)]
    1%positive {[ 1%positive := four_doubles ]}
  = (Raise IndexError,
     <[1%positive := overwrite [(0%Z, 9%float)] four_doubles]>
       {[ 1%positive := four_doubles ]}).
Proof.
  apply (restore_spikes_partial (F := float) [(0%Z, 9%float)]
           [(1%Z, 8%float)] 4 7%float 1%positive
           {[ 1%positive := four_doubles ]} four_doubles).
  - reflexivity.
  - constructor; [|constructor]. unfold py.len. simpl. lia.
  - left. unfold py.len. simpl. lia.
Defined.

(** ** data.py *)


Lemma enumerate_snoc {A} (l : list A) (x : A) :
  vector.enumerate (l ++ [x]) = vector.enumerate l ++ [(py.len l, x)].
Proof.
  unfold vector.enumerate. rewrite len_app.
  change (py.len [x]) with 1%Z. rewrite range_succ by apply len_nonneg.
  rewrite zip_with_app by (rewrite range_length; unfold py.len; lia).
  done.
Qed.

Lemma zip_with_fmap_same {A B C D} (f : B -> C -> D) (g : A -> B) (h : A -> C)
    (l : list A) :
  zip_with f (g <$> l) (h <$> l) = (fun x => f (g x) (h x)) <$> l.
Proof.
  induction l as [|x l IH]; [done|].
  rewrite !fmap_cons. cbn [zip_with]. by rewrite IH.
Qed.

Section table.
Context {F : Type} `{Number F}.
Context (float_of_string : string -> result F) (value : string -> F).
Implicit Types (raw : list (list string)) (σ : store.heap F).


Lemma append_row_prefix raw (n : Z) (vs : list (list data.cell)) (i : Z)
    (row : list string) (cs : list data.cell) (m : nat) :
  (0 <= i)%Z -> raw !! Z.to_nat i = Some row ->
  length vs = length cs ->
  (forall (j : nat) c, cs !! j = Some c ->
     exists s, row !! j = Some s /\ data.entry float_of_string i s = Ok c) ->
  (m <= length cs)%nat ->
  py.for_each (py.range (Z.of_nat m))
    (fun vectors j =>
       column ← py.getitem vectors j;
       row ← py.getitem raw i;
       s ← py.getitem row j;
       c ← data.entry float_of_string i s;
       py.setitem vectors j (column ++ [c]))
    vs
  = Ok (zip_with (fun col c => col ++ [c]) (take m vs) (take m cs)
        ++ drop m vs).
Proof.
  intros Hi Hrow Hlen Hcs. induction m as [|m IH]; intros Hm.
  - simpl. by rewrite drop_0.
  - replace (Z.of_nat (S m)) with (Z.of_nat m + 1)%Z by lia.
    rewrite range_succ by lia. rewrite for_each_app, IH by lia. simpl.
    destruct (lookup_lt_is_Some_2 vs m) as [col Hcol]; [lia|].
    destruct (lookup_lt_is_Some_2 cs m) as [c Hc]; [lia|].
    destruct (Hcs m c Hc) as (s & Hs & Hentry).
    set (done_ := zip_with (fun col c => col ++ [c]) (take m vs) (take m cs)).
    assert (Hdone : length done_ = m).
    { unfold done_. rewrite length_zip_with, !length_take. lia. }
    assert (Hat : (done_ ++ drop m vs) !! m = Some col).
    { rewrite lookup_app_r by lia. rewrite Hdone, Nat.sub_diag.
      by rewrite lookup_drop, Nat.add_0_r. }
    rewrite (getitem_lookup _ (Z.of_nat m) col) by (lia || by rewrite Nat2Z.id).
    simpl. rewrite (getitem_lookup raw i row) by done. simpl.
    rewrite (getitem_lookup row (Z.of_nat m) s) by (lia || by rewrite Nat2Z.id).
    simpl. rewrite Hentry. simpl.
    unfold py.setitem. rewrite position_nonneg.
    2:{ unfold py.len. rewrite length_app, Hdone, length_drop. lia. }
    f_equal. rewrite Nat2Z.id.
    rewrite (take_S_r vs m col Hcol), (take_S_r cs m c Hc).
    rewrite zip_with_app by (rewrite !length_take; lia). fold done_.
    rewrite <- app_assoc. simpl.
    rewrite (drop_S vs col m Hcol).
    rewrite insert_app_r_alt by lia. by rewrite Hdone, Nat.sub_diag.
Qed.

Lemma columns_prefix raw (p : nat) (k : nat) :
  table float_of_string value p raw ->
  (k <= length raw)%nat ->
  py.for_each (take k (vector.enumerate raw))
    (fun vectors '(i, _) =>
       data.append_row float_of_string raw (Z.of_nat p) vectors i)
    (replicate p [])
  = Ok ((fun j => column_at value (take k raw) j) <$> seq 0 p).
Proof.
  intros Htable. induction k as [|k IH]; intros Hk.
  - simpl. f_equal. rewrite take_0. clear. generalize 0%nat.
    induction p as [|q IHq]; intros st; [done|].
    cbn [seq replicate]. rewrite fmap_cons. f_equal. apply IHq.
  - destruct (lookup_lt_is_Some_2 raw k) as [row Hrow]; [lia|].
    assert (Henum : vector.enumerate raw !! k = Some (Z.of_nat k, row)).
    { unfold vector.enumerate. apply lookup_zip_with_Some.
      exists (Z.of_nat k), row. split; [done|]. split; [|done].
      apply range_lookup. unfold py.len. lia. }
    rewrite (take_S_r _ _ _ Henum), for_each_app, IH by lia. simpl.
    unfold data.append_row.
    destruct (Htable k row Hrow) as [Hwide Hparse].
    rewrite (append_row_prefix raw (Z.of_nat p) _ (Z.of_nat k) row
               ((fun j => entry_at value k row j) <$> seq 0 p) p).
    + rewrite (take_ge (_ <$> seq 0 p)) by (rewrite length_fmap, length_seq; lia).
      rewrite (take_ge (_ <$> seq 0 p)) by (rewrite length_fmap, length_seq; lia).
      rewrite drop_ge, app_nil_r by (rewrite length_fmap, length_seq; lia).
      rewrite zip_with_fmap_same. simpl. f_equal. apply list_fmap_ext. intros _ j _.
      unfold column_at. rewrite (take_S_r raw k row Hrow), imap_app. simpl.
      rewrite length_take, Nat.min_l by lia. by rewrite Nat.add_0_r.
    + lia.
    + by rewrite Nat2Z.id.
    + by rewrite !length_fmap.
    + intros j c Hc. rewrite list_lookup_fmap in Hc.
      destruct (seq 0 p !! j) as [j'|] eqn:Hj; [|done].
      apply lookup_seq in Hj as [-> Hj]. simpl in Hc. inversion Hc; subst c.
      destruct (lookup_lt_is_Some_2 row j) as [s Hs]; [lia|].
      exists s. split; [done|]. unfold data.entry, entry_at, cell_at.
      rewrite Hs. simpl. destruct k as [|k']; [done|].
      destruct (Z.eqb_spec (Z.of_nat (S k')) 0) as [|_]; [lia|].
      by rewrite (Hparse ltac:(done) j s Hj Hs).
    + rewrite length_fmap, length_seq. lia.
Qed.

Lemma columns_ok raw (p : nat) :
  table float_of_string value p raw ->
  data.columns float_of_string raw (Z.of_nat p)
  = Ok ((fun j => column_at value raw j) <$> seq 0 p).
Proof.
  intros Htable. unfold data.columns. rewrite Nat2Z.id.
  pose proof (columns_prefix raw p (length raw) Htable ltac:(lia)) as Hall.
  rewrite !firstn_all2 in Hall; [done|lia|].
  unfold vector.enumerate. rewrite length_zip_with, range_length.
  unfold py.len. lia.
Qed.

Lemma column_at_cons (hdr : list string) rows (j : nat) :
  column_at value (hdr :: rows) j
  = data.Str (cell_at hdr j)
    :: (data.Num <$> samples_at value (hdr :: rows) j).
Proof.
  unfold column_at, samples_at. simpl. f_equal. rewrite drop_0.
  rewrite <- list_fmap_compose. generalize 0%nat.
  induction rows as [|row rows IH]; intros st; simpl; [done|].
  f_equal. apply (IH (S st)).
Qed.

Lemma numbers_num (xs : list F) : data.numbers (data.Num <$> xs) = xs.
Proof.
  unfold data.numbers. induction xs as [|x xs IH]; simpl; [done|].
  by f_equal.
Qed.

Lemma build_headers (cols : list (list data.cell)) σ :
  Forall (fun col => exists h xs, col = data.Str h :: (data.Num <$> xs)) cols ->
  exists vs σ',
    data.build cols σ = (Ok vs, σ') /\ σ ⊆ σ' /\
    Forall2 (fun col v =>
      exists h xs, col = data.Str h :: (data.Num <$> xs) /\
        vector.header v = Some h /\ vector.n v = py.len xs /\
        vector.original_data v <> vector.current v /\
        σ !! vector.original_data v = None /\
        σ !! vector.current v = None /\
        σ' !! vector.original_data v = Some xs /\
        σ' !! vector.current v = Some xs) cols vs.
Proof.
  intros Hcols. revert σ. induction Hcols as [|col cols (h & xs & ->) _ IH];
    intros σ.
  - exists [], σ. split; [done|]. split; [done|]. constructor.
  - destruct (init_with_header h xs σ)
      as (v & σ1 & Hinit & Hh & Hn & Hne & Ho & Hc & Ho1 & Hc1 & Hsub).
    destruct (IH σ1) as (vs & σ' & Hbuild & Hsub' & Hall).
    exists (v :: vs), σ'. split; [|split].
    + simpl. unfold store.bind. rewrite numbers_num, Hinit, Hbuild. done.
    + by etrans.
    + constructor.
      * exists h, xs. split; [done|]. split; [done|]. split; [done|].
        split; [done|]. split; [done|]. split; [done|].
        split; by eapply lookup_weaken.
      * eapply Forall2_impl; [exact Hall|].
        intros col' v' (h' & xs' & -> & ? & ? & ? & Ho' & Hc' & ? & ?).
        exists h', xs'. split; [done|]. split; [done|]. split; [done|].
        split; [done|].
        split; [by eapply lookup_weaken_None|].
        split; [by eapply lookup_weaken_None|]. done.
Qed.

End table.

Section loading.
Context {F : Type} `{Number F}.
Context (float_of_string : string -> result F) (value : string -> F).
Implicit Types (raw : list (list string)) (σ : store.heap F).

Lemma create_data_vectors_ok raw (p : nat) σ :
  table float_of_string value p raw -> raw <> [] ->
  exists vs σ',
    data.create_data_vectors float_of_string raw (Z.of_nat p) σ
    = (Ok vs, σ') /\
    σ ⊆ σ' /\ length vs = p /\
    forall j : nat, (j < p)%nat ->
      exists v, vs !! j = Some v /\
        vector.header v = Some (header_of raw j) /\
        vector.n v = (py.len raw - 1)%Z /\
        vector.original_data v <> vector.current v /\
        σ' !! vector.original_data v = Some (samples_at value raw j) /\
        σ' !! vector.current v = Some (samples_at value raw j).
Proof.
  intros Htable Hne. destruct raw as [|hdr rows]; [done|].
  set (cols := (fun j => column_at value (hdr :: rows) j) <$> seq 0 p).
  assert (Hcols : Forall (fun col => exists h xs,
            col = data.Str h :: (data.Num <$> xs)) cols).
  { apply Forall_forall. intros col (j & -> & _)%list_elem_of_fmap.
    rewrite column_at_cons. by eexists _, _. }
  destruct (build_headers cols σ Hcols) as (vs & σ' & Hbuild & Hsub & Hall).
  exists vs, σ'. split; [|split; [done|split]].
  - unfold data.create_data_vectors, store.bind, store.lift.
    by rewrite (columns_ok float_of_string value _ p Htable).
  - apply Forall2_length in Hall. rewrite <- Hall. unfold cols.
    by rewrite length_fmap, length_seq.
  - intros j Hj.
    assert (Hcol : cols !! j = Some (column_at value (hdr :: rows) j)).
    { unfold cols. rewrite list_lookup_fmap, lookup_seq_lt by done. done. }
    destruct (Forall2_lookup_l _ _ _ _ _ Hall Hcol)
      as (v & Hv & h & xs & Heq & Hh & Hn & Hdiff & _ & _ & Ho & Hc).
    rewrite column_at_cons in Heq. inversion Heq as [[Hh' Hxs]].
    apply (f_equal data.numbers) in Hxs. rewrite !numbers_num in Hxs.
    subst h xs.
    exists v. split; [done|]. split; [done|]. split; [|done].
    rewrite Hn. unfold samples_at, py.len. rewrite length_fmap. simpl.
    rewrite drop_0. lia.
Qed.

(** X15.  [create_data_vectors] turns the rows of a table into one vector
    per column: the string of the first row is the header, whether it is a
    title or a number, and the rows after the first give the samples, in
    order.  Every vector gets two new list objects of its own. *)
Theorem create_data_vectors_columns raw (p : nat) σ :
  table float_of_string value p raw -> raw <> [] ->
  exists vs σ',
    data.create_data_vectors float_of_string raw (Z.of_nat p) σ
    = (Ok vs, σ') /\
    σ ⊆ σ' /\ length vs = p /\
    forall j : nat, (j < p)%nat ->
      exists v, vs !! j = Some v /\
        vector.header v = Some (header_of raw j) /\
        vector.n v = (py.len raw - 1)%Z /\
        vector.original_data v <> vector.current v /\
        σ' !! vector.original_data v = Some (samples_at value raw j) /\
        σ' !! vector.current v = Some (samples_at value raw j).
Proof. apply create_data_vectors_ok. Qed.

(** X16.  The constructor of [data] on a table whose first row has at
    least one string: the time step is the second sample of the first column
    minus its first sample.  With fewer than two rows after the first it
    raises [IndexError], after the vectors have been built. *)
Theorem init_time_step (hdr : list string) (rows : list (list string)) σ :
  hdr <> [] ->
  table float_of_string value (length hdr) (hdr :: rows) ->
  exists vs σ',
    σ ⊆ σ' /\ length vs = length hdr /\
    data.init float_of_string (hdr :: rows) σ
    = match samples_at value (hdr :: rows) 0 with
      | x0 :: x1 :: _ =>
          (Ok {| data.raw_data := hdr :: rows;
                 data.n_vectors := py.len hdr;
                 data.vectors := vs;
                 data.time_step := (x1 - x0)%num |}, σ')
      | _ => (Raise IndexError, σ')
      end.
Proof.
  intros Hhdr Htable.
  destruct (create_data_vectors_ok (hdr :: rows) (length hdr) σ Htable
              ltac:(done)) as (vs & σ' & Hcreate & Hsub & Hlen & Hcolumn).
  destruct (Hcolumn 0%nat) as (v & Hv & _ & _ & _ & Ho & _).
  { destruct hdr; [done|]. simpl. lia. }
  exists vs, σ'. split; [done|]. split; [done|].
  unfold data.init, data.number_vectors, store.bind, store.lift, store.read,
    store.ret.
  rewrite getitem_first. simpl. fold (py.len hdr).
  unfold py.len at 1. rewrite Hcreate.
  assert (Hfirst : py.getitem vs 0 = Ok v) by (by apply getitem_lookup).
  rewrite Hfirst, (lookup_total_correct _ _ _ Ho).
  destruct (samples_at value (hdr :: rows) 0) as [|x0 [|x1 xs]]; try done.
  by rewrite (getitem_lookup (x0 :: x1 :: xs) 1 x1), getitem_first by done.
Qed.

End loading.


Lemma readings_table (p : nat) :
  (p <= 2)%nat -> table (fun s => Ok (reading s)) reading p readings.
Proof.
  intros Hp i row Hrow. split; [|done].
  unfold readings in Hrow.
  do 4 (destruct i as [|i]; [inversion Hrow; subst; simpl; lia|]).
  inversion Hrow.
Qed.

Lemma create_data_vectors_columns_witness :
  exists vs σ',
    data.create_data_vectors (fun s => Ok (reading s)) readings 2 ∅
    = (Ok vs, σ') /\
    (∅ : store.heap float) ⊆ σ' /\ length vs = 2%nat /\
    forall j : nat, (j < 2)%nat ->
      exists v, vs !! j = Some v /\
        vector.header v = Some (header_of readings j) /\
        vector.n v = (py.len readings - 1)%Z /\
        vector.original_data v <> vector.current v /\
        σ' !! vector.original_data v = Some (samples_at reading readings j) /\
        σ' !! vector.current v = Some (samples_at reading readings j).
Proof.
  apply (create_data_vectors_columns (F := float) (fun s => Ok (reading s))
           reading readings 2 ∅).
  - apply readings_table. lia.
  - discriminate.
Defined.

Lemma init_time_step_witness :
  exists vs σ',
    (∅ : store.heap float) ⊆ σ' /\ length vs = 2%nat /\
    data.init (fun s => Ok (reading s)) readings ∅
    = (Ok {| data.raw_data := readings; data.n_vectors := 2;
             data.vectors := vs; data.time_step := 0.5%float |}, σ').
Proof.
  destruct (init_time_step (F := float) (fun s => Ok (reading s)) reading
              ["t"; "x"]%string
              [["a"; "b"]; ["c"; "d"]; ["e"; "f"]]%string ∅)
    as (vs & σ' & Hsub & Hlen & Hinit).
  - discriminate.
  - apply (readings_table 2). lia.
  - exists vs, σ'. split; [exact Hsub|]. split; [exact Hlen|]. exact Hinit.
Defined.

(** ** detect_spikes on a constant signal *)

Lemma slice_elem_of {A} (l : list A) (a b : Z) (x : A) :
  x ∈ py.slice l a b -> x ∈ l.
Proof.
  unfold py.slice. intros Hx.
  eapply elem_of_sublist; [exact Hx|].
  etrans; [apply sublist_take|apply sublist_drop].
Qed.

(** X17.  In exact arithmetic [detect_spikes] reports no spike on a
    constant signal: every window has the standard deviation [0] once its
    centre is removed, so the test [local_std > 0] fails at every index. *)
Theorem detect_spikes_constant (x : R) (k : nat) :
  (1 <= k)%nat ->
  vector.detect_spikes (F := R) (replicate k x) (Z.of_nat k) = Ok [].
Proof.
  intros Hk. unfold vector.detect_spikes. cbn [to_int exact mbind result_bind].
  set (window_size := Z.max _ 10).
  assert (Hws : (10 <= window_size)%Z) by (subst window_size; lia).
  set (h := Z.to_nat (window_size / 2)).
  assert (Hh : (5 <= Z.of_nat h)%Z).
  { subst h. rewrite Z2Nat.id by (apply Z.div_pos; lia).
    apply Z.div_le_lower_bound; lia. }
  assert (Hhw : (2 * Z.of_nat h <= window_size <= 2 * Z.of_nat h + 1)%Z).
  { subst h. rewrite Z2Nat.id by (apply Z.div_pos; lia).
    pose proof (Z.div_mod window_size 2 ltac:(lia)).
    pose proof (Z.mod_pos_bound window_size 2 ltac:(lia)). lia. }
  assert (Hpad : common_lib.padded_data (replicate k x) window_size
                 = Ok (replicate (h + k + h) x)).
  { destruct (padded_data_ok (replicate k x) window_size)
      as (first & last_ & Hfirst & Hlast & ->).
    { destruct k; [lia|done]. }
    destruct k as [|k']; [lia|]. simpl in Hfirst. inversion Hfirst; subst first.
    rewrite replicate_S_end, last_snoc in Hlast.
    inversion Hlast; subst last_. fold h.
    by rewrite <- !replicate_add, Nat.add_assoc. }
  rewrite Hpad. simpl.
  rewrite variance_constant by done. simpl.
  apply for_each_unchanged. intros spikes i [Hi0 Hi1]%elem_of_range.
  set (window := py.slice (replicate (h + k + h) x) i (i + window_size)).
  set (rest := py.slice_to window (window_size / 2)
               ++ py.slice_from window (window_size / 2 + 1)).
  assert (Hwin : py.len window = window_size).
  { unfold window. rewrite slice_length; [lia|lia|].
    unfold py.len. rewrite length_replicate. lia. }
  assert (Hlen : (1 <= length rest)%nat).
  { unfold rest. rewrite slice_to_nonneg, slice_from_nonneg
      by (pose proof (Z.div_pos window_size 2); lia).
    rewrite length_app, length_take, length_drop.
    unfold py.len in Hwin. fold h. lia. }
  assert (Hrest : rest = replicate (length rest) x).
  { symmetry. apply replicate_as_elem_of. split; [done|].
    intros y Hy. unfold rest, py.slice_to, py.slice_from in Hy.
    apply elem_of_app in Hy as [Hy|Hy].
    - eapply elem_of_sublist in Hy; [|apply sublist_take].
      apply slice_elem_of in Hy.
      by apply elem_of_replicate in Hy as [-> _].
    - eapply elem_of_sublist in Hy; [|apply sublist_drop].
      apply slice_elem_of in Hy.
      by apply elem_of_replicate in Hy as [-> _]. }
  rewrite mean_value_total by (destruct rest; [simpl in Hlen; lia|done]).
  simpl. rewrite Hrest at 1. unfold py.len.
  rewrite variance_constant by done. simpl.
  unfold common_lib.std_dev. simpl. rewrite sqrt_0.
  destruct (Rlt_dec 0 0) as [Hlt|_]; [lra|done].
Qed.

Lemma detect_spikes_constant_witness :
  vector.detect_spikes (F := R) (replicate 23 5%R) 23 = Ok [].
Proof. apply (detect_spikes_constant 5%R 23). lia. Defined.
